(** * The calendar day-data engine of [src/components/Calendar.tsx]

  A shallow embedding of the logic of the calendar component: the merge of
  built-in day facts with custom holiday ranges ([combineDayData]), the
  42-cell month grid ([MonthView]'s [days]), the block-edge flags of the
  grid cells, the holiday progress of the reference date
  ([holidayProgress]) and the two state updates [toggleMark] and
  [handleSaveCustomHoliday].  Beside them: the list of months the
  component scrolls through ([monthsWindow]), the month keys and
  [handleScroll], what the bottom panel reads of the selected date, and
  the text of the date calculator.

  The component runs on the platform's [Date] and on two npm packages
  (date-fns and lunar-javascript).  [Date] is modelled after ECMA-262
  (section "Date Objects"), date-fns after its documented behaviour, and
  lunar-javascript is an oracle: a parameter of every definition that
  consults it. *)

From stdpp Require Import gmap strings list.
From Stdlib Require Import ZArith Lia Ascii String DecimalString.

#[local] Set Warnings "-clear-no-such-hyp".

Local Open Scope Z_scope.

(** ** The platform's [Date]

  A [Date] is its time value, here the local time value in milliseconds
  (ECMA-262 LocalTime), an unbounded integer: time zones, daylight saving
  and the range limit of time values are outside the model, every date is
  a valid one.  The definitions follow ECMA-262's "Day Number and Time
  within Day", "Year Number", "Month Number", "Date Number", "Week Day",
  MakeDay and MakeDate. *)
Module JSDate.

Definition msPerDay : Z := 86400000.

Definition Day (t : Z) : Z := t / msPerDay.

Definition TimeWithinDay (t : Z) : Z := t mod msPerDay.

Definition DaysInYear (y : Z) : Z :=
  if negb (y mod 4 =? 0) then 365
  else if negb (y mod 100 =? 0) then 366
  else if negb (y mod 400 =? 0) then 365
  else 366.

Definition DayFromYear (y : Z) : Z :=
  365 * (y - 1970) + (y - 1969) / 4 - (y - 1901) / 100 + (y - 1601) / 400.

(** ECMA-262 defines YearFromTime(t) as the largest [y] with
    [TimeFromYear y <= t]; [yearFromDay] computes it from an estimate that
    is off by at most one year ([yearFromDay_spec] below). *)
Definition yearFromDay (d : Z) : Z :=
  let y0 := 1970 + d * 400 / 146097 in
  if d <? DayFromYear y0 then y0 - 1
  else if DayFromYear (y0 + 1) <=? d then y0 + 1
  else y0.

Definition YearFromTime (t : Z) : Z := yearFromDay (Day t).

Definition leapDays (y : Z) : Z := if DaysInYear y =? 366 then 1 else 0.

Definition InLeapYear (t : Z) : Z := leapDays (YearFromTime t).

Definition DayWithinYear (t : Z) : Z := Day t - DayFromYear (YearFromTime t).

Definition MonthFromTime (t : Z) : Z :=
  let d := DayWithinYear t in
  let l := InLeapYear t in
  if d <? 31 then 0
  else if d <? 59 + l then 1
  else if d <? 90 + l then 2
  else if d <? 120 + l then 3
  else if d <? 151 + l then 4
  else if d <? 181 + l then 5
  else if d <? 212 + l then 6
  else if d <? 243 + l then 7
  else if d <? 273 + l then 8
  else if d <? 304 + l then 9
  else if d <? 334 + l then 10
  else 11.

(** Day within the year of the first day of month [mn] (0 = January). *)
Definition monthStart (mn l : Z) : Z :=
  match mn with
  | 0 => 0
  | 1 => 31
  | 2 => 59 + l
  | 3 => 90 + l
  | 4 => 120 + l
  | 5 => 151 + l
  | 6 => 181 + l
  | 7 => 212 + l
  | 8 => 243 + l
  | 9 => 273 + l
  | 10 => 304 + l
  | _ => 334 + l
  end.

Definition DateFromTime (t : Z) : Z :=
  DayWithinYear t - monthStart (MonthFromTime t) (InLeapYear t) + 1.

Definition WeekDay (t : Z) : Z := (Day t + 4) mod 7.

(** MakeDay: the day number of day 1 of month [mn] of year [ym], then
    [date - 1] days on, whatever the sign or size of [date]. *)
Definition MakeDay (year month date : Z) : Z :=
  let ym := year + month / 12 in
  let mn := month mod 12 in
  DayFromYear ym + monthStart mn (leapDays ym) + date - 1.

Definition MakeDate (day time : Z) : Z := day * msPerDay + time.

(** MakeFullYear: a year in 0..99 means 1900 + year. *)
Definition MakeFullYear (year : Z) : Z :=
  if (0 <=? year) && (year <=? 99) then 1900 + year else year.

(** [new Date(year, month, date)]: local midnight. *)
Definition newDate (year month date : Z) : Z :=
  MakeDate (MakeDay (MakeFullYear year) month date) 0.

Definition getFullYear (t : Z) : Z := YearFromTime t.
Definition getMonth (t : Z) : Z := MonthFromTime t.
Definition getDate (t : Z) : Z := DateFromTime t.
Definition getDay (t : Z) : Z := WeekDay t.

(** [d.setDate(dt)]: the same year, month and time of day, day [dt] of the
    month (days outside the month carry over). *)
Definition setDate (t dt : Z) : Z :=
  MakeDate (MakeDay (YearFromTime t) (MonthFromTime t) dt) (TimeWithinDay t).

Definition daysInMonth (y mn : Z) : Z :=
  match mn with
  | 1 => 28 + leapDays y
  | 3 | 5 | 8 | 10 => 30
  | _ => 31
  end.

Definition digitOfAscii (c : ascii) : option Z :=
  let n := Z.of_N (N_of_ascii c) in
  if (48 <=? n) && (n <=? 57) then Some (n - 48) else None.

Fixpoint digitsFrom (acc : Z) (s : string) : option Z :=
  match s with
  | EmptyString => Some acc
  | String c s' =>
      match digitOfAscii c with
      | Some n => digitsFrom (10 * acc + n) s'
      | None => None
      end
  end.

(** [new Date(key + 'T00:00:00')] for a date key [YYYY-MM-DD]: a date-time
    string without offset is local time (ECMA-262, Date Time String Format),
    so the result is local midnight of the day the key names.  Only keys in
    that format naming a day that exists are modelled ([None] otherwise:
    what the platform makes of other strings is implementation-defined). *)
Definition newDateOfKeyAtMidnight (key : string) : option Z :=
  if (String.length key =? 10)%nat
     && String.eqb (substring 4 1 key) "-"
     && String.eqb (substring 7 1 key) "-"
  then
    match digitsFrom 0 (substring 0 4 key),
          digitsFrom 0 (substring 5 2 key),
          digitsFrom 0 (substring 8 2 key) with
    | Some y, Some mo, Some d =>
        if (1 <=? mo) && (mo <=? 12) && (1 <=? d) && (d <=? daysInMonth y (mo - 1))
        then Some (MakeDate (MakeDay y (mo - 1) d) 0)
        else None
    | _, _, _ => None
    end
  else None.

(** [d.setMonth(month, dt)], [d.setFullYear(year, month, dt)] and
    [d.setHours(0, 0, 0, 0)]: the fields given are replaced, the others
    kept; [setFullYear] takes the year as it is. *)
Definition setMonth (t month dt : Z) : Z :=
  MakeDate (MakeDay (YearFromTime t) month dt) (TimeWithinDay t).

Definition setFullYear (t year month dt : Z) : Z :=
  MakeDate (MakeDay year month dt) (TimeWithinDay t).

Definition setHours0 (t : Z) : Z := MakeDate (Day t) 0.

End JSDate.

(** ** date-fns

  [format(date, 'yyyy-MM-dd')] and [differenceInDays], after the package's
  documentation and its [addLeadingZeros] helper. *)
Module DateFns.
Import JSDate.

Fixpoint zeros (n : nat) : string :=
  match n with
  | O => ""
  | S n' => String "0" (zeros n')
  end.

(** [s.padStart(targetLength, '0')] *)
Definition padStart0 (s : string) (targetLength : nat) : string :=
  zeros (targetLength - String.length s) +:+ s.

Definition toString (n : Z) : string :=
  NilZero.string_of_uint (N.to_uint (Z.to_N n)).

Definition addLeadingZeros (number : Z) (targetLength : nat) : string :=
  let sign := if number <? 0 then "-" else "" in
  sign +:+ padStart0 (toString (Z.abs number)) targetLength.

(** The pattern [yyyy-MM-dd]: the year token prints the year of the era
    ([1 - year] for a year that is not positive). *)
Definition format_yyyy_MM_dd (date : Z) : string :=
  let signedYear := getFullYear date in
  let year := if 0 <? signedYear then signedYear else 1 - signedYear in
  addLeadingZeros year 4 +:+ "-" +:+
  addLeadingZeros (getMonth date + 1) 2 +:+ "-" +:+
  addLeadingZeros (getDate date) 2.

(** The number of full days between two dates, truncated toward zero. *)
Definition differenceInDays (laterDate earlierDate : Z) : Z :=
  Z.quot (laterDate - earlierDate) msPerDay.

(** [startOfMonth]: [setDate(1)], then [setHours(0, 0, 0, 0)]. *)
Definition startOfMonth (date : Z) : Z := setHours0 (setDate date 1).

(** [addMonths]: the last day of the month wanted is found first
    ([setMonth(month + amount + 1, 0)]); a day of the month that the month
    wanted does not have stops there, any other day is set in that month
    by [setFullYear].  Adding no month returns the date. *)
Definition addMonths (date amount : Z) : Z :=
  if amount =? 0 then date
  else
    let dayOfMonth := getDate date in
    let endOfDesiredMonth := setMonth date (getMonth date + amount + 1) 0 in
    let daysInMonth := getDate endOfDesiredMonth in
    if daysInMonth <=? dayOfMonth then endOfDesiredMonth
    else setFullYear date (getFullYear endOfDesiredMonth)
           (getMonth endOfDesiredMonth) dayOfMonth.

Definition subMonths (date amount : Z) : Z := addMonths date (- amount).

(** The pattern [yyyy-MM]. *)
Definition format_yyyy_MM (date : Z) : string :=
  let signedYear := getFullYear date in
  let year := if 0 <? signedYear then signedYear else 1 - signedYear in
  addLeadingZeros year 4 +:+ "-" +:+ addLeadingZeros (getMonth date + 1) 2.

(** [startOfDay] and [isSameDay]: two dates are of the same day when their
    days start at the same time. *)
Definition startOfDay (date : Z) : Z := setHours0 date.

Definition isSameDay (laterDate earlierDate : Z) : bool :=
  startOfDay laterDate =? startOfDay earlierDate.

End DateFns.

(** ** Strings as the component compares them

  [<], [<=] and [>=] on two strings compare them code unit by code unit;
  [a >= b] is "not [a < b]".  Strings are strings of bytes here, which for
  the date strings compared (digits and hyphens) are the code units. *)
Module JSString.

Definition lt (a b : string) : bool := String.ltb a b.
Definition le (a b : string) : bool := String.leb a b.
Definition ge (a b : string) : bool := negb (String.ltb a b).

(** A string is truthy when it is not empty. *)
Definition truthy (s : string) : bool := negb (String.eqb s "").

Definition ofBool (b : bool) : string := if b then "true" else "false".

(** [s.split(sep)] for a separator of one character. *)
Fixpoint split (sep : ascii) (s : string) : list string :=
  match s with
  | EmptyString => [EmptyString]
  | String c s' =>
      if Ascii.eqb c sep then EmptyString :: split sep s'
      else match split sep s' with
           | part :: parts => String c part :: parts
           | [] => [String c EmptyString]
           end
  end.

(** [parseInt(string)] without a radix (ECMA-262, parseInt): white space
    is skipped, then a sign is read, then the prefix [0x] or [0X] that
    makes the radix 16, then the digits up to the first character that is
    not one; [None] is [NaN], the answer when there is no digit.  The
    white space is that of ASCII, and the value is the exact integer (a
    number of JavaScript is, up to 2^53). *)
Definition isWhiteSpace (c : ascii) : bool :=
  let n := Z.of_N (N_of_ascii c) in
  ((9 <=? n) && (n <=? 13)) || (n =? 32).

Fixpoint trimStart (s : string) : string :=
  match s with
  | EmptyString => EmptyString
  | String c s' => if isWhiteSpace c then trimStart s' else s
  end.

Definition digitValue (c : ascii) : option Z :=
  let n := Z.of_N (N_of_ascii c) in
  if (48 <=? n) && (n <=? 57) then Some (n - 48)
  else if (97 <=? n) && (n <=? 122) then Some (n - 87)
  else if (65 <=? n) && (n <=? 90) then Some (n - 55)
  else None.

Fixpoint parseDigits (R : Z) (acc : option Z) (s : string) : option Z :=
  match s with
  | EmptyString => acc
  | String c s' =>
      match digitValue c with
      | Some d =>
          if d <? R then parseDigits R (Some (R * default 0 acc + d)) s' else acc
      | None => acc
      end
  end.

Definition parseInt (string : string) : option Z :=
  let inputString := trimStart string in
  let '(sign, unsigned) :=
    match inputString with
    | String "-" rest => (-1, rest)
    | String "+" rest => (1, rest)
    | _ => (1, inputString)
    end in
  let '(R, digits) :=
    match unsigned with
    | String "0" (String "x" rest) => (16, rest)
    | String "0" (String "X" rest) => (16, rest)
    | _ => (10, unsigned)
    end in
  match parseDigits R None digits with
  | Some mathInt => Some (sign * mathInt)
  | None => None
  end.

End JSString.

(** ** The component *)
Module Calendar.
Import JSDate DateFns.

Record CustomHoliday := {
  ch_id : string;
  ch_name : string;
  ch_start : string;
  ch_end : string;
}.

Record BaseDayData := {
  date : Z;
  dateStr : string;
  isCurrentMonth : bool;
  lunarDay : string;
  festival : string;
  isBuiltInHoliday : bool;
  isBuiltInWork : bool;
  builtInHolidayName : string;
}.

(** [DayData extends BaseDayData]: the base record, spread, and four more
    fields. *)
Record DayData := {
  base : BaseDayData;
  isHoliday : bool;
  isWork : bool;
  holidayName : string;
  isMarked : bool;
}.

(** What lunar-javascript answers. *)
Record Holiday := {
  h_isWork : bool;
  h_getName : string;
}.

Record Lunar := {
  lunar_getFestivals : list string;
  lunar_getJieQi : string;
  lunar_getDayInChinese : string;
  lunar_getMonthInChinese : string;
}.

Record Solar := {
  solar_getLunar : Lunar;
  solar_getFestivals : list string;
}.

Record HolidayProgress := {
  hp_name : string;
  hp_current : Z;
  hp_remaining : Z;
}.

(** The state of the [Calendar] component that the two handlers read and
    write. *)
Record CalendarState := {
  markedDates : gset string;
  customHolidays : list CustomHoliday;
  selectedDate : option Z;
  showCustomHolidayForm : bool;
  holidayNameInput : string;
  holidayEndInput : string;
}.

(** How a run of [holidayProgress] ends: with a value, not at all within
    the given number of loop iterations, or outside the model (a range
    whose bounds are not date keys). *)
Inductive outcome (A : Type) : Type :=
| Returns (a : A)
| OutOfFuel
| NotModelled.
Arguments Returns {A} a.
Arguments OutOfFuel {A}.
Arguments NotModelled {A}.

Definition bind {A B : Type} (x : outcome A) (k : A -> outcome B) : outcome B :=
  match x with
  | Returns a => k a
  | OutOfFuel => OutOfFuel
  | NotModelled => NotModelled
  end.

(** [for (let i = from; ...; i--)] and [for (let i = from; ...; i++)], run
    for [n] iterations. *)
Fixpoint forDown {S : Type} (i : Z) (n : nat) (body : Z -> S -> S) (s : S) : S :=
  match n with
  | O => s
  | S n' => forDown (i - 1) n' body (body i s)
  end.

Fixpoint forUp {S : Type} (i : Z) (n : nat) (body : Z -> S -> S) (s : S) : S :=
  match n with
  | O => s
  | S n' => forUp (i + 1) n' body (body i s)
  end.

(** [dateStr >= ch.start && dateStr <= ch.end] *)
Definition inRange (dateStr : string) (ch : CustomHoliday) : bool :=
  JSString.ge dateStr (ch_start ch) && JSString.le dateStr (ch_end ch).

(** The loop of [combineDayData] (Calendar.tsx, lines 83-90) over the
    custom holidays, on its three variables; it stops at the first range
    that holds the date. *)
Fixpoint combineLoop (dateStr : string) (customHolidays : list CustomHoliday)
    (vars : bool * bool * string) : bool * bool * string :=
  match customHolidays with
  | [] => vars
  | ch :: rest =>
      if inRange dateStr ch then (true, false, ch_name ch)
      else combineLoop dateStr rest vars
  end.

(** [combineDayData] (lines 78-99). *)
Definition combineDayData (base : BaseDayData) (customHolidays : list CustomHoliday)
    (markedDates : gset string) : DayData :=
  let '(isHoliday, isWork, holidayName) :=
    combineLoop (dateStr base) customHolidays
      (isBuiltInHoliday base, isBuiltInWork base, builtInHolidayName base) in
  {| base := base;
     isHoliday := isHoliday;
     isWork := isWork;
     holidayName := holidayName;
     isMarked := bool_decide (dateStr base ∈ markedDates) |}.

(** The flags of one cell of [days.map((day, idx) => ...)] (lines
    149-159). *)
Definition isHolidayStart (days : list DayData) (idx : nat) (day : DayData) : bool :=
  let prevDay := if (0 <? idx)%nat then days !! (idx - 1)%nat else None in
  isHoliday day &&
  match prevDay with
  | None => true
  | Some p => negb (isHoliday p) || negb (String.eqb (holidayName p) (holidayName day))
  end.

Definition isHolidayEnd (days : list DayData) (idx : nat) (day : DayData) : bool :=
  let nextDay := if (idx <? List.length days - 1)%nat then days !! (idx + 1)%nat else None in
  isHoliday day &&
  match nextDay with
  | None => true
  | Some n => negb (isHoliday n) || negb (String.eqb (holidayName n) (holidayName day))
  end.

Definition isRowStart (day : DayData) : bool := getDay (date (base day)) =? 1.
Definition isRowEnd (day : DayData) : bool := getDay (date (base day)) =? 0.

Definition blockStart (days : list DayData) (idx : nat) (day : DayData) : bool :=
  isHolidayStart days idx day || isRowStart day.

Definition blockEnd (days : list DayData) (idx : nat) (day : DayData) : bool :=
  isHolidayEnd days idx day || isRowEnd day.

(** [toggleMark] (lines 355-366): the update it hands to [setMarkedDates]. *)
Definition toggleMark (date : Z) (prev : gset string) : gset string :=
  let dateStr := format_yyyy_MM_dd date in
  if bool_decide (dateStr ∈ prev) then prev ∖ {[dateStr]} else prev ∪ {[dateStr]}.

(** [handleSaveCustomHoliday] (lines 368-385) as a function of the state;
    [now] is what [Date.now()] answers. *)
Definition handleSaveCustomHoliday (now : Z) (st : CalendarState) : CalendarState :=
  match selectedDate st with
  | None => st
  | Some selected =>
      if negb (JSString.truthy (holidayNameInput st))
         || negb (JSString.truthy (holidayEndInput st)) then st
      else
        let startStr := format_yyyy_MM_dd selected in
        if JSString.lt (holidayEndInput st) startStr then st
        else
          let newHoliday :=
            {| ch_id := toString now;
               ch_name := holidayNameInput st;
               ch_start := startStr;
               ch_end := holidayEndInput st |} in
          {| markedDates := markedDates st;
             customHolidays := customHolidays st ++ [newHoliday];
             selectedDate := selectedDate st;
             showCustomHolidayForm := false;
             holidayNameInput := "";
             holidayEndInput := "" |}
  end.

(** The part that consults lunar-javascript, given as two functions:
    [Solar.fromYmd] and [HolidayUtil.getHoliday] ([None] for [null]). *)
Section WithProvider.
Variable Solar_fromYmd : Z -> Z -> Z -> Solar.
Variable HolidayUtil_getHoliday : Z -> Z -> Z -> option Holiday.

Definition cacheKey (dateStr : string) (isCurrentMonth : bool) : string :=
  dateStr +:+ "-" +:+ JSString.ofBool isCurrentMonth.

(** [getBaseDayData] (lines 34-76) past the cache lookup: the record it
    builds. *)
Definition computeBaseDayData (date : Z) (isCurrentMonth : bool) : BaseDayData :=
  let dateStr := format_yyyy_MM_dd date in
  let solar := Solar_fromYmd (getFullYear date) (getMonth date + 1) (getDate date) in
  let lunar := solar_getLunar solar in
  let holiday :=
    HolidayUtil_getHoliday (getFullYear date) (getMonth date + 1) (getDate date) in
  let lunarFestivals := lunar_getFestivals lunar in
  let solarFestivals := solar_getFestivals solar in
  let jieQi := lunar_getJieQi lunar in
  let festival :=
    match lunarFestivals with
    | f :: _ => f
    | [] =>
        match solarFestivals with
        | f :: _ => f
        | [] => if JSString.truthy jieQi then jieQi else ""
        end
    end in
  let lunarDay := lunar_getDayInChinese lunar in
  let lunarDay :=
    if String.eqb lunarDay "初一" then lunar_getMonthInChinese lunar +:+ "月"
    else lunarDay in
  {| date := date;
     dateStr := dateStr;
     isCurrentMonth := isCurrentMonth;
     lunarDay := lunarDay;
     festival := festival;
     isBuiltInHoliday :=
       match holiday with Some h => negb (h_isWork h) | None => false end;
     isBuiltInWork :=
       match holiday with Some h => h_isWork h | None => false end;
     builtInHolidayName :=
       match holiday with Some h => h_getName h | None => "" end |}.

(** [getBaseDayData], the module-level [baseDayCache] passed in and out. *)
Definition getBaseDayData (baseDayCache : gmap string BaseDayData)
    (date : Z) (isCurrentMonth : bool) : BaseDayData * gmap string BaseDayData :=
  let dateStr := format_yyyy_MM_dd date in
  let key := cacheKey dateStr isCurrentMonth in
  match baseDayCache !! key with
  | Some data => (data, baseDayCache)
  | None =>
      let data := computeBaseDayData date isCurrentMonth in
      (data, <[key := data]> baseDayCache)
  end.

(** [daysArr.push(combineDayData(getBaseDayData(d, isCurrentMonth), ...))] *)
Definition pushDay (customHolidays : list CustomHoliday) (markedDates : gset string)
    (d : Z) (isCurrentMonth : bool)
    (st : gmap string BaseDayData * list DayData) :
    gmap string BaseDayData * list DayData :=
  let '(data, cache') := getBaseDayData (fst st) d isCurrentMonth in
  (cache', snd st ++ [combineDayData data customHolidays markedDates]).

Definition startOffsetOf (firstDayOfWeek : Z) : Z :=
  if firstDayOfWeek =? 0 then 6 else firstDayOfWeek - 1.

(** The [days] of [MonthView] (lines 109-137). *)
Definition monthDays (baseDayCache : gmap string BaseDayData) (month : Z)
    (customHolidays : list CustomHoliday) (markedDates : gset string) :
    gmap string BaseDayData * list DayData :=
  let year := getFullYear month in
  let m := getMonth month in
  let firstDay := newDate year m 1 in
  let lastDay := newDate year (m + 1) 0 in
  let firstDayOfWeek := getDay firstDay in
  let startOffset := startOffsetOf firstDayOfWeek in
  let st1 :=
    forDown startOffset (Z.to_nat startOffset)
      (fun i => pushDay customHolidays markedDates (newDate year m (1 - i)) false)
      (baseDayCache, []) in
  let st2 :=
    forUp 1 (Z.to_nat (getDate lastDay))
      (fun i => pushDay customHolidays markedDates (newDate year m i) true) st1 in
  let remainingDays := 42 - Z.of_nat (List.length (snd st2)) in
  forUp 1 (Z.to_nat remainingDays)
    (fun i => pushDay customHolidays markedDates (newDate year (m + 1) i) false) st2.

(** [h && !h.isWork() && h.getName() === name] for the day of [t]. *)
Definition sameHoliday (name : string) (t : Z) : bool :=
  match HolidayUtil_getHoliday (getFullYear t) (getMonth t + 1) (getDate t) with
  | Some h => negb (h_isWork h) && String.eqb (h_getName h) name
  | None => false
  end.

(** The two [while (true)] loops of [holidayProgress] (lines 323-345),
    each iteration spending one unit of [fuel]. *)
Fixpoint expandStart (fuel : nat) (name : string) (startD : Z) : outcome Z :=
  match fuel with
  | O => OutOfFuel
  | S fuel' =>
      let prev := setDate startD (getDate startD - 1) in
      if sameHoliday name prev then expandStart fuel' name prev
      else Returns startD
  end.

Fixpoint expandEnd (fuel : nat) (name : string) (endD : Z) : outcome Z :=
  match fuel with
  | O => OutOfFuel
  | S fuel' =>
      let next := setDate endD (getDate endD + 1) in
      if sameHoliday name next then expandEnd fuel' name next
      else Returns endD
  end.

(** [holidayProgress] (lines 307-353); [None] for [null]. *)
Definition holidayProgress (fuel : nat) (currentDate : Z)
    (customHolidays : list CustomHoliday) : outcome (option HolidayProgress) :=
  let dateStr := format_yyyy_MM_dd currentDate in
  match List.find (inRange dateStr) customHolidays with
  | Some ch =>
      match newDateOfKeyAtMidnight (ch_start ch),
            newDateOfKeyAtMidnight (ch_end ch) with
      | Some start, Some end_ =>
          let total := differenceInDays end_ start + 1 in
          let current := differenceInDays currentDate start + 1 in
          Returns (Some {| hp_name := ch_name ch;
                           hp_current := current;
                           hp_remaining := total - current |})
      | _, _ => NotModelled
      end
  | None =>
      match HolidayUtil_getHoliday (getFullYear currentDate)
              (getMonth currentDate + 1) (getDate currentDate) with
      | Some h =>
          if negb (h_isWork h) then
            let name := h_getName h in
            bind (expandStart fuel name currentDate) (fun startD =>
            bind (expandEnd fuel name currentDate) (fun endD =>
              let total := differenceInDays endD startD + 1 in
              let current := differenceInDays currentDate startD + 1 in
              Returns (Some {| hp_name := name;
                               hp_current := current;
                               hp_remaining := total - current |})))
          else Returns None
      | None => Returns None
      end
  end.

End WithProvider.

(** What the bottom panel reads of the selected date (lines 389-391):
    [selectedDateStr], [isSelectedMarked] and [selectedBaseData], the
    latter through [getBaseDayData] and so with the cache passed in and
    out. *)
Section Panel.
Variable Solar_fromYmd : Z -> Z -> Z -> Solar.
Variable HolidayUtil_getHoliday : Z -> Z -> Z -> option Holiday.

Definition selectedDateStr (selectedDate : option Z) : string :=
  match selectedDate with
  | Some d => format_yyyy_MM_dd d
  | None => ""
  end.

Definition isSelectedMarked (markedDates : gset string) (selectedDate : option Z) : bool :=
  bool_decide (selectedDateStr selectedDate ∈ markedDates).

Definition selectedBaseData (baseDayCache : gmap string BaseDayData)
    (selectedDate : option Z) : option BaseDayData * gmap string BaseDayData :=
  match selectedDate with
  | Some d =>
      let '(data, cache') :=
        getBaseDayData Solar_fromYmd HolidayUtil_getHoliday baseDayCache d true in
      (Some data, cache')
  | None => (None, baseDayCache)
  end.
End Panel.

(** The holiday name under a cell (line 221):
    [day.isHoliday && isHolidayStart && day.holidayName]. *)
Definition showsHolidayName (days : list DayData) (idx : nat) (day : DayData) : bool :=
  isHoliday day && isHolidayStart days idx day && JSString.truthy (holidayName day).

(** The months the component lists (lines 249-255, and again in
    [jumpToMonth], lines 292-296): the loop over [i] from -12 to 12. *)
Definition monthsWindow (date : Z) : list Z :=
  forUp (-12) 25
    (fun i months =>
       months ++
       [if i =? 0 then startOfMonth date
        else if i <? 0 then subMonths (startOfMonth date) (Z.abs i)
        else addMonths (startOfMonth date) i])
    [].

(** What [handleScroll] makes of a key of [monthRefs] (lines 279-280):
    [new Date(parseInt(year), parseInt(month) - 1, 1)] for the first two
    parts of [key.split('-')]; [None] is the invalid date of a part that
    is missing or not a number. *)
Definition monthOfKey (key : string) : option Z :=
  match JSString.split "-" key with
  | year :: month :: _ =>
      match JSString.parseInt year, JSString.parseInt month with
      | Some y, Some m => Some (newDate y (m - 1) 1)
      | _, _ => None
      end
  | _ => None
  end.

(** [distance < minDistance], [None] for the [Infinity] that
    [minDistance] starts from. *)
Definition lessThan (distance : Z) (minDistance : option Z) : bool :=
  match minDistance with
  | None => true
  | Some m => distance <? m
  end.

(** [a.getTime() === b.getTime()]: an invalid date equals nothing. *)
Definition sameTime (a b : option Z) : bool :=
  match a, b with
  | Some s, Some t => s =? t
  | _, _ => false
  end.

(** One entry of [Object.entries(monthRefs.current)] in [handleScroll]
    (lines 274-283), on the variables [closestMonth] and [minDistance]; an
    entry is a key and the [offsetTop] of its element, [None] for an
    element that is null.  Offsets are whole pixels. *)
Definition scrollStep (containerTop : Z) (vars : option Z * option Z)
    (entry : string * option Z) : option Z * option Z :=
  match entry.2 with
  | Some offsetTop =>
      let distance := Z.abs (offsetTop - containerTop) in
      if lessThan distance vars.2 then (monthOfKey entry.1, Some distance)
      else vars
  | None => vars
  end.

(** [handleScroll] (lines 267-288): the active month after the call.
    [scrollTop] is that of the container, [None] when there is no
    container; [monthRefs] lists the entries in the order of insertion, as
    [Object.entries] does for such keys. *)
Definition handleScroll (scrollTop : option Z) (monthRefs : list (string * option Z))
    (activeMonth : option Z) : option Z :=
  match scrollTop with
  | None => activeMonth
  | Some containerTop =>
      let closestMonth :=
        (fold_left (scrollStep containerTop) monthRefs (activeMonth, None)).1 in
      if negb (sameTime closestMonth activeMonth) then closestMonth else activeMonth
  end.

(** The text of the date calculator (lines 594-598). *)
Definition daysAwayLabel (selectedDate currentDate : Z) : string :=
  if 0 <? differenceInDays selectedDate currentDate
  then "还有 " +:+ toString (differenceInDays selectedDate currentDate) +:+ " 天"
  else if differenceInDays selectedDate currentDate <? 0
  then "已过 " +:+ toString (Z.abs (differenceInDays selectedDate currentDate)) +:+ " 天"
  else "就是今天".

End Calendar.

(** ** Vocabulary of the statements and sample inputs *)
Module Samples.
Import JSDate DateFns Calendar.

(** The component's fixed [currentDate]: 2026-02-22, 23:16:49 local time. *)
Definition currentDate : Z :=
  MakeDate (MakeDay 2026 1 22) ((23 * 3600 + 16 * 60 + 49) * 1000).

Definition february2026 : Z := newDate 2026 1 1.

(** Midnight of 1 January of the year 50: a [Date] whose [getFullYear()]
    is 50 (not [new Date(50, 0, 1)], which is in 1950). *)
Definition january50 : Z := MakeDate (MakeDay 50 0 1) 0.

Definition plainLunar : Lunar :=
  {| lunar_getFestivals := [];
     lunar_getJieQi := "";
     lunar_getDayInChinese := "初六";
     lunar_getMonthInChinese := "正" |}.

Definition plainSolar (y m d : Z) : Solar :=
  {| solar_getLunar := plainLunar; solar_getFestivals := [] |}.

(** A holiday table with one block, 15 to 23 February 2026, and the
    working Saturday before it. *)
Definition springFestival (y m d : Z) : option Holiday :=
  if (y =? 2026) && (m =? 2) && (15 <=? d) && (d <=? 23)
  then Some {| h_isWork := false; h_getName := "Spring Festival" |}
  else if (y =? 2026) && (m =? 2) && (d =? 14)
  then Some {| h_isWork := true; h_getName := "Spring Festival" |}
  else None.

Definition noHoliday (y m d : Z) : option Holiday := None.


Definition winterBreak : CustomHoliday :=
  {| ch_id := "1"; ch_name := "Winter break";
     ch_start := "2026-01-05"; ch_end := "2026-01-09" |}.

Definition longWeekend : CustomHoliday :=
  {| ch_id := "2"; ch_name := "Long weekend";
     ch_start := "2026-02-20"; ch_end := "2026-02-23" |}.

Definition overlapping : CustomHoliday :=
  {| ch_id := "3"; ch_name := "Overlapping";
     ch_start := "2026-02-01"; ch_end := "2026-02-28" |}.

Definition oneDayOff : CustomHoliday :=
  {| ch_id := "4"; ch_name := "Day off";
     ch_start := "2026-02-04"; ch_end := "2026-02-04" |}.

Definition workingSaturday : BaseDayData :=
  {| date := newDate 2026 1 21;
     dateStr := "2026-02-21";
     isCurrentMonth := true;
     lunarDay := "初五";
     festival := "";
     isBuiltInHoliday := false;
     isBuiltInWork := true;
     builtInHolidayName := "Spring Festival" |}.

Definition formState (endInput nameInput : string) : CalendarState :=
  {| markedDates := ∅;
     customHolidays := [winterBreak];
     selectedDate := Some (newDate 2026 1 20);
     showCustomHolidayForm := true;
     holidayNameInput := nameInput;
     holidayEndInput := endInput |}.

End Samples.

(** Date keys digit by digit: what [format_yyyy_MM_dd] prints for the years
    1 to 9999 and what [newDateOfKeyAtMidnight] reads. *)
Definition digitChar (n : Z) : ascii := ascii_of_N (Z.to_N (48 + n)).
Definition twoDigits (n : Z) : string :=
  String (digitChar (n / 10)) (String (digitChar (n mod 10)) "").
Definition fourDigits (n : Z) : string := twoDigits (n / 100) +:+ twoDigits (n mod 100).
Definition dateKey (y mo d : Z) : string :=
  fourDigits y +:+ "-" +:+ twoDigits mo +:+ "-" +:+ twoDigits d.

Definition compare_eqb (a b : comparison) : bool :=
  match a, b with Eq, Eq | Lt, Lt | Gt, Gt => true | _, _ => false end.

(** Lexicographic combination of two comparisons. *)
Definition lexCompare (c1 c2 : comparison) : comparison :=
  match c1 with Eq => c2 | Lt => Lt | Gt => Gt end.


(** What holds of the list of custom holidays: the bounds of every range
    are date keys, the end no earlier than the start. *)
Definition ranges_ok (customHolidays : list Calendar.CustomHoliday) : Prop :=
  Forall (fun ch =>
            exists start end_,
              JSDate.newDateOfKeyAtMidnight (Calendar.ch_start ch) = Some start
              /\ JSDate.newDateOfKeyAtMidnight (Calendar.ch_end ch) = Some end_
              /\ JSDate.Day start <= JSDate.Day end_)
    customHolidays.

Section Invariants.
Import JSDate DateFns Calendar.
Variable Solar_fromYmd : Z -> Z -> Z -> Solar.
Variable HolidayUtil_getHoliday : Z -> Z -> Z -> option Holiday.

(** What holds of [baseDayCache] at any time: every entry was built by
    [getBaseDayData] for a date with the entry's key. *)
Definition cache_ok (baseDayCache : gmap string BaseDayData) : Prop :=
  forall key data, baseDayCache !! key = Some data ->
    exists d,
      key = cacheKey (format_yyyy_MM_dd d) (isCurrentMonth data)
      /\ data = computeBaseDayData Solar_fromYmd HolidayUtil_getHoliday d
                  (isCurrentMonth data).

(** [cell] is the record of a day with the key of [d]: built from a date
    [d'] that prints as [d] does (the date itself, unless the cache held
    an entry under the same key). *)
Definition cellOf (customHolidays : list CustomHoliday) (markedDates : gset string)
    (d : Z) (isCurrentMonth : bool) (cell : DayData) : Prop :=
  exists d',
    format_yyyy_MM_dd d' = format_yyyy_MM_dd d
    /\ cell = combineDayData
                (computeBaseDayData Solar_fromYmd HolidayUtil_getHoliday d' isCurrentMonth)
                customHolidays markedDates.

End Invariants.

Section MoreInvariants.
Import JSDate DateFns Calendar.

(** Month keys digit by digit: what [format_yyyy_MM] prints for month
    [mn] (0 = January) of a year from 1 to 9999. *)
Definition monthKeyOf (y mn : Z) : string :=
  fourDigits y +:+ String "-" (twoDigits (mn + 1)).

(** A string without a hyphen. *)
Definition plain (s : string) : bool :=
  forallb (fun c => negb (Ascii.eqb c "-")) (list_ascii_of_string s).

(** The dates of the cached records are of the years 1 to 9999, the years
    whose date keys tell the days apart. *)
Definition cache_years (baseDayCache : gmap string BaseDayData) : Prop :=
  forall key data, baseDayCache !! key = Some data ->
    1 <= getFullYear (date data) <= 9999.

(** The same of a cache and the cells built with it. *)
Definition years_ok (st : gmap string BaseDayData * list DayData) : Prop :=
  cache_years st.1
  /\ Forall (fun cell => 1 <= getFullYear (date (base cell)) <= 9999) st.2.

(** The base record of every cell is in the cache under the key of the
    cell. *)
Definition cells_cached (st : gmap string BaseDayData * list DayData) : Prop :=
  Forall (fun cell =>
            st.1 !! cacheKey (dateStr (base cell)) (isCurrentMonth (base cell))
            = Some (base cell)) st.2.

(** A run of pushes whose dates do not depend on the cache: it appends its
    cells and only adds to the cache, and run again on a cache that holds
    what it left, with whatever ranges and marks, it leaves the cache as
    it is and merges the same base records. *)
Definition replays
    (run : list CustomHoliday -> gset string ->
           gmap string BaseDayData * list DayData ->
           gmap string BaseDayData * list DayData) : Prop :=
  forall ch md st,
    exists cells,
      run ch md st = ((run ch md st).1, st.2 ++ cells)
      /\ st.1 ⊆ (run ch md st).1
      /\ forall ch' md' st',
           (run ch md st).1 ⊆ st'.1 ->
           run ch' md' st'
           = (st'.1, st'.2 ++ ((fun cell => combineDayData (base cell) ch' md') <$> cells)).

End MoreInvariants.

(** * Properties *)

(** ** The calendar arithmetic of [Date] *)

Lemma month_cases mn :
  0 <= mn <= 11 ->
  mn = 0 \/ mn = 1 \/ mn = 2 \/ mn = 3 \/ mn = 4 \/ mn = 5 \/ mn = 6 \/
  mn = 7 \/ mn = 8 \/ mn = 9 \/ mn = 10 \/ mn = 11.
Proof. lia. Qed.

(** One case for each of the twelve months. *)
Ltac each_month H :=
  apply month_cases in H;
  destruct H as [->|[->|[->|[->|[->|[->|[->|[->|[->|[->|[->| ->]]]]]]]]]]].

Section DateFacts.
Import JSDate.

(** The model on dates whose weekday and neighbours are known. *)
Example epoch_is_a_thursday : getDay 0 = 4 /\ DateFns.format_yyyy_MM_dd 0 = "1970-01-01".
Proof. by vm_compute. Qed.

Example leap_days :
  DateFns.format_yyyy_MM_dd (newDate 2024 2 0) = "2024-02-29"
  /\ DateFns.format_yyyy_MM_dd (newDate 2000 2 0) = "2000-02-29"
  /\ DateFns.format_yyyy_MM_dd (newDate 1900 2 0) = "1900-02-28"
  /\ DateFns.format_yyyy_MM_dd (newDate 2026 2 0) = "2026-02-28".
Proof. by vm_compute. Qed.

Example month_overflow :
  DateFns.format_yyyy_MM_dd (newDate 2026 12 1) = "2027-01-01"
  /\ DateFns.format_yyyy_MM_dd (newDate 2026 0 0) = "2025-12-31"
  /\ DateFns.format_yyyy_MM_dd (setDate (newDate 2026 2 1) 0) = "2026-02-28".
Proof. by vm_compute. Qed.

Example full_days_truncate :
  DateFns.differenceInDays Samples.currentDate (newDate 2026 1 20) = 2
  /\ DateFns.differenceInDays (newDate 2026 1 20) Samples.currentDate = -2
  /\ DateFns.differenceInDays (newDate 2026 1 23) Samples.currentDate = 0.
Proof. by vm_compute. Qed.

Lemma DaysInYear_leapDays y : DaysInYear y = 365 + leapDays y.
Proof. unfold leapDays, DaysInYear. repeat case_match; lia. Qed.

Lemma leapDays_range y : 0 <= leapDays y <= 1.
Proof. unfold leapDays. case_match; lia. Qed.

Lemma DayFromYear_succ y : DayFromYear (y + 1) = DayFromYear y + DaysInYear y.
Proof.
  unfold DayFromYear, DaysInYear.
  repeat case_match; rewrite ?negb_true_iff, ?negb_false_iff in *;
    Z.div_mod_to_equations; lia.
Qed.

Lemma DayFromYear_lt y1 y2 : y1 < y2 -> DayFromYear y1 < DayFromYear y2.
Proof. unfold DayFromYear. intros. Z.div_mod_to_equations. lia. Qed.

(** [yearFromDay d] is the year ECMA-262 asks for: the one whose days
    hold [d]. *)
Lemma yearFromDay_spec d :
  DayFromYear (yearFromDay d) <= d < DayFromYear (yearFromDay d + 1).
Proof.
  unfold yearFromDay.
  set (y0 := 1970 + d * 400 / 146097).
  assert (DayFromYear (y0 - 1) <= d /\ d < DayFromYear (y0 + 1 + 1)) as [H1 H2].
  { subst y0. unfold DayFromYear. Z.div_mod_to_equations. lia. }
  destruct (Z.ltb_spec d (DayFromYear y0)).
  { replace (y0 - 1 + 1) with y0 by lia. lia. }
  destruct (Z.leb_spec (DayFromYear (y0 + 1)) d); lia.
Qed.

Lemma yearFromDay_unique d y :
  DayFromYear y <= d < DayFromYear (y + 1) -> yearFromDay d = y.
Proof.
  intros Hy. pose proof (yearFromDay_spec d) as Hs.
  destruct (Z.lt_trichotomy (yearFromDay d) y) as [Hlt | [Heq | Hgt]]; [|done|].
  - assert (yearFromDay d + 1 <= y) as Hle by lia.
    apply Z.le_lteq in Hle as [Hlt' | <-]; [|lia].
    apply DayFromYear_lt in Hlt'. lia.
  - assert (y + 1 <= yearFromDay d) as Hle by lia.
    apply Z.le_lteq in Hle as [Hlt' | Heq]; [|rewrite Heq in *; lia].
    apply DayFromYear_lt in Hlt'. lia.
Qed.

Lemma Day_MakeDate d tod : 0 <= tod < msPerDay -> Day (MakeDate d tod) = d.
Proof.
  intros. unfold Day, MakeDate, msPerDay in *.
  rewrite Z.add_comm, Z.div_add by lia. rewrite Z.div_small; lia.
Qed.

Lemma TimeWithinDay_MakeDate d tod :
  0 <= tod < msPerDay -> TimeWithinDay (MakeDate d tod) = tod.
Proof.
  intros. unfold TimeWithinDay, MakeDate, msPerDay in *.
  rewrite Z.add_comm, Z.mod_add by lia. apply Z.mod_small; lia.
Qed.

Lemma MakeDate_Day t : MakeDate (Day t) (TimeWithinDay t) = t.
Proof.
  unfold MakeDate, Day, TimeWithinDay, msPerDay.
  pose proof (Z.div_mod t 86400000). lia.
Qed.

Lemma TimeWithinDay_range t : 0 <= TimeWithinDay t < msPerDay.
Proof. unfold TimeWithinDay, msPerDay. apply Z.mod_pos_bound. lia. Qed.

Lemma DayWithinYear_range t :
  0 <= DayWithinYear t < 365 + InLeapYear t.
Proof.
  unfold DayWithinYear, InLeapYear, YearFromTime.
  pose proof (yearFromDay_spec (Day t)) as Hs.
  rewrite DayFromYear_succ, DaysInYear_leapDays in Hs. lia.
Qed.

Lemma MonthFromTime_range t : 0 <= MonthFromTime t <= 11.
Proof. unfold MonthFromTime. repeat case_match; lia. Qed.

Lemma WeekDay_range t : 0 <= WeekDay t <= 6.
Proof. unfold WeekDay. pose proof (Z.mod_pos_bound (Day t + 4) 7). lia. Qed.

Lemma MakeDay_in_year y mn dt :
  0 <= mn <= 11 ->
  MakeDay y mn dt = DayFromYear y + monthStart mn (leapDays y) + dt - 1.
Proof.
  intros Hmn. unfold MakeDay.
  rewrite Z.div_small, Z.mod_small, Z.add_0_r by lia. done.
Qed.

(** Year, month and date of a day built by MakeDay from a date that exists. *)
Lemma civil_of_MakeDay y mn dt tod :
  0 <= mn <= 11 -> 1 <= dt <= daysInMonth y mn -> 0 <= tod < msPerDay ->
  YearFromTime (MakeDate (MakeDay y mn dt) tod) = y
  /\ MonthFromTime (MakeDate (MakeDay y mn dt) tod) = mn
  /\ DateFromTime (MakeDate (MakeDay y mn dt) tod) = dt.
Proof.
  intros Hmn Hdt Htod.
  pose proof (leapDays_range y) as Hl.
  assert (YearFromTime (MakeDate (MakeDay y mn dt) tod) = y) as Hy.
  { unfold YearFromTime. rewrite Day_MakeDate by done.
    apply yearFromDay_unique.
    rewrite DayFromYear_succ, DaysInYear_leapDays, MakeDay_in_year by done.
    each_month Hmn;
      cbn [daysInMonth monthStart] in *; lia. }
  assert (DayWithinYear (MakeDate (MakeDay y mn dt) tod)
          = monthStart mn (leapDays y) + dt - 1) as Hd.
  { unfold DayWithinYear. rewrite Hy, Day_MakeDate, MakeDay_in_year by done. lia. }
  assert (MonthFromTime (MakeDate (MakeDay y mn dt) tod) = mn) as Hm.
  { unfold MonthFromTime, InLeapYear. rewrite Hy, Hd.
    each_month Hmn;
      cbn [daysInMonth monthStart] in *; repeat case_match; lia. }
  split; [done|]. split; [done|].
  unfold DateFromTime, InLeapYear. rewrite Hy, Hd, Hm. lia.
Qed.

(** MakeDay undoes year, month and date. *)
Lemma MakeDay_civil t dt :
  MakeDay (YearFromTime t) (MonthFromTime t) dt = Day t + dt - DateFromTime t.
Proof.
  rewrite MakeDay_in_year by apply MonthFromTime_range.
  unfold DateFromTime, DayWithinYear, InLeapYear. lia.
Qed.


Lemma daysInMonth_range y mn : 28 <= daysInMonth y mn <= 31.
Proof.
  pose proof (leapDays_range y). unfold daysInMonth. repeat case_match; lia.
Qed.

(** Day [dt] of the month after [mn] is day [dt + daysInMonth] of [mn]. *)
Lemma MakeDay_next_month y mn dt :
  0 <= mn <= 11 ->
  MakeDay y (mn + 1) dt = MakeDay y mn (dt + daysInMonth y mn).
Proof.
  intros Hmn. rewrite (MakeDay_in_year y mn) by done.
  pose proof (leapDays_range y) as Hl.
  each_month Hmn;
    unfold MakeDay;
    match goal with
    | |- context [(?a + 1) / 12] =>
        let q := eval vm_compute in ((a + 1) / 12) in
        let r := eval vm_compute in ((a + 1) mod 12) in
        change ((a + 1) / 12) with q; change ((a + 1) mod 12) with r
    end;
    rewrite ?Z.add_0_r, ?DayFromYear_succ, ?DaysInYear_leapDays;
    cbn [daysInMonth monthStart]; lia.
Qed.

(** [new Date(year, m + 1, 0).getDate()] is the length of month [m]. *)
Lemma getDate_lastDay y mn :
  0 <= mn <= 11 ->
  DateFromTime (MakeDate (MakeDay y (mn + 1) 0) 0) = daysInMonth y mn.
Proof.
  intros Hmn. rewrite MakeDay_next_month by done.
  pose proof (daysInMonth_range y mn).
  apply civil_of_MakeDay; unfold msPerDay; lia.
Qed.

Lemma MakeDay_shift y mn dt k : MakeDay y mn (dt + k) = MakeDay y mn dt + k.
Proof. unfold MakeDay. lia. Qed.

End DateFacts.

(** ** Strings and cache keys *)
Section KeyFacts.
Import Calendar.

Lemma length_append (a b : string) :
  String.length (a +:+ b) = (String.length a + String.length b)%nat.
Proof. induction a as [|c a IH]; simpl; [done | by rewrite IH]. Qed.

Lemma append_cons (c : ascii) (a b : string) :
  String c a +:+ b = String c (a +:+ b).
Proof. reflexivity. Qed.

Lemma append_cancel_r (a a' u : string) : a +:+ u = a' +:+ u -> a = a'.
Proof.
  revert a'. induction a as [|c a IH]; intros [|c' a'] Heq.
  - done.
  - apply (f_equal String.length) in Heq.
    rewrite !length_append in Heq. simpl in Heq. lia.
  - apply (f_equal String.length) in Heq.
    rewrite !length_append in Heq. simpl in Heq. lia.
  - rewrite !append_cons in Heq. injection Heq as -> Heq. f_equal. by apply IH.
Qed.

Lemma true_false_suffix (a a' : string) : a +:+ "-true" <> a' +:+ "-false".
Proof.
  revert a'. induction a as [|c a IH]; intros [|c' a'] Heq.
  - discriminate.
  - apply (f_equal String.length) in Heq.
    rewrite !length_append in Heq. simpl in Heq. lia.
  - change ("" +:+ "-false") with (String "-" "false") in Heq.
    rewrite append_cons in Heq. injection Heq as -> Heq.
    destruct a as [|c a]; [discriminate|].
    apply (f_equal String.length) in Heq.
    rewrite !length_append in Heq. simpl in Heq. lia.
  - rewrite !append_cons in Heq. injection Heq as -> Heq. by apply (IH a').
Qed.

(** The key tells the date string and the flag apart. *)
Lemma cacheKey_inj s b s' b' :
  cacheKey s b = cacheKey s' b' -> s = s' /\ b = b'.
Proof.
  unfold cacheKey. destruct b, b'; simpl; intros Heq.
  - split; [|done]. by apply (append_cancel_r _ _ "-true").
  - by apply true_false_suffix in Heq.
  - symmetry in Heq. by apply true_false_suffix in Heq.
  - split; [|done]. by apply (append_cancel_r _ _ "-false").
Qed.

End KeyFacts.

(** ** Date keys are ordered as their days are *)
Section KeyOrder.
Import JSDate DateFns Calendar.

Lemma forallb_seqZ (p : Z -> bool) (lo n : Z) :
  forallb p (seqZ lo n) = true -> forall x, lo <= x < lo + n -> p x = true.
Proof.
  intros Hall x Hx. rewrite forallb_forall in Hall.
  apply Hall. apply list_elem_of_In. apply elem_of_seqZ. lia.
Qed.

Lemma addLeadingZeros_two n : 0 <= n <= 99 -> addLeadingZeros n 2 = twoDigits n.
Proof.
  intros Hn. apply String.eqb_eq.
  apply (forallb_seqZ (fun n => String.eqb (addLeadingZeros n 2) (twoDigits n)) 0 100);
    [by vm_compute | lia].
Qed.

Lemma addLeadingZeros_four n : 0 <= n <= 9999 -> addLeadingZeros n 4 = fourDigits n.
Proof.
  intros Hn. apply String.eqb_eq.
  apply (forallb_seqZ (fun n => String.eqb (addLeadingZeros n 4) (fourDigits n)) 0 10000);
    [by vm_compute | lia].
Qed.

Lemma compare_eqb_eq a b : compare_eqb a b = true -> a = b.
Proof. by destruct a, b. Qed.

Lemma twoDigits_compare a b :
  0 <= a <= 99 -> 0 <= b <= 99 ->
  String.compare (twoDigits a) (twoDigits b) = Z.compare a b.
Proof.
  intros Ha Hb. apply compare_eqb_eq.
  pose proof (forallb_seqZ
    (fun a => forallb (fun b => compare_eqb (String.compare (twoDigits a) (twoDigits b)) (a ?= b))
                (seqZ 0 100)) 0 100) as Hall.
  specialize (Hall ltac:(by vm_compute) a ltac:(lia)). cbv beta in Hall.
  apply (forallb_seqZ _ 0 100 Hall). lia.
Qed.

Lemma compare_append (a a' b b' : string) :
  String.length a = String.length a' ->
  String.compare (a +:+ b) (a' +:+ b') =
  lexCompare (String.compare a a') (String.compare b b').
Proof.
  revert a'. induction a as [|c a IH]; intros [|c' a'] Hlen; try discriminate.
  - done.
  - rewrite !append_cons. simpl. injection Hlen as Hlen.
    destruct (Ascii.compare c c'); [by apply IH | done | done].
Qed.


Lemma twoDigits_length n : String.length (twoDigits n) = 2%nat.
Proof. reflexivity. Qed.

Lemma fourDigits_length n : String.length (fourDigits n) = 4%nat.
Proof. unfold fourDigits. by rewrite length_append. Qed.

Lemma fourDigits_compare a b :
  0 <= a <= 9999 -> 0 <= b <= 9999 ->
  String.compare (fourDigits a) (fourDigits b) = Z.compare a b.
Proof.
  intros Ha Hb. unfold fourDigits.
  rewrite compare_append by done.
  rewrite !twoDigits_compare by (Z.div_mod_to_equations; lia).
  destruct (Z.compare_spec (a / 100) (b / 100)) as [Heq|Hlt|Hgt].
  - destruct (Z.compare_spec (a mod 100) (b mod 100)); symmetry;
      [apply Z.compare_eq_iff | apply Z.compare_lt_iff | apply Z.compare_gt_iff];
      Z.div_mod_to_equations; lia.
  - symmetry. apply Z.compare_lt_iff. Z.div_mod_to_equations. lia.
  - symmetry. apply Z.compare_gt_iff. Z.div_mod_to_equations. lia.
Qed.

Lemma dateKey_compare y1 m1 d1 y2 m2 d2 :
  0 <= y1 <= 9999 -> 0 <= m1 <= 99 -> 0 <= d1 <= 99 ->
  0 <= y2 <= 9999 -> 0 <= m2 <= 99 -> 0 <= d2 <= 99 ->
  String.compare (dateKey y1 m1 d1) (dateKey y2 m2 d2) =
  lexCompare (y1 ?= y2) (lexCompare (m1 ?= m2) (d1 ?= d2)).
Proof.
  intros. unfold dateKey.
  rewrite compare_append by by rewrite !fourDigits_length.
  rewrite fourDigits_compare by done.
  rewrite (compare_append "-" "-") by done.
  rewrite (compare_append (twoDigits m1) (twoDigits m2)) by done.
  rewrite (compare_append "-" "-") by done.
  rewrite !twoDigits_compare by done.
  change ("-" ?= "-")%string with Eq. reflexivity.
Qed.

Lemma DateFromTime_range t :
  1 <= DateFromTime t <= daysInMonth (YearFromTime t) (MonthFromTime t).
Proof.
  pose proof (DayWithinYear_range t) as Hd.
  pose proof (leapDays_range (YearFromTime t)) as Hl.
  unfold DateFromTime, MonthFromTime, InLeapYear in *.
  repeat case_match; cbn [monthStart daysInMonth]; lia.
Qed.

Lemma format_dateKey t :
  1 <= getFullYear t <= 9999 ->
  format_yyyy_MM_dd t = dateKey (getFullYear t) (getMonth t + 1) (getDate t).
Proof.
  intros Hy. unfold format_yyyy_MM_dd, dateKey.
  pose proof (MonthFromTime_range t) as Hm.
  pose proof (DateFromTime_range t) as Hd.
  pose proof (daysInMonth_range (YearFromTime t) (MonthFromTime t)) as Hdim.
  destruct (Z.ltb_spec 0 (getFullYear t)); [|lia].
  rewrite addLeadingZeros_four by lia.
  rewrite !addLeadingZeros_two by (unfold getMonth, getDate; lia).
  done.
Qed.

Lemma monthStart_mono y mn1 mn2 :
  0 <= mn1 -> mn1 < mn2 -> mn2 <= 11 ->
  monthStart mn1 (leapDays y) + daysInMonth y mn1 <= monthStart mn2 (leapDays y).
Proof.
  intros H1 Hlt H2. pose proof (leapDays_range y) as Hl.
  assert (0 <= mn2 <= 11) as Hc2 by lia.
  assert (0 <= mn1 <= 11) as Hc1 by lia.
  each_month Hc1; each_month Hc2; try lia; cbn [monthStart daysInMonth]; lia.
Qed.

Lemma MakeDay_year_bounds y mn d :
  0 <= mn <= 11 -> 1 <= d <= daysInMonth y mn ->
  DayFromYear y <= MakeDay y mn d < DayFromYear (y + 1).
Proof.
  intros Hmn Hd. rewrite MakeDay_in_year by done.
  rewrite DayFromYear_succ, DaysInYear_leapDays.
  pose proof (leapDays_range y) as Hl.
  each_month Hmn;
    cbn [monthStart daysInMonth] in *; lia.
Qed.

Lemma DayFromYear_le y1 y2 : y1 <= y2 -> DayFromYear y1 <= DayFromYear y2.
Proof.
  intros Hle. apply Z.le_lteq in Hle as [Hlt| ->]; [|lia].
  apply DayFromYear_lt in Hlt. lia.
Qed.

(** Days are ordered as their (year, month, date) triples are. *)
Lemma MakeDay_compare y1 mn1 d1 y2 mn2 d2 :
  0 <= mn1 <= 11 -> 1 <= d1 <= daysInMonth y1 mn1 ->
  0 <= mn2 <= 11 -> 1 <= d2 <= daysInMonth y2 mn2 ->
  (MakeDay y1 mn1 d1 ?= MakeDay y2 mn2 d2) =
  lexCompare (y1 ?= y2) (lexCompare (mn1 ?= mn2) (d1 ?= d2)).
Proof.
  intros Hm1 Hd1 Hm2 Hd2.
  pose proof (MakeDay_year_bounds y1 mn1 d1 Hm1 Hd1) as Hb1.
  pose proof (MakeDay_year_bounds y2 mn2 d2 Hm2 Hd2) as Hb2.
  destruct (Z.compare_spec y1 y2) as [->|Hlt|Hgt]; simpl.
  - rewrite !MakeDay_in_year by done.
    destruct (Z.compare_spec mn1 mn2) as [->|Hlt|Hgt]; simpl.
    + destruct (Z.compare_spec d1 d2);
        [apply Z.compare_eq_iff | apply Z.compare_lt_iff | apply Z.compare_gt_iff]; lia.
    + pose proof (monthStart_mono y2 mn1 mn2 ltac:(lia) Hlt ltac:(lia)).
      apply Z.compare_lt_iff. lia.
    + pose proof (monthStart_mono y2 mn2 mn1 ltac:(lia) Hgt ltac:(lia)).
      apply Z.compare_gt_iff. lia.
  - pose proof (DayFromYear_le (y1 + 1) y2 ltac:(lia)).
    apply Z.compare_lt_iff. lia.
  - pose proof (DayFromYear_le (y2 + 1) y1 ltac:(lia)).
    apply Z.compare_gt_iff. lia.
Qed.

Lemma Day_as_MakeDay t :
  Day t = MakeDay (YearFromTime t) (MonthFromTime t) (DateFromTime t).
Proof. rewrite MakeDay_civil. lia. Qed.

(** Date keys of years 1 to 9999 are ordered as their days are. *)
Lemma format_compare t1 t2 :
  1 <= getFullYear t1 <= 9999 -> 1 <= getFullYear t2 <= 9999 ->
  String.compare (format_yyyy_MM_dd t1) (format_yyyy_MM_dd t2) = (Day t1 ?= Day t2).
Proof.
  intros Hy1 Hy2.
  pose proof (MonthFromTime_range t1). pose proof (MonthFromTime_range t2).
  pose proof (DateFromTime_range t1) as Hd1. pose proof (DateFromTime_range t2) as Hd2.
  pose proof (daysInMonth_range (YearFromTime t1) (MonthFromTime t1)).
  pose proof (daysInMonth_range (YearFromTime t2) (MonthFromTime t2)).
  rewrite !format_dateKey by done.
  unfold getFullYear, getMonth, getDate in *.
  rewrite dateKey_compare by lia.
  rewrite (Day_as_MakeDay t1), (Day_as_MakeDay t2).
  rewrite MakeDay_compare by done.
  by rewrite !(Z.add_comm _ 1), Z.add_compare_mono_l.
Qed.

Lemma digitOfAscii_char c n :
  digitOfAscii c = Some n -> 0 <= n <= 9 /\ c = digitChar n.
Proof.
  unfold digitOfAscii, digitChar. intros H.
  destruct (Z.leb_spec 48 (Z.of_N (N_of_ascii c))); [|discriminate].
  destruct (Z.leb_spec (Z.of_N (N_of_ascii c)) 57); [|discriminate].
  simpl in H. injection H as <-. split; [lia|].
  replace (48 + (Z.of_N (N_of_ascii c) - 48)) with (Z.of_N (N_of_ascii c)) by lia.
  by rewrite N2Z.id, ascii_N_embedding.
Qed.

Lemma digitsFrom_two c0 c1 n :
  digitsFrom 0 (String c0 (String c1 "")) = Some n ->
  0 <= n <= 99 /\ String c0 (String c1 "") = twoDigits n.
Proof.
  simpl. intros H.
  destruct (digitOfAscii c0) as [n0|] eqn:H0; [|discriminate].
  destruct (digitOfAscii c1) as [n1|] eqn:H1; [|discriminate].
  injection H as <-.
  apply digitOfAscii_char in H0 as [Hr0 ->], H1 as [Hr1 ->].
  split; [lia|]. unfold twoDigits.
  replace ((10 * (10 * 0 + n0) + n1) / 10) with n0 by (Z.div_mod_to_equations; lia).
  replace ((10 * (10 * 0 + n0) + n1) mod 10) with n1 by (Z.div_mod_to_equations; lia).
  done.
Qed.

Lemma digitsFrom_four c0 c1 c2 c3 n :
  digitsFrom 0 (String c0 (String c1 (String c2 (String c3 "")))) = Some n ->
  0 <= n <= 9999 /\ String c0 (String c1 (String c2 (String c3 ""))) = fourDigits n.
Proof.
  simpl. intros H.
  destruct (digitOfAscii c0) as [n0|] eqn:H0; [|discriminate].
  destruct (digitOfAscii c1) as [n1|] eqn:H1; [|discriminate].
  destruct (digitOfAscii c2) as [n2|] eqn:H2; [|discriminate].
  destruct (digitOfAscii c3) as [n3|] eqn:H3; [|discriminate].
  injection H as <-.
  apply digitOfAscii_char in H0 as [Hr0 ->], H1 as [Hr1 ->],
    H2 as [Hr2 ->], H3 as [Hr3 ->].
  split; [lia|]. unfold fourDigits, twoDigits.
  set (n := 10 * (10 * (10 * (10 * 0 + n0) + n1) + n2) + n3).
  replace (n / 100 / 10) with n0 by (subst n; Z.div_mod_to_equations; lia).
  replace ((n / 100) mod 10) with n1 by (subst n; Z.div_mod_to_equations; lia).
  replace (n mod 100 / 10) with n2 by (subst n; Z.div_mod_to_equations; lia).
  replace ((n mod 100) mod 10) with n3 by (subst n; Z.div_mod_to_equations; lia).
  done.
Qed.

(** A key that [newDateOfKeyAtMidnight] reads is the key of the day it
    answers with. *)
Lemma newDateOfKeyAtMidnight_key key t :
  newDateOfKeyAtMidnight key = Some t ->
  exists y mo d,
    key = dateKey y mo d
    /\ 0 <= y <= 9999 /\ 1 <= mo <= 12 /\ 1 <= d <= daysInMonth y (mo - 1)
    /\ t = MakeDate (MakeDay y (mo - 1) d) 0.
Proof.
  unfold newDateOfKeyAtMidnight. intros H.
  destruct (Nat.eqb_spec (String.length key) 10) as [Hlen|]; [|discriminate].
  destruct key as [|c0 [|c1 [|c2 [|c3 [|c4 [|c5 [|c6 [|c7 [|c8 [|c9 [|c10 rest]]]]]]]]]]];
    try discriminate Hlen.
  cbn [substring] in H.
  destruct (String.eqb_spec (String c4 "") "-") as [[= ->]|]; [|discriminate].
  destruct (String.eqb_spec (String c7 "") "-") as [[= ->]|]; [|discriminate].
  cbn [andb] in H.
  destruct (digitsFrom 0 (String c0 _)) as [y|] eqn:Hy; [|discriminate].
  destruct (digitsFrom 0 (String c5 _)) as [mo|] eqn:Hmo; [|discriminate].
  destruct (digitsFrom 0 (String c8 _)) as [d|] eqn:Hd; [|discriminate].
  apply digitsFrom_four in Hy as [Hyr Hys].
  apply digitsFrom_two in Hmo as [Hmor Hmos].
  apply digitsFrom_two in Hd as [Hdr Hds].
  destruct (Z.leb_spec 1 mo); [|discriminate].
  destruct (Z.leb_spec mo 12); [|discriminate].
  destruct (Z.leb_spec 1 d); [|discriminate].
  destruct (Z.leb_spec d (daysInMonth y (mo - 1))); [|discriminate].
  injection H as <-.
  exists y, mo, d. repeat split; try lia.
  unfold dateKey. rewrite <- Hys, <- Hmos, <- Hds. reflexivity.
Qed.

(** A date key read by [newDateOfKeyAtMidnight] and the key of a date of
    the years 1 to 9999 compare as their days do. *)
Lemma key_compare_format key s t :
  newDateOfKeyAtMidnight key = Some s ->
  1 <= getFullYear t <= 9999 ->
  String.compare key (format_yyyy_MM_dd t) = (Day s ?= Day t)
  /\ String.compare (format_yyyy_MM_dd t) key = (Day t ?= Day s).
Proof.
  intros Hkey Hy.
  apply newDateOfKeyAtMidnight_key in Hkey as (y & mo & d & -> & Hyr & Hmo & Hd & ->).
  pose proof (MonthFromTime_range t). pose proof (DateFromTime_range t) as Hdt.
  pose proof (daysInMonth_range (YearFromTime t) (MonthFromTime t)).
  pose proof (daysInMonth_range y (mo - 1)).
  rewrite format_dateKey by done. unfold getFullYear, getMonth, getDate in *.
  rewrite !dateKey_compare by lia.
  rewrite Day_MakeDate by (unfold msPerDay; lia).
  rewrite (Day_as_MakeDay t), !MakeDay_compare by (done || lia).
  replace (mo ?= MonthFromTime t + 1) with (mo - 1 ?= MonthFromTime t)
    by (rewrite <- (Z.add_compare_mono_l 1); f_equal; lia).
  replace (MonthFromTime t + 1 ?= mo) with (MonthFromTime t ?= mo - 1)
    by (rewrite <- (Z.add_compare_mono_l 1); f_equal; lia).
  done.
Qed.

(** For a date of the years 1 to 9999 and a custom range whose bounds are
    date keys, the string test of [combineDayData] and [holidayProgress]
    holds exactly when the day lies between the days of the two bounds,
    both included. *)
Lemma inRange_chronological currentDate ch start end_ :
  1 <= getFullYear currentDate <= 9999 ->
  newDateOfKeyAtMidnight (ch_start ch) = Some start ->
  newDateOfKeyAtMidnight (ch_end ch) = Some end_ ->
  inRange (format_yyyy_MM_dd currentDate) ch = true <->
  Day start <= Day currentDate <= Day end_.
Proof.
  intros Hy Hs He.
  destruct (key_compare_format _ _ currentDate Hs Hy) as [_ Hcs].
  destruct (key_compare_format _ _ currentDate He Hy) as [_ Hce].
  unfold inRange, JSString.ge, JSString.le, String.ltb, String.leb.
  rewrite Hcs, Hce, andb_true_iff, negb_true_iff.
  destruct (Z.compare_spec (Day currentDate) (Day start)),
           (Z.compare_spec (Day currentDate) (Day end_)); split; intros; try lia;
    intuition congruence.
Qed.

Lemma lt_chronological endInput end_ selected :
  1 <= getFullYear selected <= 9999 ->
  newDateOfKeyAtMidnight endInput = Some end_ ->
  JSString.lt endInput (format_yyyy_MM_dd selected) = true <-> Day end_ < Day selected.
Proof.
  intros Hy He.
  destruct (key_compare_format _ _ selected He Hy) as [Hc _].
  unfold JSString.lt, String.ltb. rewrite Hc.
  destruct (Z.compare_spec (Day end_) (Day selected)); split; intros; try lia; done.
Qed.

Lemma digitOfAscii_digitChar n : 0 <= n <= 9 -> digitOfAscii (digitChar n) = Some n.
Proof.
  intros Hn.
  pose proof (forallb_seqZ
    (fun k => match digitOfAscii (digitChar k) with Some m => m =? k | None => false end)
    0 10 ltac:(by vm_compute) n ltac:(lia)) as Hk.
  cbv beta in Hk. destruct (digitOfAscii (digitChar n)) as [m|]; [|done].
  apply Z.eqb_eq in Hk. by subst.
Qed.

Lemma digitsFrom_twoDigits n : 0 <= n <= 99 -> digitsFrom 0 (twoDigits n) = Some n.
Proof.
  intros Hn. unfold twoDigits. cbn [digitsFrom].
  rewrite !digitOfAscii_digitChar by (Z.div_mod_to_equations; lia).
  f_equal. Z.div_mod_to_equations. lia.
Qed.

Lemma digitsFrom_fourDigits n : 0 <= n <= 9999 -> digitsFrom 0 (fourDigits n) = Some n.
Proof.
  intros Hn. unfold fourDigits, twoDigits. rewrite !append_cons.
  change ("" +:+ ?s) with s. cbn [digitsFrom].
  rewrite !digitOfAscii_digitChar by (Z.div_mod_to_equations; lia).
  f_equal. Z.div_mod_to_equations. lia.
Qed.

Lemma dateKey_chars y mo d :
  dateKey y mo d =
  String (digitChar (y / 100 / 10)) (String (digitChar ((y / 100) mod 10))
    (String (digitChar (y mod 100 / 10)) (String (digitChar ((y mod 100) mod 10))
      (String "-" (String (digitChar (mo / 10)) (String (digitChar (mo mod 10))
        (String "-" (String (digitChar (d / 10)) (String (digitChar (d mod 10)) ""))))))))).
Proof. reflexivity. Qed.

Lemma newDateOfKeyAtMidnight_dateKey y mo d :
  0 <= y <= 9999 -> 1 <= mo <= 12 -> 1 <= d <= daysInMonth y (mo - 1) ->
  newDateOfKeyAtMidnight (dateKey y mo d) = Some (MakeDate (MakeDay y (mo - 1) d) 0).
Proof.
  intros Hy Hmo Hd. pose proof (daysInMonth_range y (mo - 1)) as Hdim.
  pose proof (digitsFrom_fourDigits y Hy) as Hfour.
  pose proof (digitsFrom_twoDigits mo ltac:(lia)) as Htwo1.
  pose proof (digitsFrom_twoDigits d ltac:(lia)) as Htwo2.
  unfold fourDigits, twoDigits in Hfour, Htwo1, Htwo2.
  rewrite !append_cons in Hfour. change ("" +:+ ?s) with s in Hfour.
  unfold newDateOfKeyAtMidnight. rewrite dateKey_chars.
  cbn [String.length substring Nat.eqb String.eqb Ascii.eqb Bool.eqb andb].
  rewrite Hfour, Htwo1, Htwo2.
  destruct (Z.leb_spec 1 mo); [|lia].
  destruct (Z.leb_spec mo 12); [|lia].
  destruct (Z.leb_spec 1 d); [|lia].
  destruct (Z.leb_spec d (daysInMonth y (mo - 1))); [|lia].
  reflexivity.
Qed.

(** Reading back the key of a date of the years 1 to 9999 gives the
    midnight of its day. *)
Lemma newDateOfKeyAtMidnight_format t :
  1 <= getFullYear t <= 9999 ->
  newDateOfKeyAtMidnight (format_yyyy_MM_dd t) = Some (MakeDate (Day t) 0).
Proof.
  intros Hy. rewrite format_dateKey by done.
  pose proof (MonthFromTime_range t) as Hm.
  pose proof (DateFromTime_range t) as Hd.
  unfold getFullYear, getMonth, getDate in *.
  rewrite newDateOfKeyAtMidnight_dateKey.
  - replace (MonthFromTime t + 1 - 1) with (MonthFromTime t) by lia.
    by rewrite <- Day_as_MakeDay.
  - lia.
  - lia.
  - replace (MonthFromTime t + 1 - 1) with (MonthFromTime t) by lia. done.
Qed.

End KeyOrder.

(** ** The cache of [getBaseDayData] *)
Section CacheFacts.
Import JSDate DateFns Calendar.
Variable Solar_fromYmd : Z -> Z -> Z -> Solar.
Variable HolidayUtil_getHoliday : Z -> Z -> Z -> option Holiday.

Local Abbreviation cache_ok := (cache_ok Solar_fromYmd HolidayUtil_getHoliday).
Local Abbreviation computeBaseDayData :=
  (computeBaseDayData Solar_fromYmd HolidayUtil_getHoliday).
Local Abbreviation getBaseDayData :=
  (getBaseDayData Solar_fromYmd HolidayUtil_getHoliday).

Lemma cache_ok_empty : cache_ok ∅.
Proof. intros key data Hl. by rewrite lookup_empty in Hl. Qed.

(** A lookup answers with a record built for the same key, and leaves
    the cache well formed. *)
Lemma getBaseDayData_ok (c : gmap string BaseDayData) d b :
  cache_ok c ->
  cache_ok (getBaseDayData c d b).2
  /\ exists d', format_yyyy_MM_dd d' = format_yyyy_MM_dd d
               /\ (getBaseDayData c d b).1 = computeBaseDayData d' b.
Proof.
  intros Hc. unfold Calendar.getBaseDayData.
  destruct (c !! cacheKey (format_yyyy_MM_dd d) b) as [data|] eqn:Hl; simpl.
  - split; [done|].
    destruct (Hc _ _ Hl) as (d' & Hkey & Hdata).
    apply cacheKey_inj in Hkey as [Hs Hb].
    exists d'. split; [done|]. by rewrite Hb, <- Hdata.
  - split; [|by exists d].
    intros key data Hins.
    destruct (decide (cacheKey (format_yyyy_MM_dd d) b = key)) as [<-|Hne].
    + rewrite lookup_insert_eq in Hins. injection Hins as <-. by exists d.
    + rewrite lookup_insert_ne in Hins by done. by apply Hc.
Qed.

(** X2. Asking [getBaseDayData] twice for the same date and flag gives the
    same record, and the second call leaves the cache as it is. *)
Lemma getBaseDayData_memo (c : gmap string BaseDayData) d b :
  getBaseDayData (getBaseDayData c d b).2 d b = getBaseDayData c d b.
Proof.
  unfold Calendar.getBaseDayData.
  destruct (c !! cacheKey (format_yyyy_MM_dd d) b) as [data|] eqn:Hl; simpl.
  - by rewrite Hl.
  - by rewrite lookup_insert_eq.
Qed.

Lemma computeBaseDayData_flags d b :
  ~ (isBuiltInHoliday (computeBaseDayData d b) = true
     /\ isBuiltInWork (computeBaseDayData d b) = true).
Proof.
  unfold Calendar.computeBaseDayData; simpl.
  destruct (HolidayUtil_getHoliday _ _ _) as [[[] ?]|]; simpl; intros []; done.
Qed.

End CacheFacts.

(** ** The merge of built-in facts and custom ranges *)
Section MergeFacts.
Import JSDate DateFns Calendar.

Lemma combineLoop_first dateStr before ch after vars :
  Forall (fun c => inRange dateStr c = false) before ->
  inRange dateStr ch = true ->
  combineLoop dateStr (before ++ ch :: after) vars = (true, false, ch_name ch).
Proof.
  intros Hbefore Hch. induction Hbefore as [|c before Hc _ IH]; simpl.
  - by rewrite Hch.
  - by rewrite Hc.
Qed.

Lemma combineLoop_none dateStr customHolidays vars :
  Forall (fun c => inRange dateStr c = false) customHolidays ->
  combineLoop dateStr customHolidays vars = vars.
Proof.
  intros Hall. induction Hall as [|c rest Hc _ IH]; simpl; [done|].
  by rewrite Hc.
Qed.

(** The loop never leaves both flags set. *)
Lemma combineLoop_flags dateStr customHolidays h w n :
  ~ (h = true /\ w = true) ->
  ~ ((combineLoop dateStr customHolidays (h, w, n)).1.1 = true
     /\ (combineLoop dateStr customHolidays (h, w, n)).1.2 = true).
Proof.
  intros Hvars. induction customHolidays as [|c rest IH]; simpl; [done|].
  destruct (inRange dateStr c); simpl; [intros []; done | done].
Qed.

Lemma combineDayData_fields base customHolidays markedDates :
  let vars := combineLoop (dateStr base) customHolidays
                (isBuiltInHoliday base, isBuiltInWork base, builtInHolidayName base) in
  combineDayData base customHolidays markedDates =
  {| Calendar.base := base;
     isHoliday := vars.1.1;
     isWork := vars.1.2;
     holidayName := vars.2;
     isMarked := bool_decide (dateStr base ∈ markedDates) |}.
Proof.
  unfold combineDayData. simpl.
  by destruct (combineLoop _ _ _) as [[h w] n].
Qed.

(** C1. [combineDayData] goes through the custom ranges in the order
    given: the first range whose bounds hold the date string, both bounds
    included, makes the day a holiday that is not a workday and carries
    that range's name, whatever the built-in facts; when no range holds
    it, the three built-in facts pass through.  The bounds are compared as
    strings, which for date keys of the years 1 to 9999 is the order of the
    days.  The base record and the mark are kept either way. *)
Theorem combineDayData_first_match
    (base : BaseDayData) (customHolidays : list CustomHoliday)
    (markedDates : gset string) :
  let day := combineDayData base customHolidays markedDates in
  (forall before ch after,
      customHolidays = before ++ ch :: after ->
      Forall (fun c => inRange (dateStr base) c = false) before ->
      inRange (dateStr base) ch = true ->
      isHoliday day = true /\ isWork day = false /\ holidayName day = ch_name ch)
  /\ (Forall (fun c => inRange (dateStr base) c = false) customHolidays ->
      isHoliday day = isBuiltInHoliday base
      /\ isWork day = isBuiltInWork base
      /\ holidayName day = builtInHolidayName base)
  /\ (forall ch, inRange (dateStr base) ch = true <->
        String.leb (ch_start ch) (dateStr base) = true
        /\ String.leb (dateStr base) (ch_end ch) = true)
  /\ (forall ch d start end_,
        dateStr base = format_yyyy_MM_dd d -> 1 <= getFullYear d <= 9999 ->
        newDateOfKeyAtMidnight (ch_start ch) = Some start ->
        newDateOfKeyAtMidnight (ch_end ch) = Some end_ ->
        (inRange (dateStr base) ch = true <-> Day start <= Day d <= Day end_))
  /\ Calendar.base day = base
  /\ isMarked day = bool_decide (dateStr base ∈ markedDates).
Proof.
  intros day. subst day. rewrite combineDayData_fields. simpl.
  split; [|split; [|split; [|split; [|done]]]].
  4: { intros ch d start end_ -> Hy Hs He. by apply inRange_chronological. }
  - intros before ch after -> Hbefore Hch.
    by rewrite (combineLoop_first _ _ _ _ _ Hbefore Hch).
  - intros Hnone. by rewrite (combineLoop_none _ _ _ Hnone).
  - intros ch. unfold inRange, JSString.ge, JSString.le, String.ltb, String.leb.
    rewrite andb_true_iff, negb_true_iff.
    rewrite (String.compare_antisym (ch_start ch) (dateStr base)).
    destruct (String.compare (dateStr base) (ch_start ch)),
             (String.compare (dateStr base) (ch_end ch)); simpl; intuition congruence.
Qed.

Lemma combineDayData_first_match_witness :
  (let day := combineDayData Samples.workingSaturday
                [Samples.winterBreak; Samples.longWeekend; Samples.overlapping] ∅ in
   isHoliday day = true /\ isWork day = false /\ holidayName day = "Long weekend")
  /\ (let day := combineDayData Samples.workingSaturday [Samples.winterBreak] ∅ in
      isHoliday day = false /\ isWork day = true
      /\ holidayName day = "Spring Festival").
Proof.
  split.
  - apply (proj1 (combineDayData_first_match Samples.workingSaturday
                    [Samples.winterBreak; Samples.longWeekend; Samples.overlapping] ∅)
             [Samples.winterBreak] Samples.longWeekend [Samples.overlapping]).
    + reflexivity.
    + repeat constructor.
    + reflexivity.
  - apply (proj1 (proj2 (combineDayData_first_match Samples.workingSaturday
                           [Samples.winterBreak] ∅))).
    repeat constructor.
Defined.

End MergeFacts.

(** ** Day records never are holiday and workday at once *)
Section FlagFacts.
Import JSDate DateFns Calendar.
Variable Solar_fromYmd : Z -> Z -> Z -> Solar.
Variable HolidayUtil_getHoliday : Z -> Z -> Z -> option Holiday.

Local Abbreviation cache_ok := (cache_ok Solar_fromYmd HolidayUtil_getHoliday).
Local Abbreviation getBaseDayData :=
  (getBaseDayData Solar_fromYmd HolidayUtil_getHoliday).

(** C10. For every date, list of custom ranges and set of marked dates, the
    record of the day is never a holiday and a workday at once: the two
    built-in flags come from the one [isWork] answer of the holiday table,
    so at most one of them is set, and a custom range that holds the date
    sets [isHoliday] together with clearing [isWork].  The cache is any
    cache that [getBaseDayData] itself has filled. *)
Theorem dayData_not_holiday_and_work
    (baseDayCache : gmap string BaseDayData) (date : Z) (isCurrentMonth : bool)
    (customHolidays : list CustomHoliday) (markedDates : gset string) :
  cache_ok baseDayCache ->
  let base := (getBaseDayData baseDayCache date isCurrentMonth).1 in
  let day := combineDayData base customHolidays markedDates in
  ~ (isBuiltInHoliday base = true /\ isBuiltInWork base = true)
  /\ ~ (isHoliday day = true /\ isWork day = true).
Proof.
  intros Hc base day.
  destruct (getBaseDayData_ok _ _ _ date isCurrentMonth Hc) as (_ & d' & _ & Hbase).
  assert (~ (isBuiltInHoliday base = true /\ isBuiltInWork base = true)) as Hflags.
  { subst base. rewrite Hbase. apply computeBaseDayData_flags. }
  split; [done|].
  subst day. rewrite combineDayData_fields. simpl.
  by apply combineLoop_flags.
Qed.

Lemma cache_ok_step (baseDayCache : gmap string BaseDayData) d b :
  cache_ok baseDayCache -> cache_ok (getBaseDayData baseDayCache d b).2.
Proof. intros Hc. by apply getBaseDayData_ok. Qed.

End FlagFacts.

Lemma dayData_not_holiday_and_work_witness :
  let cache :=
    (Calendar.getBaseDayData Samples.plainSolar Samples.springFestival ∅
       (JSDate.newDate 2026 1 14) true).2 in
  let base :=
    (Calendar.getBaseDayData Samples.plainSolar Samples.springFestival cache
       (JSDate.newDate 2026 1 14) true).1 in
  let day := Calendar.combineDayData base [Samples.overlapping] ∅ in
  ~ (Calendar.isBuiltInHoliday base = true /\ Calendar.isBuiltInWork base = true)
  /\ ~ (Calendar.isHoliday day = true /\ Calendar.isWork day = true).
Proof.
  apply (dayData_not_holiday_and_work Samples.plainSolar Samples.springFestival).
  apply cache_ok_step, cache_ok_empty.
Defined.

(** ** Marks and the custom-holiday form *)
Section HandlerFacts.
Import JSDate DateFns Calendar.

(** C9. Toggling the mark of a date twice gives back the set of marked
    dates: one toggle flips whether the date's key is in the set and leaves
    every other key as it was. *)
Theorem toggleMark_twice (date : Z) (markedDates : gset string) :
  toggleMark date (toggleMark date markedDates) = markedDates
  /\ (format_yyyy_MM_dd date ∈ toggleMark date markedDates
      <-> format_yyyy_MM_dd date ∉ markedDates)
  /\ (forall key, key <> format_yyyy_MM_dd date ->
        (key ∈ toggleMark date markedDates <-> key ∈ markedDates)).
Proof.
  unfold toggleMark.
  split; [|split].
  - destruct (decide (format_yyyy_MM_dd date ∈ markedDates)) as [Hin|Hout].
    + rewrite (bool_decide_eq_true_2 _ Hin).
      rewrite bool_decide_eq_false_2 by set_solver.
      apply set_eq. intros x.
      destruct (decide (x = format_yyyy_MM_dd date)) as [->|]; set_solver.
    + rewrite (bool_decide_eq_false_2 _ Hout).
      rewrite bool_decide_eq_true_2 by set_solver.
      set_solver.
  - case_bool_decide; set_solver.
  - intros key Hkey. case_bool_decide; set_solver.
Qed.



(** A range that passes the checks is appended, with the form reset. *)
Lemma handleSaveCustomHoliday_accepts now st selected :
  selectedDate st = Some selected ->
  holidayNameInput st <> "" -> holidayEndInput st <> "" ->
  JSString.lt (holidayEndInput st) (format_yyyy_MM_dd selected) = false ->
  customHolidays (handleSaveCustomHoliday now st) =
    customHolidays st ++
      [{| ch_id := toString now; ch_name := holidayNameInput st;
          ch_start := format_yyyy_MM_dd selected; ch_end := holidayEndInput st |}].
Proof.
  intros Hsel Hname Hend Hlt. unfold handleSaveCustomHoliday.
  rewrite Hsel, Hlt. unfold JSString.truthy.
  apply String.eqb_neq in Hname, Hend. by rewrite Hname, Hend.
Qed.

(** X3. [handleSaveCustomHoliday] keeps the list of custom holidays well
    formed: when the selected date is of the years 1 to 9999 and the end
    input is empty or a date key (what a date input holds), every range of
    the list after the handler has date keys as bounds, the end no earlier
    than the start. *)
Theorem handleSaveCustomHoliday_ranges_ok (now : Z) (st : CalendarState) :
  ranges_ok (customHolidays st) ->
  (forall selected, selectedDate st = Some selected ->
     1 <= getFullYear selected <= 9999) ->
  holidayEndInput st = ""
  \/ (exists end_, newDateOfKeyAtMidnight (holidayEndInput st) = Some end_) ->
  ranges_ok (customHolidays (handleSaveCustomHoliday now st)).
Proof.
  intros Hok Hyear Hend. unfold handleSaveCustomHoliday.
  destruct (selectedDate st) as [selected|] eqn:Hsel; [|done].
  specialize (Hyear selected eq_refl).
  unfold JSString.truthy.
  destruct (String.eqb_spec (holidayNameInput st) ""); [done|].
  destruct (String.eqb_spec (holidayEndInput st) "") as [|Hne]; [done|]. simpl.
  destruct Hend as [Hempty | (end_ & Hparse)]; [done|].
  destruct (JSString.lt _ _) eqn:Hlt; [done|]. simpl.
  apply Forall_app. split; [done|].
  apply Forall_singleton. simpl.
  exists (MakeDate (Day selected) 0), end_.
  split; [by apply newDateOfKeyAtMidnight_format|]. split; [done|].
  rewrite Day_MakeDate by (unfold msPerDay; lia).
  destruct (Z.lt_ge_cases (Day end_) (Day selected)) as [Hearlier|Hle]; [|lia].
  apply (lt_chronological _ _ _ Hyear Hparse) in Hearlier. congruence.
Qed.

Lemma handleSaveCustomHoliday_ranges_ok_witness :
  ranges_ok (customHolidays
               (handleSaveCustomHoliday 1771800000000
                  (Samples.formState "2026-02-23" "Long weekend"))).
Proof.
  apply (handleSaveCustomHoliday_ranges_ok 1771800000000
           (Samples.formState "2026-02-23" "Long weekend")).
  - apply Forall_singleton.
    exists (newDate 2026 0 5), (newDate 2026 0 9).
    split; [vm_compute; reflexivity|]. split; [vm_compute; reflexivity|].
    vm_compute. discriminate.
  - intros selected [= <-]. vm_compute. split; discriminate.
  - right. exists (newDate 2026 1 23). vm_compute. reflexivity.
Defined.

End HandlerFacts.

(** ** Block edges of the grid cells *)
Section BlockFacts.
Import JSDate DateFns Calendar.

Lemma name_differs (a b : string) : negb (String.eqb a b) = true <-> a <> b.
Proof. rewrite negb_true_iff. apply String.eqb_neq. Qed.

(** C6. For every grid (of 42 cells or any other length) and every cell of
    it, [blockStart] is set exactly when the day is a holiday and is the
    first cell, or follows a cell that is no holiday or a holiday of another
    name, or when the day is a Monday; [blockEnd] is set exactly when the
    day is a holiday and is the last cell, or precedes a cell that is no
    holiday or a holiday of another name, or when the day is a Sunday.  So
    a holiday whose neighbours are no holidays has both flags set. *)
Theorem block_edges (days : list DayData) (idx : nat) (day : DayData) :
  days !! idx = Some day ->
  (blockStart days idx day = true <->
     (isHoliday day = true
      /\ (idx = 0%nat
          \/ exists prevDay, (0 < idx)%nat /\ days !! (idx - 1)%nat = Some prevDay
               /\ (isHoliday prevDay = false
                   \/ holidayName prevDay <> holidayName day)))
     \/ getDay (date (base day)) = 1)
  /\ (blockEnd days idx day = true <->
        (isHoliday day = true
         /\ (idx = (List.length days - 1)%nat
             \/ exists nextDay, days !! (idx + 1)%nat = Some nextDay
                  /\ (isHoliday nextDay = false
                      \/ holidayName nextDay <> holidayName day)))
        \/ getDay (date (base day)) = 0)
  /\ (isHoliday day = true ->
      (forall prevDay, (0 < idx)%nat -> days !! (idx - 1)%nat = Some prevDay ->
         isHoliday prevDay = false) ->
      (forall nextDay, days !! (idx + 1)%nat = Some nextDay ->
         isHoliday nextDay = false) ->
      blockStart days idx day = true /\ blockEnd days idx day = true).
Proof.
  intros Hday.
  pose proof (lookup_lt_Some _ _ _ Hday) as Hidx.
  assert (isHolidayStart days idx day = true <->
          isHoliday day = true
          /\ (idx = 0%nat
              \/ exists prevDay, (0 < idx)%nat /\ days !! (idx - 1)%nat = Some prevDay
                   /\ (isHoliday prevDay = false
                       \/ holidayName prevDay <> holidayName day))) as Hstart.
  { unfold isHolidayStart. rewrite andb_true_iff.
    destruct (Nat.ltb_spec 0 idx) as [Hpos|Hzero].
    - destruct (days !! (idx - 1)%nat) as [p|] eqn:Hp.
      + rewrite orb_true_iff, negb_true_iff, name_differs.
        split.
        * intros [Hh Hp']. split; [done|]. right. by exists p.
        * intros [Hh [->|(p' & _ & [= <-] & Hp')]]; [lia | done].
      + apply lookup_ge_None in Hp. lia.
    - assert (idx = 0%nat) as -> by lia. intuition. }
  assert (isHolidayEnd days idx day = true <->
          isHoliday day = true
          /\ (idx = (List.length days - 1)%nat
              \/ exists nextDay, days !! (idx + 1)%nat = Some nextDay
                   /\ (isHoliday nextDay = false
                       \/ holidayName nextDay <> holidayName day))) as Hend.
  { unfold isHolidayEnd. rewrite andb_true_iff.
    destruct (Nat.ltb_spec idx (List.length days - 1)) as [Hin|Hlast].
    - destruct (days !! (idx + 1)%nat) as [n|] eqn:Hn.
      + rewrite orb_true_iff, negb_true_iff, name_differs.
        split.
        * intros [Hh Hn']. split; [done|]. right. by exists n.
        * intros [Hh [->|(n' & [= <-] & Hn')]]; [lia | done].
      + apply lookup_ge_None in Hn. lia.
    - assert (idx = (List.length days - 1)%nat) as Hl by lia. intuition. }
  unfold blockStart, blockEnd, isRowStart, isRowEnd.
  rewrite !orb_true_iff, !Z.eqb_eq, Hstart, Hend.
  split; [done|]. split; [done|].
  intros Hh Hprev Hnext. split; left; (split; [done|]).
  - destruct idx as [|idx']; [by left | right].
    destruct (days !! (S idx' - 1)%nat) as [p|] eqn:Hp.
    + exists p. split; [lia|]. split; [done|]. left. apply Hprev; [lia | done].
    + apply lookup_ge_None in Hp. lia.
  - destruct (days !! (idx + 1)%nat) as [n|] eqn:Hn.
    + right. exists n. split; [done|]. left. by apply Hnext.
    + left. apply lookup_ge_None in Hn. lia.
Qed.

End BlockFacts.

Lemma block_edges_witness :
  let days :=
    (Calendar.monthDays Samples.plainSolar Samples.noHoliday ∅
       Samples.february2026 [Samples.oneDayOff] ∅).2 in
  exists day,
    days !! 9%nat = Some day
    /\ Calendar.holidayName day = "Day off"
    /\ Calendar.blockStart days 9 day = true
    /\ Calendar.blockEnd days 9 day = true.
Proof.
  intros days.
  assert (exists day, days !! 9%nat = Some day /\ Calendar.holidayName day = "Day off"
                      /\ Calendar.isHoliday day = true) as (day & Hday & Hname & Hh).
  { eexists. split; [vm_compute; reflexivity|]. split; reflexivity. }
  exists day. split; [done|]. split; [done|].
  apply (proj2 (proj2 (block_edges days 9 day Hday))).
  - exact Hh.
  - intros prevDay _ Hprev. vm_compute in Hprev. by injection Hprev as <-.
  - intros nextDay Hnext. vm_compute in Hnext. by injection Hnext as <-.
Defined.

(** ** The month grid *)
Section GridFacts.
Import JSDate DateFns Calendar.
Variable Solar_fromYmd : Z -> Z -> Z -> Solar.
Variable HolidayUtil_getHoliday : Z -> Z -> Z -> option Holiday.
Variable customHolidays : list CustomHoliday.
Variable markedDates : gset string.

Local Abbreviation cache_ok := (cache_ok Solar_fromYmd HolidayUtil_getHoliday).
Local Abbreviation cellOf :=
  (cellOf Solar_fromYmd HolidayUtil_getHoliday customHolidays markedDates).
Local Abbreviation pushDay :=
  (pushDay Solar_fromYmd HolidayUtil_getHoliday customHolidays markedDates).
Local Abbreviation monthDays :=
  (fun cache month =>
     monthDays Solar_fromYmd HolidayUtil_getHoliday cache month
       customHolidays markedDates).

Lemma newDate_shift year m d k :
  newDate year m (d + k) = newDate year m d + k * msPerDay.
Proof. unfold newDate, MakeDate. rewrite MakeDay_shift. lia. Qed.

Lemma newDate_next_month year m d :
  0 <= m <= 11 ->
  newDate year (m + 1) d = newDate year m (d + daysInMonth (MakeFullYear year) m).
Proof. intros Hm. unfold newDate. by rewrite MakeDay_next_month. Qed.

Lemma getDate_newDate_last year m :
  0 <= m <= 11 ->
  getDate (newDate year (m + 1) 0) = daysInMonth (MakeFullYear year) m.
Proof. intros Hm. unfold getDate, newDate. by apply getDate_lastDay. Qed.

Lemma cellOf_fields d cur cell :
  cellOf d cur cell ->
  dateStr (base cell) = format_yyyy_MM_dd d /\ isCurrentMonth (base cell) = cur.
Proof.
  intros (d' & Hfmt & ->). rewrite combineDayData_fields. simpl. done.
Qed.

Lemma pushDay_ok st d cur :
  cache_ok st.1 ->
  cache_ok (pushDay d cur st).1
  /\ exists cell, (pushDay d cur st).2 = st.2 ++ [cell] /\ cellOf d cur cell.
Proof.
  intros Hc. unfold Calendar.pushDay.
  destruct (getBaseDayData_ok _ _ _ d cur Hc) as (Hc' & d' & Hfmt & Hdata).
  destruct (getBaseDayData _ _ _ _ _) as [data cache'] eqn:Hget. simpl in *.
  split; [done|].
  eexists. split; [done|]. exists d'. by rewrite Hdata.
Qed.

(** A counting loop of pushes appends one cell per index, in order. *)
Lemma forUp_push n : forall i st (f : Z -> Z) cur,
  cache_ok st.1 ->
  cache_ok (forUp i n (fun i => pushDay (f i) cur) st).1
  /\ exists cells,
       (forUp i n (fun i => pushDay (f i) cur) st).2 = st.2 ++ cells
       /\ List.length cells = n
       /\ forall j, (j < n)%nat ->
            exists cell, cells !! j = Some cell /\ cellOf (f (i + Z.of_nat j)) cur cell.
Proof.
  induction n as [|n IH]; intros i st f cur Hc; simpl.
  - split; [done|]. exists []. rewrite app_nil_r. split; [done|]. split; [done|]. intros j Hj. lia.
  - destruct (pushDay_ok st (f i) cur Hc) as (Hc1 & cell & Hpush & Hcell).
    destruct (IH (i + 1) (pushDay (f i) cur st) f cur Hc1) as (Hc2 & cells & Happ & Hlen & Hcells).
    split; [done|]. exists (cell :: cells).
    split; [by rewrite Happ, Hpush, <- app_assoc|].
    split; [simpl; by rewrite Hlen|].
    intros [|j] Hj; simpl.
    + exists cell. by rewrite Z.add_0_r.
    + destruct (Hcells j ltac:(lia)) as (cell' & Hl & Hc').
      exists cell'. split; [done|].
      by replace (i + Z.of_nat (S j)) with (i + 1 + Z.of_nat j) by lia.
Qed.

Lemma forDown_push n : forall i st (f : Z -> Z) cur,
  cache_ok st.1 ->
  cache_ok (forDown i n (fun i => pushDay (f i) cur) st).1
  /\ exists cells,
       (forDown i n (fun i => pushDay (f i) cur) st).2 = st.2 ++ cells
       /\ List.length cells = n
       /\ forall j, (j < n)%nat ->
            exists cell, cells !! j = Some cell /\ cellOf (f (i - Z.of_nat j)) cur cell.
Proof.
  induction n as [|n IH]; intros i st f cur Hc; simpl.
  - split; [done|]. exists []. rewrite app_nil_r. split; [done|]. split; [done|]. intros j Hj. lia.
  - destruct (pushDay_ok st (f i) cur Hc) as (Hc1 & cell & Hpush & Hcell).
    destruct (IH (i - 1) (pushDay (f i) cur st) f cur Hc1) as (Hc2 & cells & Happ & Hlen & Hcells).
    split; [done|]. exists (cell :: cells).
    split; [by rewrite Happ, Hpush, <- app_assoc|].
    split; [simpl; by rewrite Hlen|].
    intros [|j] Hj; simpl.
    + exists cell. by rewrite Z.sub_0_r.
    + destruct (Hcells j ltac:(lia)) as (cell' & Hl & Hc').
      exists cell'. split; [done|].
      by replace (i - Z.of_nat (S j)) with (i - 1 - Z.of_nat j) by lia.
Qed.

Lemma startOffsetOf_range wd : 0 <= wd <= 6 -> 0 <= startOffsetOf wd <= 6.
Proof. unfold startOffsetOf. case_match; lia. Qed.

(** The cells of the grid, one by one: cell [k] is the record of the day
    [k - startOffset] days from the first of the month, flagged as of the
    month exactly on the [daysInMonth] cells from [startOffset] on. *)
Lemma monthDays_cells (baseDayCache : gmap string BaseDayData) (month : Z) :
  cache_ok baseDayCache ->
  let year := getFullYear month in
  let m := getMonth month in
  let firstDay := newDate year m 1 in
  let startOffset := startOffsetOf (getDay firstDay) in
  let len := daysInMonth (MakeFullYear year) m in
  cache_ok (monthDays baseDayCache month).1
  /\ List.length (monthDays baseDayCache month).2 = 42%nat
  /\ forall k, (k < 42)%nat ->
       exists cell,
         (monthDays baseDayCache month).2 !! k = Some cell
         /\ cellOf (firstDay + (Z.of_nat k - startOffset) * msPerDay)
              (bool_decide (startOffset <= Z.of_nat k < startOffset + len)) cell.
Proof.
  intros Hc year m firstDay startOffset len.
  assert (0 <= m <= 11) as Hm by apply MonthFromTime_range.
  assert (0 <= startOffset <= 6) as Hoff
    by (apply startOffsetOf_range, WeekDay_range).
  assert (28 <= len <= 31) as Hlen by apply daysInMonth_range.
  unfold Calendar.monthDays. fold year. fold m. fold firstDay. fold startOffset.
  rewrite (getDate_newDate_last year m Hm). fold len.
  pose proof (forDown_push (Z.to_nat startOffset) startOffset (baseDayCache, [])
                (fun i => newDate year m (1 - i)) false Hc) as H1.
  cbv beta in H1.
  set (st1 := forDown startOffset (Z.to_nat startOffset) _ (baseDayCache, [])) in *.
  destruct H1 as (Hc1 & cells1 & Happ1 & Hlen1 & Hcells1).
  pose proof (forUp_push (Z.to_nat len) 1 st1 (fun i => newDate year m i) true Hc1) as H2.
  cbv beta in H2.
  set (st2 := forUp 1 (Z.to_nat len) _ st1) in *.
  destruct H2 as (Hc2 & cells2 & Happ2 & Hlen2 & Hcells2).
  assert (List.length st2.2 = Z.to_nat (startOffset + len)) as Hlen12.
  { rewrite Happ2, Happ1. simpl. rewrite length_app. lia. }
  rewrite Hlen12.
  pose proof (forUp_push (Z.to_nat (42 - Z.of_nat (Z.to_nat (startOffset + len)))) 1 st2
                (fun i => newDate year (m + 1) i) false Hc2) as H3.
  cbv beta in H3.
  set (st3 := forUp 1 _ _ st2) in *.
  destruct H3 as (Hc3 & cells3 & Happ3 & Hlen3 & Hcells3).
  split; [done|].
  assert (st3.2 = cells1 ++ cells2 ++ cells3) as Hall.
  { rewrite Happ3, Happ2, Happ1. simpl. by rewrite <- app_assoc. }
  rewrite Hall. split.
  { rewrite !length_app. lia. }
  intros k Hk.
  destruct (decide (Z.of_nat k < startOffset)) as [Hlead|Hnolead].
  - destruct (Hcells1 k ltac:(lia)) as (cell & Hl & Hcell).
    exists cell. split.
    + rewrite lookup_app_l by lia. done.
    + rewrite bool_decide_eq_false_2 by lia.
      replace (firstDay + (Z.of_nat k - startOffset) * msPerDay)
        with (newDate year m (1 - (startOffset - Z.of_nat k))); [done|].
      unfold firstDay.
      replace (1 - (startOffset - Z.of_nat k)) with (1 + (Z.of_nat k - startOffset)) by lia.
      apply newDate_shift.
  - destruct (decide (Z.of_nat k < startOffset + len)) as [Hin|Hafter].
    + destruct (Hcells2 (k - Z.to_nat startOffset)%nat ltac:(lia)) as (cell & Hl & Hcell).
      exists cell. split.
      * rewrite lookup_app_r by lia. rewrite lookup_app_l by lia.
        by rewrite Hlen1.
      * rewrite bool_decide_eq_true_2 by lia.
        replace (firstDay + (Z.of_nat k - startOffset) * msPerDay)
          with (newDate year m (1 + Z.of_nat (k - Z.to_nat startOffset))); [done|].
        unfold firstDay. rewrite newDate_shift. unfold msPerDay. lia.
    + destruct (Hcells3 (k - Z.to_nat startOffset - Z.to_nat len)%nat ltac:(lia))
        as (cell & Hl & Hcell).
      exists cell. split.
      * rewrite lookup_app_r by lia. rewrite lookup_app_r by lia.
        by rewrite Hlen1, Hlen2.
      * rewrite bool_decide_eq_false_2 by lia.
        replace (firstDay + (Z.of_nat k - startOffset) * msPerDay)
          with (newDate year (m + 1)
                  (1 + Z.of_nat (k - Z.to_nat startOffset - Z.to_nat len))); [done|].
        unfold firstDay. rewrite newDate_next_month by done. fold len.
        rewrite <- Z.add_assoc, newDate_shift. unfold msPerDay. lia.
Qed.

Lemma WeekDay_shift t k : WeekDay (t + k * msPerDay) = (WeekDay t + k) mod 7.
Proof.
  unfold WeekDay, Day, msPerDay. rewrite Z.div_add by lia.
  rewrite <- Z.add_assoc, (Z.add_comm k 4), Z.add_assoc.
  by rewrite Zplus_mod_idemp_l.
Qed.

(** The first cell of a grid is a Monday. *)
Lemma first_cell_monday t :
  getDay (t - startOffsetOf (getDay t) * msPerDay) = 1.
Proof.
  unfold getDay.
  replace (t - startOffsetOf (WeekDay t) * msPerDay)
    with (t + (- startOffsetOf (WeekDay t)) * msPerDay) by lia.
  rewrite WeekDay_shift. pose proof (WeekDay_range t) as Hwd.
  unfold startOffsetOf. destruct (Z.eqb_spec (WeekDay t) 0) as [->|Hne]; [done|].
  replace (WeekDay t + - (WeekDay t - 1)) with 1 by lia. done.
Qed.

Lemma newDate_civil year m d :
  0 <= m <= 11 -> 1 <= d <= daysInMonth (MakeFullYear year) m ->
  getFullYear (newDate year m d) = MakeFullYear year
  /\ getMonth (newDate year m d) = m
  /\ getDate (newDate year m d) = d.
Proof.
  intros Hm Hd. unfold getFullYear, getMonth, getDate, newDate.
  apply civil_of_MakeDay; [done | done | unfold msPerDay; lia].
Qed.


(** C7. February 2026 starts on a Sunday, so the grid of that month has a
    leading offset of 6: its first cell is Monday 2026-01-26 and the cell at
    index 6 is 2026-02-01.  The cache is any cache that [getBaseDayData]
    itself has filled. *)
Theorem february_2026_grid (baseDayCache : gmap string BaseDayData) (month : Z) :
  cache_ok baseDayCache ->
  getFullYear month = 2026 -> getMonth month = 1 ->
  let days := (monthDays baseDayCache month).2 in
  getDay (newDate 2026 1 1) = 0
  /\ startOffsetOf (getDay (newDate 2026 1 1)) = 6
  /\ getDay (newDate 2026 1 (1 - 6)) = 1
  /\ format_yyyy_MM_dd (newDate 2026 1 (1 - 6)) = "2026-01-26"
  /\ exists first seventh,
       days !! 0%nat = Some first
       /\ dateStr (base first) = "2026-01-26"
       /\ isCurrentMonth (base first) = false
       /\ days !! 6%nat = Some seventh
       /\ dateStr (base seventh) = "2026-02-01"
       /\ isCurrentMonth (base seventh) = true.
Proof.
  intros Hc Hyear Hmonth days.
  destruct (monthDays_cells baseDayCache month Hc) as (_ & _ & Hcells).
  rewrite Hyear, Hmonth in Hcells.
  do 4 (split; [by vm_compute|]).
  destruct (Hcells 0%nat ltac:(lia)) as (first & Hl0 & Hcell0).
  destruct (Hcells 6%nat ltac:(lia)) as (seventh & Hl6 & Hcell6).
  apply cellOf_fields in Hcell0 as [Hstr0 Hcur0].
  apply cellOf_fields in Hcell6 as [Hstr6 Hcur6].
  exists first, seventh. subst days.
  split; [done|]. split; [by rewrite Hstr0|]. split; [by rewrite Hcur0|].
  split; [done|]. split; [by rewrite Hstr6|]. by rewrite Hcur6.
Qed.

End GridFacts.


Lemma february_2026_grid_witness :
  exists first seventh,
    (Calendar.monthDays Samples.plainSolar Samples.noHoliday ∅
       Samples.february2026 [] ∅).2 !! 0%nat = Some first
    /\ Calendar.dateStr (Calendar.base first) = "2026-01-26"
    /\ Calendar.isCurrentMonth (Calendar.base first) = false
    /\ (Calendar.monthDays Samples.plainSolar Samples.noHoliday ∅
          Samples.february2026 [] ∅).2 !! 6%nat = Some seventh
    /\ Calendar.dateStr (Calendar.base seventh) = "2026-02-01"
    /\ Calendar.isCurrentMonth (Calendar.base seventh) = true.
Proof.
  apply (february_2026_grid Samples.plainSolar Samples.noHoliday [] ∅ ∅
           Samples.february2026 (cache_ok_empty _ _)).
  - vm_compute. reflexivity.
  - vm_compute. reflexivity.
Defined.

(** C2, where the code fails it.  For January of the year 50 the grid is
    that of January 1950: [new Date(year, m, 1)] reads the year 50 as 1950,
    so the cell at the offset is 1950-01-01, the 31 cells flagged as of the
    month are the days of January 1950, and no cell is a day of the month
    asked for. *)
Theorem monthDays_two_digit_year :
  let month := Samples.january50 in
  let days :=
    (Calendar.monthDays Samples.plainSolar Samples.noHoliday ∅ month [] ∅).2 in
  JSDate.getFullYear month = 50 /\ JSDate.getMonth month = 0
  /\ JSDate.getDate month = 1
  /\ DateFns.format_yyyy_MM_dd month = "0050-01-01"
  /\ List.length days = 42%nat
  /\ (Calendar.dateStr ∘ Calendar.base) <$> days !! 6%nat = Some "1950-01-01"
  /\ forallb (fun cell =>
               bool_decide (Calendar.isCurrentMonth (Calendar.base cell)
                            = String.prefix "1950-01-" (Calendar.dateStr (Calendar.base cell))))
       days = true
  /\ forallb (fun cell =>
               negb (String.prefix "0050-" (Calendar.dateStr (Calendar.base cell))))
       days = true.
Proof. vm_compute. repeat split; reflexivity. Qed.

(** ** Holiday progress *)
Section ProgressFacts.
Import JSDate DateFns Calendar.
Variable HolidayUtil_getHoliday : Z -> Z -> Z -> option Holiday.

Local Abbreviation sameHoliday := (sameHoliday HolidayUtil_getHoliday).
Local Abbreviation expandStart := (expandStart HolidayUtil_getHoliday).
Local Abbreviation expandEnd := (expandEnd HolidayUtil_getHoliday).
Local Abbreviation holidayProgress := (holidayProgress HolidayUtil_getHoliday).

Lemma find_first dateStr before ch after :
  Forall (fun c => inRange dateStr c = false) before ->
  inRange dateStr ch = true ->
  List.find (inRange dateStr) (before ++ ch :: after) = Some ch.
Proof.
  intros Hbefore Hch. induction Hbefore as [|c before Hc _ IH]; simpl.
  - by rewrite Hch.
  - by rewrite Hc.
Qed.

Lemma find_none dateStr customHolidays :
  Forall (fun c => inRange dateStr c = false) customHolidays ->
  List.find (inRange dateStr) customHolidays = None.
Proof.
  intros Hall. induction Hall as [|c rest Hc _ IH]; simpl; [done|].
  by rewrite Hc.
Qed.

(** Full days from a midnight to a later time are calendar days. *)
Lemma differenceInDays_from_midnight t start :
  TimeWithinDay start = 0 -> start <= t ->
  differenceInDays t start = Day t - Day start.
Proof.
  intros Hmid Hle. unfold differenceInDays.
  pose proof (MakeDate_Day t) as Ht. pose proof (MakeDate_Day start) as Hs.
  pose proof (TimeWithinDay_range t) as Hr.
  rewrite Hmid in Hs. unfold MakeDate, msPerDay in *.
  rewrite Z.quot_div_nonneg by lia.
  replace (t - start) with ((Day t - Day start) * 86400000 + TimeWithinDay t) by lia.
  rewrite Z.div_add_l by lia. rewrite Z.div_small by lia. lia.
Qed.


Lemma newDateOfKeyAtMidnight_midnight key t :
  newDateOfKeyAtMidnight key = Some t -> TimeWithinDay t = 0.
Proof.
  unfold newDateOfKeyAtMidnight. intros Hkey.
  repeat case_match; try discriminate.
  injection Hkey as <-. apply TimeWithinDay_MakeDate. unfold msPerDay. lia.
Qed.







(** C3. When a custom range holds the reference date, [holidayProgress]
    answers from the first such range: its name, the day index
    [(currentDate - start in days) + 1] and the remaining days
    [(end - start + 1) - day index]; for a reference date of the years 1 to
    9999 these are calendar days, the day index counted from the range's
    first day and the rest up to its last.  For the reference date
    2026-02-22 and a first matching range from 2026-02-20 to 2026-02-23
    this is day 3, with 1 day remaining. *)
Theorem holidayProgress_custom_range (fuel : nat) :
  (forall currentDate before ch after start end_,
      Forall (fun c => inRange (format_yyyy_MM_dd currentDate) c = false) before ->
      inRange (format_yyyy_MM_dd currentDate) ch = true ->
      newDateOfKeyAtMidnight (ch_start ch) = Some start ->
      newDateOfKeyAtMidnight (ch_end ch) = Some end_ ->
      holidayProgress fuel currentDate (before ++ ch :: after) =
        Returns (Some {| hp_name := ch_name ch;
                         hp_current := differenceInDays currentDate start + 1;
                         hp_remaining :=
                           (differenceInDays end_ start + 1)
                           - (differenceInDays currentDate start + 1) |})
      /\ (1 <= getFullYear currentDate <= 9999 ->
          Day start <= Day currentDate <= Day end_
          /\ differenceInDays currentDate start + 1 = Day currentDate - Day start + 1
          /\ (differenceInDays end_ start + 1)
             - (differenceInDays currentDate start + 1) = Day end_ - Day currentDate))
  /\ (forall currentDate before ch after,
        getFullYear currentDate = 2026 ->
        getMonth currentDate = 1 ->
        getDate currentDate = 22 ->
        ch_start ch = "2026-02-20" ->
        ch_end ch = "2026-02-23" ->
        Forall (fun c => inRange "2026-02-22" c = false) before ->
        holidayProgress fuel currentDate (before ++ ch :: after) =
          Returns (Some {| hp_name := ch_name ch;
                           hp_current := 3;
                           hp_remaining := 1 |})).
Proof.
  assert (forall currentDate before ch after start end_,
      Forall (fun c => inRange (format_yyyy_MM_dd currentDate) c = false) before ->
      inRange (format_yyyy_MM_dd currentDate) ch = true ->
      newDateOfKeyAtMidnight (ch_start ch) = Some start ->
      newDateOfKeyAtMidnight (ch_end ch) = Some end_ ->
      holidayProgress fuel currentDate (before ++ ch :: after) =
        Returns (Some {| hp_name := ch_name ch;
                         hp_current := differenceInDays currentDate start + 1;
                         hp_remaining :=
                           (differenceInDays end_ start + 1)
                           - (differenceInDays currentDate start + 1) |})) as Hgen.
  { intros currentDate before ch after start end_ Hbefore Hch Hstart Hend.
    unfold Calendar.holidayProgress.
    by rewrite (find_first _ _ _ _ Hbefore Hch), Hstart, Hend. }
  split.
  - intros currentDate before ch after start end_ Hbefore Hch Hstart Hend.
    split; [by apply Hgen|].
    intros Hy.
    pose proof (proj1 (inRange_chronological _ _ _ _ Hy Hstart Hend) Hch) as Hdays.
    split; [done|].
    apply newDateOfKeyAtMidnight_midnight in Hstart, Hend.
    pose proof (MakeDate_Day currentDate) as Hc. pose proof (MakeDate_Day start) as Hs.
    pose proof (MakeDate_Day end_) as He.
    pose proof (TimeWithinDay_range currentDate) as Hr.
    rewrite Hstart in Hs. rewrite Hend in He. unfold MakeDate, msPerDay in *.
    rewrite !differenceInDays_from_midnight by (done || lia). lia.
  - intros currentDate before ch after Hy Hm Hd Hs He Hbefore.
    assert (format_yyyy_MM_dd currentDate = "2026-02-22") as Hfmt.
    { unfold format_yyyy_MM_dd. by rewrite Hy, Hm, Hd. }
    assert (Day currentDate = MakeDay 2026 1 22) as Hday.
    { rewrite <- Hy, <- Hm, <- Hd. unfold getFullYear, getMonth, getDate.
      rewrite MakeDay_civil. lia. }
    rewrite (Hgen currentDate before ch after
               (MakeDate (MakeDay 2026 1 20) 0) (MakeDate (MakeDay 2026 1 23) 0)).
    + pose proof (TimeWithinDay_range currentDate) as Htod.
      pose proof (MakeDate_Day currentDate) as Hcur.
      rewrite Hday in Hcur.
      rewrite (differenceInDays_from_midnight currentDate).
      * rewrite Hday. by vm_compute.
      * by vm_compute.
      * rewrite <- Hcur. unfold MakeDate, msPerDay in *.
        change (MakeDay 2026 1 20) with 20504. change (MakeDay 2026 1 22) with 20506.
        lia.
    + by rewrite Hfmt.
    + rewrite Hfmt. unfold inRange. by rewrite Hs, He.
    + by rewrite Hs.
    + by rewrite He.
Qed.



End ProgressFacts.

Lemma holidayProgress_custom_range_witness :
  Calendar.holidayProgress Samples.noHoliday 0 Samples.currentDate
    [Samples.winterBreak; Samples.longWeekend; Samples.overlapping] =
  Calendar.Returns (Some {| Calendar.hp_name := "Long weekend";
                            Calendar.hp_current := 3;
                            Calendar.hp_remaining := 1 |}).
Proof.
  apply (proj2 (holidayProgress_custom_range Samples.noHoliday 0)
           Samples.currentDate [Samples.winterBreak] Samples.longWeekend
           [Samples.overlapping]).
  - vm_compute. reflexivity.
  - vm_compute. reflexivity.
  - vm_compute. reflexivity.
  - reflexivity.
  - reflexivity.
  - repeat constructor.
Defined.




(** ** How the operations compose *)
Section ComposeFacts.
Import JSDate DateFns Calendar.
Variable Solar_fromYmd : Z -> Z -> Z -> Solar.
Variable HolidayUtil_getHoliday : Z -> Z -> Z -> option Holiday.

Local Abbreviation computeBaseDayData :=
  (computeBaseDayData Solar_fromYmd HolidayUtil_getHoliday).
Local Abbreviation sameHoliday := (sameHoliday HolidayUtil_getHoliday).
Local Abbreviation expandStart := (expandStart HolidayUtil_getHoliday).
Local Abbreviation expandEnd := (expandEnd HolidayUtil_getHoliday).
Local Abbreviation holidayProgress := (holidayProgress HolidayUtil_getHoliday).

Lemma find_combineLoop dateStr customHolidays vars :
  combineLoop dateStr customHolidays vars =
  match List.find (inRange dateStr) customHolidays with
  | Some ch => (true, false, ch_name ch)
  | None => vars
  end.
Proof.
  induction customHolidays as [|c rest IH]; simpl; [done|].
  by destruct (inRange dateStr c).
Qed.

Lemma bind_Returns {A B : Type} (x : outcome A) (k : A -> outcome B) (b : B) :
  bind x k = Returns b -> exists a, x = Returns a /\ k a = Returns b.
Proof. destruct x as [a| |]; simpl; intros H; [by exists a | done | done]. Qed.

(** X4. The progress banner and the cell of the reference date agree:
    when [holidayProgress] answers with a progress, the day record of the
    reference date is a holiday that is not a workday, of the name the
    progress carries; when it answers null, the day record is no holiday. *)
Theorem holidayProgress_matches_day (fuel : nat) (currentDate : Z)
    (customHolidays : list CustomHoliday) (markedDates : gset string)
    (isCurrentMonth : bool) (result : option HolidayProgress) :
  holidayProgress fuel currentDate customHolidays = Returns result ->
  let day :=
    combineDayData (computeBaseDayData currentDate isCurrentMonth)
      customHolidays markedDates in
  match result with
  | Some progress =>
      isHoliday day = true /\ isWork day = false
      /\ holidayName day = hp_name progress
  | None => isHoliday day = false
  end.
Proof.
  intros Hret day. subst day. rewrite combineDayData_fields.
  rewrite find_combineLoop. simpl.
  unfold Calendar.holidayProgress in Hret.
  destruct (List.find _ customHolidays) as [ch|].
  - destruct (newDateOfKeyAtMidnight (ch_start ch)); [|done].
    destruct (newDateOfKeyAtMidnight (ch_end ch)); [|done].
    by injection Hret as <-.
  - destruct (HolidayUtil_getHoliday _ _ _) as [h|]; simpl.
    + destruct (h_isWork h); simpl in *.
      * by injection Hret as <-.
      * apply bind_Returns in Hret as (startD & _ & Hret).
        apply bind_Returns in Hret as (endD & _ & Hret).
        by injection Hret as <-.
    + by injection Hret as <-.
Qed.




End ComposeFacts.

Lemma holidayProgress_matches_day_witness :
  let day :=
    Calendar.combineDayData
      (Calendar.computeBaseDayData Samples.plainSolar Samples.springFestival
         Samples.currentDate true)
      [Samples.winterBreak] ∅ in
  Calendar.isHoliday day = true /\ Calendar.isWork day = false
  /\ Calendar.holidayName day = "Spring Festival".
Proof.
  exact (holidayProgress_matches_day Samples.plainSolar Samples.springFestival 8
           Samples.currentDate [Samples.winterBreak] ∅ true
           (Some {| Calendar.hp_name := "Spring Festival";
                    Calendar.hp_current := 8;
                    Calendar.hp_remaining := 1 |})
           ltac:(vm_compute; reflexivity)).
Defined.


Section ProgressBounds.
Import JSDate DateFns Calendar.
Variable HolidayUtil_getHoliday : Z -> Z -> Z -> option Holiday.
Local Abbreviation holidayProgress := (holidayProgress HolidayUtil_getHoliday).


End ProgressBounds.


Section SaveFacts.
Import JSDate DateFns Calendar.

Lemma combineLoop_app dateStr l1 l2 vars :
  combineLoop dateStr (l1 ++ l2) vars =
  combineLoop dateStr l1 (combineLoop dateStr l2 vars).
Proof.
  induction l1 as [|c l1 IH]; simpl; [done|].
  by destruct (inRange dateStr c).
Qed.

Lemma find_held dateStr customHolidays :
  Exists (fun c => inRange dateStr c = true) customHolidays ->
  exists ch, List.find (inRange dateStr) customHolidays = Some ch.
Proof.
  induction 1 as [c l Hc|c l _ IH]; simpl.
  - rewrite Hc. by eexists.
  - destruct (inRange dateStr c); [by eexists | done].
Qed.

(** X7. A range that [handleSaveCustomHoliday] accepts turns its days into
    holidays: after the save, the record of every day from the selected
    date to the end date (days of the years 1 to 9999) is a holiday that is
    not a workday, under the new name unless an older range holds the day;
    the record of a day that an older range holds, and of any day outside
    the new range, is as before the save. *)
Theorem saved_range_is_shown (now : Z) (st : CalendarState) (selected end_ : Z)
    (base : BaseDayData) (d : Z) (markedDates : gset string) :
  selectedDate st = Some selected ->
  1 <= getFullYear selected <= 9999 ->
  holidayNameInput st <> "" ->
  newDateOfKeyAtMidnight (holidayEndInput st) = Some end_ ->
  Day selected <= Day end_ ->
  dateStr base = format_yyyy_MM_dd d -> 1 <= getFullYear d <= 9999 ->
  let before := combineDayData base (customHolidays st) markedDates in
  let after :=
    combineDayData base (customHolidays (handleSaveCustomHoliday now st)) markedDates in
  (Day selected <= Day d <= Day end_ ->
     isHoliday after = true /\ isWork after = false
     /\ (Forall (fun c => inRange (dateStr base) c = false) (customHolidays st) ->
         holidayName after = holidayNameInput st))
  /\ (~ Day selected <= Day d <= Day end_
      \/ Exists (fun c => inRange (dateStr base) c = true) (customHolidays st) ->
      after = before).
Proof.
  intros Hsel Hy Hname Hend Hdays Hstr Hyd before after.
  assert (holidayEndInput st <> "") as Hne by (by intros Heq; rewrite Heq in Hend).
  assert (JSString.lt (holidayEndInput st) (format_yyyy_MM_dd selected) = false) as Hlt.
  { destruct (JSString.lt _ _) eqn:Hlt; [|done].
    apply (lt_chronological _ _ _ Hy Hend) in Hlt. lia. }
  pose proof (handleSaveCustomHoliday_accepts now st selected Hsel Hname Hne Hlt) as Hnew.
  set (newHoliday := {| ch_id := toString now; ch_name := holidayNameInput st;
                        ch_start := format_yyyy_MM_dd selected;
                        ch_end := holidayEndInput st |}) in *.
  assert (inRange (dateStr base) newHoliday = true <-> Day selected <= Day d <= Day end_)
    as Hin.
  { rewrite Hstr.
    rewrite (inRange_chronological d newHoliday (MakeDate (Day selected) 0) end_ Hyd
               (newDateOfKeyAtMidnight_format _ Hy) Hend).
    by rewrite Day_MakeDate by (unfold msPerDay; lia). }
  subst before after. rewrite Hnew, !combineDayData_fields, combineLoop_app. simpl.
  split.
  - intros Hd. apply Hin in Hd. rewrite Hd.
    pose proof (combineLoop_flags (dateStr base) (customHolidays st) true false
                  (holidayNameInput st) ltac:(by intros [_ ?])) as Hflags.
    rewrite (find_combineLoop _ (customHolidays st)) in *.
    destruct (List.find _ (customHolidays st)) as [ch|] eqn:Hfind; simpl.
    + split; [done|]. split; [done|]. intros Hnone.
      by rewrite (find_none _ _ Hnone) in Hfind.
    + done.
  - intros [Hd|Hold].
    + destruct (inRange (dateStr base) newHoliday); [|done].
      exfalso. by apply Hd, Hin.
    + rewrite !(find_combineLoop _ (customHolidays st)).
      by destruct (find_held _ _ Hold) as [ch ->].
Qed.

(** X8. [toggleMark] reaches the grid: after toggling the mark of a date,
    the records under that date's key have their mark flipped, records
    under other keys keep theirs, and nothing else of a record changes. *)
Theorem toggleMark_is_shown (date : Z) (base : BaseDayData)
    (customHolidays : list CustomHoliday) (markedDates : gset string) :
  let before := combineDayData base customHolidays markedDates in
  let after := combineDayData base customHolidays (toggleMark date markedDates) in
  isMarked after =
    (if String.eqb (dateStr base) (format_yyyy_MM_dd date)
     then negb (isMarked before) else isMarked before)
  /\ Calendar.base after = Calendar.base before
  /\ isHoliday after = isHoliday before
  /\ isWork after = isWork before
  /\ holidayName after = holidayName before.
Proof.
  intros before after. subst before after. rewrite !combineDayData_fields. simpl.
  split; [|done].
  unfold toggleMark.
  destruct (String.eqb_spec (dateStr base) (format_yyyy_MM_dd date)) as [->|Hne].
  - destruct (decide (format_yyyy_MM_dd date ∈ markedDates)) as [Hin|Hout].
    + rewrite !(bool_decide_eq_true_2 _ Hin). simpl.
      apply bool_decide_eq_false_2. set_solver.
    + rewrite !(bool_decide_eq_false_2 _ Hout). simpl.
      apply bool_decide_eq_true_2. set_solver.
  - apply bool_decide_ext. case_bool_decide; set_solver.
Qed.

End SaveFacts.

Lemma saved_range_is_shown_witness :
  let after :=
    Calendar.combineDayData Samples.workingSaturday
      (Calendar.customHolidays
         (Calendar.handleSaveCustomHoliday 1771800000000
            (Samples.formState "2026-02-23" "Long weekend"))) ∅ in
  Calendar.isHoliday after = true /\ Calendar.isWork after = false
  /\ Calendar.holidayName after = "Long weekend".
Proof.
  destruct (saved_range_is_shown 1771800000000
              (Samples.formState "2026-02-23" "Long weekend")
              (JSDate.newDate 2026 1 20) (JSDate.newDate 2026 1 23)
              Samples.workingSaturday (JSDate.newDate 2026 1 21) ∅)
    as [Hin _].
  - reflexivity.
  - vm_compute. split; discriminate.
  - discriminate.
  - vm_compute. reflexivity.
  - vm_compute. discriminate.
  - vm_compute. reflexivity.
  - vm_compute. split; discriminate.
  - destruct Hin as (Hh & Hw & Hn).
    + vm_compute. split; discriminate.
    + split; [exact Hh|]. split; [exact Hw|]. apply Hn. repeat constructor.
Defined.

(** ** The months of the scroll list *)
Section MonthFacts.
Import JSDate DateFns Calendar.

Lemma MakeDay_carry y m k dt : MakeDay y (m + 12 * k) dt = MakeDay (y + k) m dt.
Proof.
  unfold MakeDay.
  replace (m + 12 * k) with (m + k * 12) by lia.
  rewrite Z.div_add, Z.mod_add by lia.
  by replace (y + (m / 12 + k)) with (y + k + m / 12) by lia.
Qed.

Lemma MakeDay_normal y m dt : MakeDay y m dt = MakeDay (y + m / 12) (m mod 12) dt.
Proof.
  rewrite (Z.div_mod m 12) at 1 by lia.
  rewrite Z.add_comm. apply MakeDay_carry.
Qed.

Lemma firstOfMonth_civil y m :
  let t := MakeDate (MakeDay y m 1) 0 in
  getFullYear t = y + m / 12 /\ getMonth t = m mod 12 /\ getDate t = 1
  /\ TimeWithinDay t = 0.
Proof.
  intros t. subst t. rewrite MakeDay_normal.
  pose proof (Z.mod_pos_bound m 12 ltac:(lia)) as Hm.
  pose proof (daysInMonth_range (y + m / 12) (m mod 12)) as Hd.
  destruct (civil_of_MakeDay (y + m / 12) (m mod 12) 1 0) as (Hy & Hmn & Hdt);
    [lia | lia | unfold msPerDay; lia |].
  split; [done|]. split; [done|]. split; [done|].
  apply TimeWithinDay_MakeDate. unfold msPerDay. lia.
Qed.

Lemma startOfMonth_first date :
  startOfMonth date = MakeDate (MakeDay (getFullYear date) (getMonth date) 1) 0.
Proof.
  unfold startOfMonth, setHours0, setDate.
  rewrite Day_MakeDate by apply TimeWithinDay_range. done.
Qed.

Lemma addMonths_first y m amount :
  addMonths (MakeDate (MakeDay y m 1) 0) amount = MakeDate (MakeDay y (m + amount) 1) 0.
Proof.
  unfold addMonths. destruct (Z.eqb_spec amount 0) as [->|Hne].
  { by rewrite Z.add_0_r. }
  destruct (firstOfMonth_civil y m) as (Hy & Hm & Hd & Ht).
  unfold setMonth, setFullYear. fold (getFullYear (MakeDate (MakeDay y m 1) 0)).
  rewrite Hy, Hm, Hd, Ht.
  set (n := m mod 12 + amount).
  assert (MakeDay (y + m / 12) (n + 1) 0
          = MakeDay (y + m / 12 + n / 12) (n mod 12)
              (daysInMonth (y + m / 12 + n / 12) (n mod 12))) as Hend.
  { pose proof (Z.mod_pos_bound n 12 ltac:(lia)) as Hn.
    rewrite (Z.div_mod n 12) at 1 by lia.
    replace (12 * (n / 12) + n mod 12 + 1) with (n mod 12 + 1 + 12 * (n / 12)) by lia.
    rewrite MakeDay_carry, MakeDay_next_month by lia. done. }
  rewrite Hend.
  pose proof (Z.mod_pos_bound n 12 ltac:(lia)) as Hn.
  pose proof (daysInMonth_range (y + m / 12 + n / 12) (n mod 12)) as Hdim.
  destruct (civil_of_MakeDay (y + m / 12 + n / 12) (n mod 12)
              (daysInMonth (y + m / 12 + n / 12) (n mod 12)) 0)
    as (Hy' & Hm' & Hd'); [lia | lia | unfold msPerDay; lia |].
  unfold getDate, getMonth, getFullYear. rewrite Hy', Hm', Hd'.
  destruct (Z.leb_spec (daysInMonth (y + m / 12 + n / 12) (n mod 12)) 1); [lia|].
  f_equal. rewrite <- MakeDay_normal. subst n.
  rewrite (MakeDay_normal y (m + amount)), (MakeDay_normal (y + m / 12)).
  f_equal.
  - rewrite (Z.div_mod m 12) at 3 by lia.
    replace (12 * (m / 12) + m mod 12 + amount) with (m mod 12 + amount + (m / 12) * 12) by lia.
    rewrite Z.div_add by lia. lia.
  - rewrite Zplus_mod_idemp_l. done.
Qed.

Lemma forUp_snoc {A} (f : Z -> A) n : forall i (acc : list A),
  forUp i n (fun i months => months ++ [f i]) acc
  = acc ++ List.map (fun j => f (i + Z.of_nat j)) (List.seq 0 n).
Proof.
  induction n as [|n IH]; intros i acc; simpl.
  - by rewrite app_nil_r.
  - rewrite IH, <- app_assoc. simpl. rewrite Z.add_0_r. do 2 f_equal.
    rewrite <- seq_shift, List.map_map. apply List.map_ext. intros j. f_equal. lia.
Qed.

Lemma monthsWindow_entries date :
  monthsWindow date =
  List.map (fun j => MakeDate (MakeDay (getFullYear date)
                                 (getMonth date + (Z.of_nat j - 12)) 1) 0)
    (List.seq 0 25).
Proof.
  unfold monthsWindow. rewrite forUp_snoc. rewrite app_nil_l.
  apply List.map_ext. intros j. rewrite startOfMonth_first.
  destruct (Z.eqb_spec (-12 + Z.of_nat j) 0) as [H0|H0].
  - do 2 f_equal. lia.
  - unfold subMonths. destruct (Z.ltb_spec (-12 + Z.of_nat j) 0);
      rewrite addMonths_first; do 2 f_equal; lia.
Qed.

Lemma monthsWindow_middle date : monthsWindow date !! 12%nat = Some (startOfMonth date).
Proof.
  rewrite monthsWindow_entries, startOfMonth_first.
  change (@List.map) with (@fmap list _).
  rewrite list_lookup_fmap, lookup_seq_lt by lia. cbn [fmap option_fmap option_map].
  replace (getMonth date + (Z.of_nat (0 + 12) - 12)) with (getMonth date); [done|].
  lia.
Qed.


End MonthFacts.

(** ** Month keys *)
Section MonthKeyFacts.
Import JSDate DateFns Calendar.

(** The model on strings whose parts and numbers are known. *)
Example parseInt_examples :
  JSString.parseInt "2026" = Some 2026 /\ JSString.parseInt "02" = Some 2 /\ JSString.parseInt "0050" = Some 50
  /\ JSString.parseInt "  -12px" = Some (-12) /\ JSString.parseInt "0x1F" = Some 31
  /\ JSString.parseInt "" = None /\ JSString.parseInt "x" = None /\ JSString.parseInt "0x" = None
  /\ JSString.split "-" "2026-02" = ["2026"; "02"] /\ JSString.split "-" "" = [""]
  /\ JSString.split "-" "a--b-" = ["a"; ""; "b"; ""].
Proof. by vm_compute. Qed.

Lemma split_plain s : plain s = true -> JSString.split "-" s = [s].
Proof.
  induction s as [|c s IH]; [done|]. unfold plain. simpl.
  intros [Hc Hs]%andb_true_iff. apply negb_true_iff in Hc. rewrite Hc.
  by rewrite (IH Hs).
Qed.

Lemma split_hyphen a b :
  plain a = true -> JSString.split "-" (a +:+ String "-" b) = a :: JSString.split "-" b.
Proof.
  induction a as [|c a IH]; [done|]. unfold plain. simpl.
  intros [Hc Hs]%andb_true_iff. apply negb_true_iff in Hc.
  rewrite ?append_cons. cbn [split]. rewrite Hc. by rewrite (IH Hs).
Qed.

Lemma fourDigits_parse y :
  0 <= y <= 9999 -> plain (fourDigits y) = true /\ JSString.parseInt (fourDigits y) = Some y.
Proof.
  intros Hy.
  assert (forallb (fun y => plain (fourDigits y)
                            && bool_decide (JSString.parseInt (fourDigits y) = Some y))
            (seqZ 0 10000) = true) as Hall by (by vm_compute).
  pose proof (forallb_seqZ _ _ _ Hall y ltac:(lia)) as [H1 H2]%andb_true_iff.
  split; [done|]. by apply bool_decide_eq_true in H2.
Qed.

Lemma twoDigits_parse n :
  0 <= n <= 99 -> plain (twoDigits n) = true /\ JSString.parseInt (twoDigits n) = Some n.
Proof.
  intros Hn.
  assert (forallb (fun n => plain (twoDigits n)
                            && bool_decide (JSString.parseInt (twoDigits n) = Some n))
            (seqZ 0 100) = true) as Hall by (by vm_compute).
  pose proof (forallb_seqZ _ _ _ Hall n ltac:(lia)) as [H1 H2]%andb_true_iff.
  split; [done|]. by apply bool_decide_eq_true in H2.
Qed.

Lemma format_monthKey t :
  1 <= getFullYear t <= 9999 ->
  format_yyyy_MM t = monthKeyOf (getFullYear t) (getMonth t).
Proof.
  intros Hy. unfold format_yyyy_MM, monthKeyOf.
  pose proof (MonthFromTime_range t) as Hm. unfold getMonth.
  destruct (Z.ltb_spec 0 (getFullYear t)); [|lia].
  by rewrite addLeadingZeros_four, addLeadingZeros_two by lia.
Qed.

Lemma monthOfKey_monthKeyOf y mn :
  0 <= y <= 9999 -> 0 <= mn <= 11 ->
  monthOfKey (monthKeyOf y mn) = Some (newDate y mn 1).
Proof.
  intros Hy Hmn. unfold monthOfKey, monthKeyOf.
  destruct (fourDigits_parse y Hy) as [Hp Hy'].
  destruct (twoDigits_parse (mn + 1) ltac:(lia)) as [Hp' Hm'].
  rewrite split_hyphen, split_plain by done.
  rewrite Hy', Hm'. do 2 f_equal. lia.
Qed.

Lemma monthKeyOf_compare y1 m1 y2 m2 :
  0 <= y1 <= 9999 -> 0 <= m1 <= 11 -> 0 <= y2 <= 9999 -> 0 <= m2 <= 11 ->
  String.compare (monthKeyOf y1 m1) (monthKeyOf y2 m2) = lexCompare (y1 ?= y2) (m1 ?= m2).
Proof.
  intros. unfold monthKeyOf.
  rewrite compare_append by (by rewrite !fourDigits_length).
  rewrite fourDigits_compare by lia.
  cbn [String.compare]. change (Ascii.compare "-" "-") with Eq. cbn match.
  rewrite twoDigits_compare by lia.
  by rewrite !(Z.add_comm _ 1), Z.add_compare_mono_l.
Qed.

(** X10. The key of a month leads back to the month.  For a month of the
    years 1 to 9999, [handleScroll] reads the key that
    [format(month, 'yyyy-MM')] prints as [new Date(year, month, 1)] with
    the year and the month of that month.  For a year from 100 on this is
    the start of the month itself; for a year from 1 to 99 it is a month
    1900 years later, since the constructor takes such a year as 19xx. *)
Theorem monthKey_round_trip (month : Z) :
  1 <= getFullYear month <= 9999 ->
  monthOfKey (format_yyyy_MM month)
    = Some (newDate (getFullYear month) (getMonth month) 1)
  /\ (100 <= getFullYear month ->
      monthOfKey (format_yyyy_MM month) = Some (startOfMonth month))
  /\ (getFullYear month <= 99 ->
      exists decoded,
        monthOfKey (format_yyyy_MM month) = Some decoded
        /\ getFullYear decoded = 1900 + getFullYear month
        /\ getMonth decoded = getMonth month).
Proof.
  intros Hy. pose proof (MonthFromTime_range month) as Hm.
  rewrite format_monthKey by done.
  rewrite monthOfKey_monthKeyOf by (done || lia).
  split; [done|]. split.
  - intros Hy'. rewrite startOfMonth_first. unfold newDate, MakeFullYear.
    destruct (Z.leb_spec (getFullYear month) 99); [lia|].
    by rewrite andb_false_r.
  - intros Hy'. eexists. split; [done|].
    pose proof (daysInMonth_range (MakeFullYear (getFullYear month)) (getMonth month)).
    destruct (newDate_civil (getFullYear month) (getMonth month) 1) as (H1 & H2 & _);
      [done | lia |].
    rewrite H1, H2. split; [|done]. unfold MakeFullYear.
    destruct (Z.leb_spec 0 (getFullYear month)); [|lia].
    destruct (Z.leb_spec (getFullYear month) 99); [|lia]. done.
Qed.

End MonthKeyFacts.

Lemma monthKey_round_trip_witness :
  Calendar.monthOfKey (DateFns.format_yyyy_MM Samples.currentDate)
  = Some (DateFns.startOfMonth Samples.currentDate).
Proof.
  apply (proj1 (proj2 (monthKey_round_trip Samples.currentDate
                         ltac:(vm_compute; split; discriminate)))).
  vm_compute. discriminate.
Defined.

Section WindowKeys.
Import JSDate DateFns Calendar.

Lemma lexCompare_months y1 m1 y2 m2 :
  0 <= m1 <= 11 -> 0 <= m2 <= 11 -> 12 * y1 + m1 < 12 * y2 + m2 ->
  lexCompare (y1 ?= y2) (m1 ?= m2) = Lt.
Proof.
  intros. destruct (Z.compare_spec y1 y2); simpl; [|done|lia].
  apply Z.compare_lt_iff. lia.
Qed.

Lemma monthsWindow_key date k :
  2 <= getFullYear date <= 9998 -> (k < 25)%nat ->
  exists y mn,
    (format_yyyy_MM <$> monthsWindow date) !! k = Some (monthKeyOf y mn)
    /\ 1 <= y <= 9999 /\ 0 <= mn <= 11
    /\ 12 * y + mn = 12 * getFullYear date + getMonth date + Z.of_nat k - 12.
Proof.
  intros Hy Hk. rewrite monthsWindow_entries.
  change (@List.map) with (@fmap list _).
  rewrite !list_lookup_fmap, lookup_seq_lt by done. simpl.
  set (n := getMonth date + (Z.of_nat k - 12)).
  destruct (firstOfMonth_civil (getFullYear date) n) as (Hy' & Hm' & _).
  pose proof (MonthFromTime_range date) as Hm. fold (getMonth date) in Hm.
  pose proof (Z.mod_pos_bound n 12 ltac:(lia)) as Hn.
  pose proof (Z.div_mod n 12 ltac:(lia)) as Hdm.
  assert (-1 <= n / 12 <= 1) as Hq by (subst n; lia).
  exists (getFullYear date + n / 12), (n mod 12).
  split; [|subst n; lia].
  rewrite format_monthKey by (rewrite Hy'; lia). by rewrite Hy', Hm'.
Qed.

(** X11. For a date of the years 2 to 9998, the keys
    [format(month, 'yyyy-MM')] of the 25 listed months ascend strictly as
    strings, so no two of the months share a key (the key of the list item
    and of the entry of [monthRefs]); the key in the middle is the key of
    the date itself, the one the component scrolls to. *)
Theorem monthsWindow_keys (date : Z) :
  2 <= getFullYear date <= 9998 ->
  let keys := format_yyyy_MM <$> monthsWindow date in
  keys !! 12%nat = Some (format_yyyy_MM date)
  /\ format_yyyy_MM (startOfMonth date) = format_yyyy_MM date
  /\ (forall i j ki kj, (i < j)%nat ->
        keys !! i = Some ki -> keys !! j = Some kj -> JSString.lt ki kj = true)
  /\ NoDup keys.
Proof.
  intros Hy keys.
  assert (format_yyyy_MM (startOfMonth date) = format_yyyy_MM date) as Hstart.
  { rewrite startOfMonth_first.
    destruct (firstOfMonth_civil (getFullYear date) (getMonth date)) as (Hy' & Hm' & _).
    pose proof (MonthFromTime_range date) as Hm. fold (getMonth date) in Hm.
    rewrite Z.div_small, Z.add_0_r in Hy' by lia. rewrite Z.mod_small in Hm' by lia.
    unfold format_yyyy_MM. by rewrite Hy', Hm'. }
  assert (forall i j ki kj, (i < j)%nat ->
            keys !! i = Some ki -> keys !! j = Some kj -> JSString.lt ki kj = true)
    as Hsorted.
  { intros i j ki kj Hij Hi Hj.
    assert (j < 25)%nat as Hj25.
    { apply lookup_lt_Some in Hj. subst keys.
      by rewrite length_fmap, monthsWindow_entries, length_map, length_seq in Hj. }
    destruct (monthsWindow_key date i Hy ltac:(lia)) as (y1 & m1 & Hk1 & ? & ? & ?).
    destruct (monthsWindow_key date j Hy Hj25) as (y2 & m2 & Hk2 & ? & ? & ?).
    subst keys. rewrite Hk1 in Hi. rewrite Hk2 in Hj.
    injection Hi as <-. injection Hj as <-.
    unfold JSString.lt, String.ltb.
    rewrite monthKeyOf_compare by lia.
    by rewrite lexCompare_months by lia. }
  split.
  { subst keys. by rewrite list_lookup_fmap, monthsWindow_middle, <- Hstart. }
  split; [done|]. split; [done|].
  apply NoDup_alt. intros i j x Hi Hj.
  assert (JSString.lt x x = false) as Hirr.
  { unfold JSString.lt, String.ltb.
    pose proof (String.compare_antisym x x) as Hanti.
    by destruct (String.compare x x). }
  destruct (lt_eq_lt_dec i j) as [[Hlt| ->]|Hlt]; [|done|].
  - by rewrite (Hsorted i j x x Hlt Hi Hj) in Hirr.
  - by rewrite (Hsorted j i x x Hlt Hj Hi) in Hirr.
Qed.

End WindowKeys.

Lemma monthsWindow_keys_witness :
  NoDup (DateFns.format_yyyy_MM <$> Calendar.monthsWindow Samples.currentDate)
  /\ (DateFns.format_yyyy_MM <$> Calendar.monthsWindow Samples.currentDate) !! 12%nat
     = Some (DateFns.format_yyyy_MM Samples.currentDate).
Proof.
  destruct (monthsWindow_keys Samples.currentDate
              ltac:(vm_compute; split; discriminate)) as (Hmid & _ & _ & Hnodup).
  split; [exact Hnodup | exact Hmid].
Defined.

(** ** The month nearest to the scroll position *)
Section ScrollFacts.
Import JSDate DateFns Calendar.

Lemma scan_keep top l : forall c m,
  (forall j key off, l !! j = Some (key, Some off) -> m <= Z.abs (off - top)) ->
  fold_left (scrollStep top) l (c, Some m) = (c, Some m).
Proof.
  induction l as [|[key el] l IH]; intros c m Hall; [done|]. simpl.
  assert (scrollStep top (c, Some m) (key, el) = (c, Some m)) as ->.
  { unfold scrollStep. simpl. destruct el as [off|]; [|done].
    pose proof (Hall 0%nat key off eq_refl). simpl.
    by destruct (Z.ltb_spec (Z.abs (off - top)) m); [lia|]. }
  apply IH. intros j key' off' Hj. by apply (Hall (S j) key' off').
Qed.

Lemma scan_closest top l : forall i c m key off,
  l !! i = Some (key, Some off) ->
  lessThan (Z.abs (off - top)) m = true ->
  (forall j key' off', l !! j = Some (key', Some off') ->
     ((j < i)%nat -> Z.abs (off - top) < Z.abs (off' - top))
     /\ Z.abs (off - top) <= Z.abs (off' - top)) ->
  fold_left (scrollStep top) l (c, m) = (monthOfKey key, Some (Z.abs (off - top))).
Proof.
  induction l as [|[key0 el0] l IH]; intros i c m key off Hi Hm Hall; [done|].
  destruct i as [|i]; simpl in Hi.
  - injection Hi as -> ->. simpl. unfold scrollStep at 2. simpl. rewrite Hm.
    apply scan_keep. intros j key' off' Hj. by apply (Hall (S j) key' off').
  - simpl.
    assert (forall j key' off', l !! j = Some (key', Some off') ->
              ((j < i)%nat -> Z.abs (off - top) < Z.abs (off' - top))
              /\ Z.abs (off - top) <= Z.abs (off' - top)) as Hall'.
    { intros j key' off' Hj. destruct (Hall (S j) key' off' Hj) as [H1 H2].
      split; [|done]. intros. apply H1. lia. }
    unfold scrollStep at 2. simpl. destruct el0 as [off0|]; [|by apply (IH i)].
    destruct (Hall 0%nat key0 off0 eq_refl) as [Hlt _]. specialize (Hlt ltac:(lia)).
    destruct (lessThan (Z.abs (off0 - top)) m); apply (IH i); try done.
    simpl. by apply Z.ltb_lt.
Qed.

Lemma scan_none top l : forall vars,
  Forall (fun entry => entry.2 = None) l ->
  fold_left (scrollStep top) l vars = vars.
Proof.
  induction l as [|[key el] l IH]; intros vars Hall; [done|].
  inversion Hall as [|? ? Hel Hrest]; subst. simpl in Hel. subst el. simpl.
  by apply IH.
Qed.

(** X12. [handleScroll] picks the month whose element is nearest to the
    scroll position: when an entry with an element is strictly nearer than
    every such entry before it and at least as near as every such entry
    after it, the active month becomes the month read from the key of that
    entry, which is the start of the month when the key is that of a month
    of the years 100 to 9999.  With no element at all, or without a
    container, the active month stays. *)
Theorem handleScroll_closest (containerTop : Z) (monthRefs : list (string * option Z))
    (activeMonth : Z) :
  (forall i key offsetTop,
      monthRefs !! i = Some (key, Some offsetTop) ->
      (forall j key' offsetTop',
          monthRefs !! j = Some (key', Some offsetTop') ->
          ((j < i)%nat -> Z.abs (offsetTop - containerTop) < Z.abs (offsetTop' - containerTop))
          /\ Z.abs (offsetTop - containerTop) <= Z.abs (offsetTop' - containerTop)) ->
      handleScroll (Some containerTop) monthRefs (Some activeMonth) = monthOfKey key
      /\ forall month, 100 <= getFullYear month <= 9999 ->
           key = format_yyyy_MM month ->
           handleScroll (Some containerTop) monthRefs (Some activeMonth)
             = Some (startOfMonth month))
  /\ (Forall (fun entry => entry.2 = None) monthRefs ->
      handleScroll (Some containerTop) monthRefs (Some activeMonth) = Some activeMonth)
  /\ handleScroll None monthRefs (Some activeMonth) = Some activeMonth.
Proof.
  split; [|split; [|done]].
  - intros i key offsetTop Hi Hmin.
    assert (handleScroll (Some containerTop) monthRefs (Some activeMonth) = monthOfKey key)
      as Hres.
    { unfold handleScroll.
      rewrite (scan_closest containerTop monthRefs i (Some activeMonth) None key offsetTop
                 Hi eq_refl Hmin). simpl.
      destruct (monthOfKey key) as [t|]; [|done]. simpl.
      by destruct (Z.eqb_spec t activeMonth) as [->|]. }
    split; [done|]. intros month Hy ->. rewrite Hres.
    rewrite format_monthKey by lia.
    pose proof (MonthFromTime_range month).
    rewrite monthOfKey_monthKeyOf by (done || lia).
    rewrite startOfMonth_first. unfold newDate, MakeFullYear.
    destruct (Z.leb_spec (getFullYear month) 99); [lia|].
    by rewrite andb_false_r.
  - intros Hnone. unfold handleScroll. rewrite scan_none by done. simpl.
    by rewrite Z.eqb_refl.
Qed.

End ScrollFacts.

(** ** The rows of the grid *)
Section RowFacts.
Import JSDate DateFns Calendar.
Variable Solar_fromYmd : Z -> Z -> Z -> Solar.
Variable HolidayUtil_getHoliday : Z -> Z -> Z -> option Holiday.
Variable customHolidays : list CustomHoliday.
Variable markedDates : gset string.

Local Abbreviation cache_ok := (cache_ok Solar_fromYmd HolidayUtil_getHoliday).
Local Abbreviation cellOf :=
  (cellOf Solar_fromYmd HolidayUtil_getHoliday customHolidays markedDates).
Local Abbreviation pushDay :=
  (pushDay Solar_fromYmd HolidayUtil_getHoliday customHolidays markedDates).
Local Abbreviation monthDays :=
  (fun cache month =>
     monthDays Solar_fromYmd HolidayUtil_getHoliday cache month
       customHolidays markedDates).

Lemma forUp_inv {S : Type} (I : S -> Prop) (body : Z -> S -> S) n : forall i s,
  (forall j s, i <= j < i + Z.of_nat n -> I s -> I (body j s)) ->
  I s -> I (forUp i n body s).
Proof.
  induction n as [|n IH]; intros i s Hbody Hs; simpl; [done|].
  apply IH.
  - intros j s' Hj. apply Hbody. lia.
  - apply Hbody; [lia | done].
Qed.

Lemma forDown_inv {S : Type} (I : S -> Prop) (body : Z -> S -> S) n : forall i s,
  (forall j s, i - Z.of_nat n < j <= i -> I s -> I (body j s)) ->
  I s -> I (forDown i n body s).
Proof.
  induction n as [|n IH]; intros i s Hbody Hs; simpl; [done|].
  apply IH.
  - intros j s' Hj. apply Hbody. lia.
  - apply Hbody; [lia | done].
Qed.

Lemma yearFromDay_between d a b :
  DayFromYear a <= d < DayFromYear b -> a <= yearFromDay d < b.
Proof.
  intros Hd. pose proof (yearFromDay_spec d) as Hs. split.
  - destruct (Z_lt_le_dec (yearFromDay d) a) as [Hlt|]; [|done].
    pose proof (DayFromYear_le (yearFromDay d + 1) a ltac:(lia)). lia.
  - destruct (Z_lt_le_dec (yearFromDay d) b) as [|Hge]; [done|].
    pose proof (DayFromYear_le b (yearFromDay d) Hge). lia.
Qed.

Lemma year_near year m j :
  0 <= m <= 11 -> -365 <= j <= 365 ->
  MakeFullYear year - 1 <= getFullYear (newDate year m 1 + j * msPerDay)
    <= MakeFullYear year + 1.
Proof.
  intros Hm Hj. set (Y := MakeFullYear year).
  unfold getFullYear, YearFromTime, newDate. fold Y.
  replace (MakeDate (MakeDay Y m 1) 0 + j * msPerDay)
    with (MakeDate (MakeDay Y m 1 + j) 0) by (unfold MakeDate; lia).
  rewrite Day_MakeDate by (unfold msPerDay; lia).
  pose proof (daysInMonth_range Y m).
  pose proof (MakeDay_year_bounds Y m 1 Hm ltac:(lia)) as Hb.
  pose proof (DayFromYear_succ (Y - 1)) as H1.
  pose proof (DayFromYear_succ (Y + 1)) as H2.
  rewrite DaysInYear_leapDays in H1, H2.
  pose proof (leapDays_range (Y - 1)). pose proof (leapDays_range (Y + 1)).
  replace (Y - 1 + 1) with Y in H1 by lia.
  enough (Y - 1 <= yearFromDay (MakeDay Y m 1 + j) < Y + 1 + 1) by lia.
  apply yearFromDay_between. lia.
Qed.

Lemma pushDay_years st d cur :
  1 <= getFullYear d <= 9999 -> years_ok st -> years_ok (pushDay d cur st).
Proof.
  intros Hd [Hc Hcells]. unfold Calendar.pushDay, Calendar.getBaseDayData.
  set (key0 := cacheKey (format_yyyy_MM_dd d) cur).
  destruct (st.1 !! key0) as [data|] eqn:Hl; cbn [fst snd].
  - split; [done|]. apply Forall_app. split; [done|].
    apply Forall_singleton. rewrite combineDayData_fields. cbn [base].
    by apply (Hc _ _ Hl).
  - split.
    + intros key data Hins. cbn [fst] in Hins.
      destruct (decide (key0 = key)) as [<-|Hne].
      * rewrite lookup_insert_eq in Hins. by injection Hins as <-.
      * rewrite lookup_insert_ne in Hins by done. by apply (Hc _ _ Hins).
    + apply Forall_app. split; [done|].
      apply Forall_singleton. by rewrite combineDayData_fields.
Qed.

Lemma monthDays_years (baseDayCache : gmap string BaseDayData) (month : Z) :
  cache_years baseDayCache ->
  2 <= MakeFullYear (getFullYear month) <= 9998 ->
  years_ok (monthDays baseDayCache month).
Proof.
  intros Hc Hy. unfold Calendar.monthDays.
  set (year := getFullYear month) in *. set (m := getMonth month).
  assert (0 <= m <= 11) as Hm by apply MonthFromTime_range.
  pose proof (startOffsetOf_range (getDay (newDate year m 1)) (WeekDay_range _)) as Hoff.
  pose proof (daysInMonth_range (MakeFullYear year) m) as Hlen.
  rewrite (getDate_newDate_last year m Hm).
  assert (forall j, -365 <= j <= 365 ->
            1 <= getFullYear (newDate year m (1 + j)) <= 9999) as Hnear.
  { intros j Hj. rewrite newDate_shift.
    pose proof (year_near year m j Hm Hj). lia. }
  apply forUp_inv.
  { intros j s Hj. apply pushDay_years.
    rewrite newDate_next_month by done.
    replace (j + daysInMonth (MakeFullYear year) m)
      with (1 + (j + daysInMonth (MakeFullYear year) m - 1)) by lia.
    apply Hnear. lia. }
  apply forUp_inv.
  { intros j s Hj. apply pushDay_years.
    replace j with (1 + (j - 1)) by lia. apply Hnear. lia. }
  apply forDown_inv.
  { intros j s Hj. apply pushDay_years.
    replace (1 - j) with (1 + (- j)) by lia. apply Hnear. lia. }
  split; [done | constructor].
Qed.

Lemma same_key_same_day t1 t2 :
  1 <= getFullYear t1 <= 9999 -> 1 <= getFullYear t2 <= 9999 ->
  format_yyyy_MM_dd t1 = format_yyyy_MM_dd t2 -> Day t1 = Day t2.
Proof.
  intros H1 H2 Heq. pose proof (format_compare t1 t2 H1 H2) as Hcmp.
  rewrite Heq in Hcmp.
  pose proof (String.compare_antisym (format_yyyy_MM_dd t2) (format_yyyy_MM_dd t2)) as Hanti.
  apply Z.compare_eq. rewrite <- Hcmp.
  by destruct (String.compare (format_yyyy_MM_dd t2) (format_yyyy_MM_dd t2)).
Qed.

Lemma Day_shift t k : Day (t + k * msPerDay) = Day t + k.
Proof. unfold Day, msPerDay. by rewrite Z.div_add by lia. Qed.

Lemma isSameDay_Day a b : isSameDay a b = true <-> Day a = Day b.
Proof.
  unfold isSameDay, startOfDay, setHours0, MakeDate, msPerDay.
  rewrite Z.eqb_eq. lia.
Qed.

(** The weekday and the row flags of a time of the day [k - startOffset]
    days from the first of the month, in a grid that starts on a Monday. *)
Lemma row_of_day (firstDay startOffset k t : Z) :
  0 <= k ->
  getDay (firstDay - startOffset * msPerDay) = 1 ->
  Day t = Day firstDay + k - startOffset ->
  getDay t = (k + 1) mod 7
  /\ ((getDay t =? 1) = true <-> k mod 7 = 0)
  /\ ((getDay t =? 0) = true <-> k mod 7 = 6).
Proof.
  intros Hk Hmon Hday.
  assert (getDay t = (k + 1) mod 7) as Hwd.
  { unfold getDay, WeekDay in *. rewrite Hday.
    replace (firstDay - startOffset * msPerDay)
      with (firstDay + (- startOffset) * msPerDay) in Hmon by lia.
    rewrite Day_shift in Hmon.
    replace (Day firstDay + k - startOffset + 4)
      with (Day firstDay + - startOffset + 4 + k) by lia.
    rewrite <- Zplus_mod_idemp_l, Hmon. f_equal. lia. }
  split; [done|]. rewrite Hwd, !Z.eqb_eq.
  pose proof (Z.mod_pos_bound k 7 ltac:(lia)).
  rewrite <- Zplus_mod_idemp_l.
  destruct (decide (k mod 7 = 6)) as [H6|Hne].
  - rewrite H6. split; split; intros; done.
  - rewrite Z.mod_small by lia. lia.
Qed.

(** The date of a cell is a time of the day the grid has at its place. *)
Lemma cell_day (baseDayCache : gmap string BaseDayData) (month : Z) (k : nat) (cell : DayData) :
  cache_ok baseDayCache -> cache_years baseDayCache ->
  2 <= MakeFullYear (getFullYear month) <= 9998 ->
  (monthDays baseDayCache month).2 !! k = Some cell ->
  Day (date (base cell))
  = Day (newDate (getFullYear month) (getMonth month) 1) + Z.of_nat k
    - startOffsetOf (getDay (newDate (getFullYear month) (getMonth month) 1))
  /\ dateStr (base cell) = format_yyyy_MM_dd (date (base cell)).
Proof.
  intros Hc Hyears Hy Hl.
  destruct (monthDays_cells _ _ customHolidays markedDates baseDayCache month Hc)
    as (_ & Hlen & Hcells).
  assert (k < 42)%nat as Hk by (apply lookup_lt_Some in Hl; lia).
  destruct (Hcells k Hk) as (cell' & Hl' & d' & Hfmt & Hcell).
  assert (cell' = cell) as -> by congruence.
  destruct (monthDays_years baseDayCache month Hyears Hy)
    as [_ Hall].
  rewrite Forall_lookup in Hall. specialize (Hall k cell Hl).
  assert (0 <= getMonth month <= 11) as Hm by apply MonthFromTime_range.
  pose proof (startOffsetOf_range
                (getDay (newDate (getFullYear month) (getMonth month) 1))
                (WeekDay_range _)) as Hoff.
  set (firstDay := newDate (getFullYear month) (getMonth month) 1) in *.
  set (startOffset := startOffsetOf (getDay firstDay)) in *.
  assert (date (base cell) = d') as Hdate by (by rewrite Hcell, combineDayData_fields).
  split; [|by rewrite Hcell, combineDayData_fields].
  pose proof (year_near (getFullYear month) (getMonth month)
                (Z.of_nat k - startOffset) Hm ltac:(lia)) as Hnear.
  fold firstDay in Hnear. rewrite Hdate in *.
  rewrite (same_key_same_day d' (firstDay + (Z.of_nat k - startOffset) * msPerDay)
             Hall ltac:(lia) Hfmt), Day_shift. lia.
Qed.

(** X13. The dates the cells carry agree with the grid, also where a
    record comes from the cache.  For a month whose year, as the
    constructor reads it, is from 2 to 9998, and a cache that
    [getBaseDayData] has filled with dates of the years 1 to 9999: the
    [date] of cell [k] is a time of the day [k - startOffset] days from
    the first of the month and prints as the [dateStr] of the cell; its
    weekday is [(k + 1) mod 7], so the rows run from Monday to Sunday,
    [isRowStart] holding exactly in the first column and [isRowEnd]
    exactly in the last; and [isSameDay], which marks today and the
    selected day, holds exactly of the times of that day. *)
Theorem monthDays_rows (baseDayCache : gmap string BaseDayData) (month : Z) :
  cache_ok baseDayCache -> cache_years baseDayCache ->
  2 <= MakeFullYear (getFullYear month) <= 9998 ->
  let firstDay := newDate (getFullYear month) (getMonth month) 1 in
  let startOffset := startOffsetOf (getDay firstDay) in
  let days := (monthDays baseDayCache month).2 in
  forall k, (k < 42)%nat ->
    exists cell,
      days !! k = Some cell
      /\ Day (date (base cell)) = Day firstDay + Z.of_nat k - startOffset
      /\ dateStr (base cell) = format_yyyy_MM_dd (date (base cell))
      /\ getDay (date (base cell)) = (Z.of_nat k + 1) mod 7
      /\ (isRowStart cell = true <-> Z.of_nat k mod 7 = 0)
      /\ (isRowEnd cell = true <-> Z.of_nat k mod 7 = 6)
      /\ forall t, isSameDay (date (base cell)) t = true
                   <-> Day t = Day firstDay + Z.of_nat k - startOffset.
Proof.
  intros Hc Hyears Hy firstDay startOffset days k Hk.
  destruct (lookup_lt_is_Some_2 days k) as [cell Hl].
  { destruct (monthDays_cells _ _ customHolidays markedDates baseDayCache month Hc)
      as (_ & Hlen & _).
    subst days. cbv beta. rewrite Hlen. done. }
  destruct (cell_day baseDayCache month k cell Hc Hyears Hy Hl) as [Hday Hstr].
  destruct (row_of_day firstDay startOffset (Z.of_nat k) (date (base cell))
              ltac:(lia) (first_cell_monday firstDay) Hday) as (Hwd & Hstart & Hend).
  exists cell. split; [done|]. split; [done|]. split; [done|]. split; [done|].
  split; [done|]. split; [done|].
  intros t. rewrite isSameDay_Day. fold firstDay startOffset in Hday. rewrite Hday.
  split; intros; lia.
Qed.

End RowFacts.

Lemma cache_years_empty : cache_years ∅.
Proof. intros key data Hl. by rewrite lookup_empty in Hl. Qed.

Lemma monthDays_rows_witness :
  exists cell,
    (Calendar.monthDays Samples.plainSolar Samples.noHoliday ∅
       Samples.february2026 [] ∅).2 !! 6%nat = Some cell
    /\ JSDate.getDay (Calendar.date (Calendar.base cell)) = 0
    /\ Calendar.isRowEnd cell = true.
Proof.
  destruct (monthDays_rows Samples.plainSolar Samples.noHoliday [] ∅ ∅
              Samples.february2026 (cache_ok_empty _ _) cache_years_empty
              ltac:(vm_compute; split; discriminate) 6%nat ltac:(lia))
    as (cell & Hl & _ & _ & Hwd & _ & Hend & _).
  exists cell. split; [exact Hl|]. split; [exact Hwd|].
  apply Hend. reflexivity.
Defined.

(** ** A grid built again *)
Section ReplayFacts.
Import JSDate DateFns Calendar.
Variable Solar_fromYmd : Z -> Z -> Z -> Solar.
Variable HolidayUtil_getHoliday : Z -> Z -> Z -> option Holiday.

Local Abbreviation pushDay := (pushDay Solar_fromYmd HolidayUtil_getHoliday).
Local Abbreviation monthDays := (monthDays Solar_fromYmd HolidayUtil_getHoliday).
Lemma base_combineDayData data ch md : base (combineDayData data ch md) = data.
Proof. by rewrite combineDayData_fields. Qed.

Lemma replays_push d cur : replays (fun ch md => pushDay ch md d cur).
Proof.
  intros ch md st. unfold Calendar.pushDay, Calendar.getBaseDayData.
  set (key := cacheKey (format_yyyy_MM_dd d) cur).
  destruct (st.1 !! key) as [data|] eqn:Hl; cbn [fst snd].
  - exists [combineDayData data ch md]. split; [done|]. split; [done|].
    intros ch' md' st' Hsub.
    rewrite (lookup_weaken _ _ _ _ Hl Hsub). cbn [fst snd fmap list_fmap].
    by rewrite base_combineDayData.
  - eexists [_]. split; [done|]. split; [by apply insert_subseteq|].
    intros ch' md' st' Hsub.
    rewrite (lookup_weaken _ st'.1 key _ (lookup_insert_eq _ _ _) Hsub).
    cbn [fst snd fmap list_fmap]. by rewrite base_combineDayData.
Qed.

Lemma replays_seq run1 run2 :
  replays run1 -> replays run2 -> replays (fun ch md st => run2 ch md (run1 ch md st)).
Proof.
  intros H1 H2 ch md st.
  destruct (H1 ch md st) as (cells1 & Hrun1 & Hsub1 & Hre1).
  destruct (H2 ch md (run1 ch md st)) as (cells2 & Hrun2 & Hsub2 & Hre2).
  exists (cells1 ++ cells2). split.
  { rewrite Hrun2 at 1. rewrite Hrun1 at 2. cbn [snd]. by rewrite app_assoc. }
  split; [by etrans|].
  intros ch' md' st' Hsub.
  rewrite (Hre1 ch' md' st') by (by etrans).
  rewrite (Hre2 ch' md' _) by done. cbn [fst snd].
  by rewrite fmap_app, app_assoc.
Qed.

Lemma replays_skip : replays (fun ch md st => st).
Proof.
  intros ch md st. exists []. rewrite app_nil_r. split; [by destruct st|].
  split; [done|]. intros ch' md' st' _. rewrite app_nil_r. by destruct st'.
Qed.

Lemma replays_forUp (f : Z -> Z) cur n : forall i,
  replays (fun ch md => forUp i n (fun i => pushDay ch md (f i) cur)).
Proof.
  induction n as [|n IH]; intros i; simpl; [apply replays_skip|].
  apply (replays_seq (fun ch md => pushDay ch md (f i) cur)
           (fun ch md => forUp (i + 1) n (fun i => pushDay ch md (f i) cur))).
  - apply replays_push.
  - apply IH.
Qed.

Lemma replays_forDown (f : Z -> Z) cur n : forall i,
  replays (fun ch md => forDown i n (fun i => pushDay ch md (f i) cur)).
Proof.
  induction n as [|n IH]; intros i; simpl; [apply replays_skip|].
  apply (replays_seq (fun ch md => pushDay ch md (f i) cur)
           (fun ch md => forDown (i - 1) n (fun i => pushDay ch md (f i) cur))).
  - apply replays_push.
  - apply IH.
Qed.

(** The two loops of the month and its days, then the loop that pads the
    grid to 42 cells. *)
Lemma replays_padded run (f : Z -> Z) cur ch md ch' md' c :
  replays run ->
  let st2 := run ch md (c, []) in
  let st3 :=
    forUp 1 (Z.to_nat (42 - Z.of_nat (List.length st2.2)))
      (fun i => pushDay ch md (f i) cur) st2 in
  let st2' := run ch' md' (st3.1, []) in
  c ⊆ st3.1
  /\ forUp 1 (Z.to_nat (42 - Z.of_nat (List.length st2'.2)))
       (fun i => pushDay ch' md' (f i) cur) st2'
     = (st3.1, (fun cell => combineDayData (base cell) ch' md') <$> st3.2).
Proof.
  intros Hrun st2 st3 st2'.
  destruct (Hrun ch md (c, [])) as (cells & Hst2 & Hsub & Hre).
  fold st2 in Hst2, Hsub, Hre. cbn [fst snd] in Hst2, Hsub. rewrite app_nil_l in Hst2.
  assert (st2.2 = cells) as Hcells by (by rewrite Hst2).
  set (n := Z.to_nat (42 - Z.of_nat (List.length st2.2))) in *.
  destruct (replays_forUp f cur n 1 ch md st2)
    as (cells3 & Hst3 & Hsub3 & Hre3).
  fold st3 in Hst3, Hsub3, Hre3.
  split; [by etrans|].
  assert (st2' = (st3.1, (fun cell => combineDayData (base cell) ch' md') <$> cells))
    as Hst2'.
  { subst st2'. rewrite (Hre ch' md' (st3.1, [])) by done. done. }
  rewrite Hst2'. cbn [snd]. rewrite length_fmap, <- Hcells. fold n.
  rewrite (Hre3 ch' md' _) by done. cbn [fst snd].
  rewrite Hst3. cbn [snd]. by rewrite Hcells, fmap_app.
Qed.

(** X14. Building the grid of a month again, after the ranges or the
    marks have changed, takes every base record from the cache: on the
    cache that the first build left (which holds all that the cache held
    before), [days] leaves the cache as it is, and its cells are the
    base records of the first build merged with the new ranges and
    marks. *)
Theorem monthDays_rebuilt_from_cache (baseDayCache : gmap string BaseDayData) (month : Z)
    (customHolidays customHolidays' : list CustomHoliday)
    (markedDates markedDates' : gset string) :
  let built := monthDays baseDayCache month customHolidays markedDates in
  baseDayCache ⊆ built.1
  /\ monthDays built.1 month customHolidays' markedDates'
     = (built.1,
        (fun cell => combineDayData (base cell) customHolidays' markedDates') <$> built.2).
Proof.
  exact (replays_padded _
           (fun i => newDate (getFullYear month) (getMonth month + 1) i) false
           customHolidays markedDates customHolidays' markedDates' baseDayCache
           (replays_seq _ _
              (replays_forDown
                 (fun i => newDate (getFullYear month) (getMonth month) (1 - i)) false
                 (Z.to_nat (startOffsetOf
                              (getDay (newDate (getFullYear month) (getMonth month) 1))))
                 (startOffsetOf
                    (getDay (newDate (getFullYear month) (getMonth month) 1))))
              (replays_forUp
                 (fun i => newDate (getFullYear month) (getMonth month) i) true
                 (Z.to_nat (getDate (newDate (getFullYear month) (getMonth month + 1) 0)))
                 1))).
Qed.

End ReplayFacts.

(** ** The date calculator *)
Section LabelFacts.
Import JSDate DateFns Calendar.

Lemma differenceInDays_midnight_before sel cur :
  TimeWithinDay sel = 0 -> Day sel <= Day cur ->
  differenceInDays sel cur = Day sel - Day cur.
Proof.
  intros Hmid Hle. unfold differenceInDays.
  pose proof (MakeDate_Day cur) as Hc. pose proof (MakeDate_Day sel) as Hs.
  pose proof (TimeWithinDay_range cur) as Hr.
  rewrite Hmid in Hs. unfold MakeDate, msPerDay in *.
  replace (sel - cur) with (- (cur - sel)) by lia.
  rewrite Z.quot_opp_l by lia. rewrite Z.quot_div_nonneg by lia.
  replace (cur - sel) with ((Day cur - Day sel) * 86400000 + TimeWithinDay cur) by lia.
  rewrite Z.div_add_l by lia. rewrite Z.div_small by lia. lia.
Qed.

Lemma differenceInDays_midnight_after sel cur :
  TimeWithinDay sel = 0 -> Day cur < Day sel ->
  differenceInDays sel cur
  = Day sel - Day cur - (if TimeWithinDay cur =? 0 then 0 else 1).
Proof.
  intros Hmid Hlt. unfold differenceInDays.
  pose proof (MakeDate_Day cur) as Hc. pose proof (MakeDate_Day sel) as Hs.
  pose proof (TimeWithinDay_range cur) as Hr.
  rewrite Hmid in Hs. unfold MakeDate, msPerDay in *.
  rewrite Z.quot_div_nonneg by lia.
  destruct (Z.eqb_spec (TimeWithinDay cur) 0) as [H0|Hne].
  - replace (sel - cur) with ((Day sel - Day cur) * 86400000) by lia.
    rewrite Z.div_mul by lia. lia.
  - replace (sel - cur)
      with ((Day sel - Day cur - 1) * 86400000 + (86400000 - TimeWithinDay cur)) by lia.
    rewrite Z.div_add_l by lia. rewrite Z.div_small by lia. lia.
Qed.

(** X15. What the date calculator says of a day picked in the grid, a
    [selectedDate] at midnight: "就是今天" for the day of the reference date,
    "已过 n 天" for the day [n] days before it.  [differenceInDays] counts
    full days, so when the reference date is later than midnight the day
    after it reads "就是今天" too, and a day [n] days ahead, [n] at least 2,
    reads "还有 n - 1 天"; when the reference date is at midnight a day [n]
    days ahead reads "还有 n 天". *)
Theorem daysAwayLabel_of_a_grid_day (selectedDate currentDate : Z) :
  TimeWithinDay selectedDate = 0 ->
  (Day selectedDate = Day currentDate ->
     daysAwayLabel selectedDate currentDate = "就是今天")
  /\ (Day selectedDate < Day currentDate ->
      daysAwayLabel selectedDate currentDate
      = "已过 " +:+ toString (Day currentDate - Day selectedDate) +:+ " 天")
  /\ (Day currentDate < Day selectedDate -> TimeWithinDay currentDate = 0 ->
      daysAwayLabel selectedDate currentDate
      = "还有 " +:+ toString (Day selectedDate - Day currentDate) +:+ " 天")
  /\ (Day selectedDate = Day currentDate + 1 -> TimeWithinDay currentDate <> 0 ->
      daysAwayLabel selectedDate currentDate = "就是今天")
  /\ (Day currentDate + 1 < Day selectedDate -> TimeWithinDay currentDate <> 0 ->
      daysAwayLabel selectedDate currentDate
      = "还有 " +:+ toString (Day selectedDate - Day currentDate - 1) +:+ " 天").
Proof.
  intros Hmid. unfold daysAwayLabel.
  split; [|split; [|split; [|split]]].
  - intros Heq. rewrite differenceInDays_midnight_before by (done || lia).
    replace (Day selectedDate - Day currentDate) with 0 by lia. done.
  - intros Hlt. rewrite differenceInDays_midnight_before by (done || lia).
    destruct (Z.ltb_spec 0 (Day selectedDate - Day currentDate)); [lia|].
    destruct (Z.ltb_spec (Day selectedDate - Day currentDate) 0); [|lia].
    do 3 f_equal. lia.
  - intros Hlt H0. rewrite differenceInDays_midnight_after by done.
    rewrite H0. simpl. rewrite Z.sub_0_r.
    by destruct (Z.ltb_spec 0 (Day selectedDate - Day currentDate)); [|lia].
  - intros Heq Hne. rewrite differenceInDays_midnight_after by (done || lia).
    destruct (Z.eqb_spec (TimeWithinDay currentDate) 0); [done|].
    replace (Day selectedDate - Day currentDate - 1) with 0 by lia. done.
  - intros Hlt Hne. rewrite differenceInDays_midnight_after by (done || lia).
    destruct (Z.eqb_spec (TimeWithinDay currentDate) 0); [done|].
    by destruct (Z.ltb_spec 0 (Day selectedDate - Day currentDate - 1)); [|lia].
Qed.

End LabelFacts.

Lemma daysAwayLabel_of_a_grid_day_witness :
  Calendar.daysAwayLabel (JSDate.newDate 2026 1 23) Samples.currentDate = "就是今天"
  /\ Calendar.daysAwayLabel (JSDate.newDate 2026 1 25) Samples.currentDate
     = "还有 " +:+ DateFns.toString 2 +:+ " 天".
Proof.
  split.
  - apply (proj1 (proj2 (proj2 (proj2
             (daysAwayLabel_of_a_grid_day (JSDate.newDate 2026 1 23) Samples.currentDate
                ltac:(vm_compute; reflexivity)))))).
    + vm_compute. reflexivity.
    + vm_compute. discriminate.
  - apply (proj2 (proj2 (proj2 (proj2
             (daysAwayLabel_of_a_grid_day (JSDate.newDate 2026 1 25) Samples.currentDate
                ltac:(vm_compute; reflexivity)))))).
    + vm_compute. reflexivity.
    + vm_compute. discriminate.
Defined.

(** ** Runs of holiday cells *)
Section RunFacts.
Import JSDate DateFns Calendar.

Lemma isHolidayStart_false days idx day prevDay :
  (0 < idx)%nat -> days !! (idx - 1)%nat = Some prevDay ->
  isHoliday prevDay = true -> holidayName prevDay = holidayName day ->
  isHolidayStart days idx day = false.
Proof.
  intros Hidx Hprev Hh Hn. unfold isHolidayStart.
  destruct (Nat.ltb_spec 0 idx); [|lia].
  rewrite Hprev, Hh, Hn, String.eqb_refl. simpl. apply andb_false_r.
Qed.

Lemma isHolidayEnd_false days idx day nextDay :
  days !! (idx + 1)%nat = Some nextDay ->
  isHoliday nextDay = true -> holidayName nextDay = holidayName day ->
  isHolidayEnd days idx day = false.
Proof.
  intros Hnext Hh Hn. unfold isHolidayEnd.
  pose proof (lookup_lt_Some _ _ _ Hnext).
  destruct (Nat.ltb_spec idx (List.length days - 1)); [|lia].
  rewrite Hnext, Hh, Hn, String.eqb_refl. simpl. apply andb_false_r.
Qed.

Lemma run_start days : forall idx day,
  days !! idx = Some day -> isHoliday day = true ->
  exists i first,
    (i <= idx)%nat /\ days !! i = Some first
    /\ isHolidayStart days i first = true
    /\ forall k cell, (i <= k <= idx)%nat -> days !! k = Some cell ->
         isHoliday cell = true /\ holidayName cell = holidayName day.
Proof.
  induction idx as [|idx IH]; intros day Hl Hh.
  - exists 0%nat, day. split; [done|]. split; [done|]. split.
    + unfold isHolidayStart. simpl. by rewrite Hh.
    + intros k cell Hk Hc. assert (k = 0%nat) as -> by lia.
      rewrite Hl in Hc. by injection Hc as <-.
  - destruct (isHolidayStart days (S idx) day) eqn:Hstart.
    + exists (S idx), day. split; [done|]. split; [done|]. split; [done|].
      intros k cell Hk Hc. assert (k = S idx) as -> by lia.
      rewrite Hl in Hc. by injection Hc as <-.
    + unfold isHolidayStart in Hstart. rewrite Hh in Hstart. simpl in Hstart.
      replace (idx - 0)%nat with idx in Hstart by lia.
      destruct (days !! idx) as [p|] eqn:Hp; [|done].
      apply orb_false_iff in Hstart as [Hph Hpn].
      apply negb_false_iff in Hph, Hpn. apply String.eqb_eq in Hpn.
      destruct (IH p eq_refl Hph) as (i & first & Hi & Hfirst & Hs & Hrun).
      exists i, first. split; [lia|]. split; [done|]. split; [done|].
      intros k cell Hk Hc. destruct (decide (k = S idx)) as [->|Hne].
      * rewrite Hl in Hc. by injection Hc as <-.
      * rewrite <- Hpn. apply (Hrun k cell); [lia | done].
Qed.

Lemma run_end days : forall n idx day,
  (List.length days - idx <= n)%nat ->
  days !! idx = Some day -> isHoliday day = true ->
  exists j last,
    (idx <= j)%nat /\ days !! j = Some last
    /\ isHolidayEnd days j last = true
    /\ forall k cell, (idx <= k <= j)%nat -> days !! k = Some cell ->
         isHoliday cell = true /\ holidayName cell = holidayName day.
Proof.
  induction n as [|n IH]; intros idx day Hn Hl Hh.
  { apply lookup_lt_Some in Hl. lia. }
  destruct (isHolidayEnd days idx day) eqn:Hend.
  - exists idx, day. split; [done|]. split; [done|]. split; [done|].
    intros k cell Hk Hc. assert (k = idx) as -> by lia.
    rewrite Hl in Hc. by injection Hc as <-.
  - unfold isHolidayEnd in Hend. rewrite Hh in Hend. simpl in Hend.
    destruct (Nat.ltb_spec idx (List.length days - 1)); [|done].
    destruct (days !! (idx + 1)%nat) as [nx|] eqn:Hnx; [|done].
    apply orb_false_iff in Hend as [Hnh Hnn].
    apply negb_false_iff in Hnh, Hnn. apply String.eqb_eq in Hnn.
    destruct (IH (idx + 1)%nat nx ltac:(lia) Hnx Hnh) as (j & last & Hj & Hlast & He & Hrun).
    exists j, last. split; [lia|]. split; [done|]. split; [done|].
    intros k cell Hk Hc. destruct (decide (k = idx)) as [->|Hne].
    + rewrite Hl in Hc. by injection Hc as <-.
    + rewrite <- Hnn. apply (Hrun k cell); [lia | done].
Qed.

(** X16. Every holiday cell lies in a run of neighbouring holiday cells of
    its name that has the start flag on its first cell and on no other,
    and the end flag on its last cell and on no other; the holiday name is
    shown under the first cell only, when it is not empty. *)
Theorem holiday_run_has_one_start_and_one_end (days : list DayData) (idx : nat)
    (day : DayData) :
  days !! idx = Some day -> isHoliday day = true ->
  exists i j first last,
    (i <= idx <= j)%nat
    /\ days !! i = Some first /\ days !! j = Some last
    /\ isHolidayStart days i first = true
    /\ isHolidayEnd days j last = true
    /\ showsHolidayName days i first = JSString.truthy (holidayName day)
    /\ forall k cell, (i <= k <= j)%nat -> days !! k = Some cell ->
         isHoliday cell = true
         /\ holidayName cell = holidayName day
         /\ ((i < k)%nat -> isHolidayStart days k cell = false
                            /\ showsHolidayName days k cell = false)
         /\ ((k < j)%nat -> isHolidayEnd days k cell = false).
Proof.
  intros Hl Hh.
  destruct (run_start days idx day Hl Hh) as (i & first & Hi & Hfirst & Hs & Hbefore).
  destruct (run_end days (List.length days) idx day ltac:(lia) Hl Hh)
    as (j & last & Hj & Hlast & He & Hafter).
  assert (forall k cell, (i <= k <= j)%nat -> days !! k = Some cell ->
            isHoliday cell = true /\ holidayName cell = holidayName day) as Hrun.
  { intros k cell Hk Hc. destruct (le_lt_dec k idx).
    - apply (Hbefore k cell); [lia | done].
    - apply (Hafter k cell); [lia | done]. }
  exists i, j, first, last. split; [lia|].
  split; [done|]. split; [done|]. split; [done|]. split; [done|].
  split.
  { destruct (Hrun i first ltac:(lia) Hfirst) as [Hfh Hfn].
    unfold showsHolidayName. by rewrite Hfh, Hs, Hfn. }
  intros k cell Hk Hc. destruct (Hrun k cell Hk Hc) as [Hch Hcn].
  split; [done|]. split; [done|]. split.
  - intros Hik.
    destruct (lookup_lt_is_Some_2 days (k - 1)%nat) as [p Hp].
    { apply lookup_lt_Some in Hc. lia. }
    destruct (Hrun (k - 1)%nat p ltac:(lia) Hp) as [Hph Hpn].
    assert (isHolidayStart days k cell = false) as Hns.
    { apply (isHolidayStart_false days k cell p); [lia | done | done | congruence]. }
    split; [done|]. unfold showsHolidayName. rewrite Hns. by rewrite andb_false_r.
  - intros Hkj.
    destruct (lookup_lt_is_Some_2 days (k + 1)%nat) as [nx Hnx].
    { apply lookup_lt_Some in Hlast. lia. }
    destruct (Hrun (k + 1)%nat nx ltac:(lia) Hnx) as [Hnh Hnn].
    apply (isHolidayEnd_false days k cell nx); [done | done | congruence].
Qed.

End RunFacts.

Lemma holiday_run_has_one_start_and_one_end_witness :
  let days :=
    (Calendar.monthDays Samples.plainSolar Samples.springFestival ∅
       Samples.february2026 [] ∅).2 in
  exists day i j first last,
    days !! 24%nat = Some day
    /\ (i <= 24 <= j)%nat
    /\ days !! i = Some first /\ days !! j = Some last
    /\ Calendar.isHolidayStart days i first = true
    /\ Calendar.isHolidayEnd days j last = true
    /\ Calendar.showsHolidayName days i first = true.
Proof.
  intros days.
  assert (exists day, days !! 24%nat = Some day /\ Calendar.isHoliday day = true
                      /\ Calendar.holidayName day = "Spring Festival")
    as (day & Hday & Hh & Hname).
  { eexists. split; [vm_compute; reflexivity|]. split; reflexivity. }
  destruct (holiday_run_has_one_start_and_one_end days 24 day Hday Hh)
    as (i & j & first & last & Hij & Hfirst & Hlast & Hs & He & Hshow & _).
  exists day, i, j, first, last.
  split; [exact Hday|]. split; [exact Hij|]. split; [exact Hfirst|].
  split; [exact Hlast|]. split; [exact Hs|]. split; [exact He|].
  rewrite Hshow, Hname. reflexivity.
Defined.

(** ** The panel of the selected date *)
Section PanelFacts.
Import JSDate DateFns Calendar.
Variable Solar_fromYmd : Z -> Z -> Z -> Solar.
Variable HolidayUtil_getHoliday : Z -> Z -> Z -> option Holiday.
Variable customHolidays : list CustomHoliday.
Variable markedDates : gset string.

Local Abbreviation cache_ok := (cache_ok Solar_fromYmd HolidayUtil_getHoliday).
Local Abbreviation computeBaseDayData :=
  (computeBaseDayData Solar_fromYmd HolidayUtil_getHoliday).
Local Abbreviation getBaseDayData :=
  (getBaseDayData Solar_fromYmd HolidayUtil_getHoliday).
Local Abbreviation pushDay :=
  (pushDay Solar_fromYmd HolidayUtil_getHoliday customHolidays markedDates).
Local Abbreviation monthDays :=
  (fun cache month =>
     monthDays Solar_fromYmd HolidayUtil_getHoliday cache month
       customHolidays markedDates).
Local Abbreviation selectedBaseData :=
  (selectedBaseData Solar_fromYmd HolidayUtil_getHoliday).

Lemma pushDay_cached st d cur :
  cache_ok st.1 /\ cells_cached st ->
  cache_ok (pushDay d cur st).1 /\ cells_cached (pushDay d cur st).
Proof.
  intros [Hc Hcells].
  split; [by apply pushDay_ok|].
  unfold cells_cached, Calendar.pushDay, Calendar.getBaseDayData in *.
  set (key0 := cacheKey (format_yyyy_MM_dd d) cur).
  destruct (st.1 !! key0) as [data|] eqn:Hl; cbn [fst snd].
  - apply Forall_app. split; [done|]. apply Forall_singleton.
    rewrite base_combineDayData.
    destruct (Hc _ _ Hl) as (d' & Hkey & Hdata).
    apply cacheKey_inj in Hkey as [Hs Hb].
    assert (dateStr data = format_yyyy_MM_dd d) as ->
      by (rewrite Hdata; cbn [dateStr Calendar.computeBaseDayData]; done).
    by rewrite <- Hb.
  - apply Forall_app. split.
    + eapply Forall_impl; [exact Hcells|]. intros cell Hcell. cbv beta in *.
      rewrite lookup_insert_ne; [done|].
      intros Heq. rewrite <- Heq in Hcell. congruence.
    + apply Forall_singleton. rewrite base_combineDayData.
      cbn [dateStr isCurrentMonth Calendar.computeBaseDayData].
      by rewrite lookup_insert_eq.
Qed.

Lemma monthDays_cached (baseDayCache : gmap string BaseDayData) (month : Z) :
  cache_ok baseDayCache ->
  cache_ok (monthDays baseDayCache month).1 /\ cells_cached (monthDays baseDayCache month).
Proof.
  intros Hc. unfold Calendar.monthDays.
  apply (forUp_inv (fun st => cache_ok st.1 /\ cells_cached st)).
  { intros j s _. apply pushDay_cached. }
  apply (forUp_inv (fun st => cache_ok st.1 /\ cells_cached st)).
  { intros j s _. apply pushDay_cached. }
  apply (forDown_inv (fun st => cache_ok st.1 /\ cells_cached st)).
  { intros j s _. apply pushDay_cached. }
  split; [done | constructor].
Qed.

Lemma civil_of_Day t1 t2 :
  Day t1 = Day t2 ->
  getFullYear t1 = getFullYear t2 /\ getMonth t1 = getMonth t2
  /\ getDate t1 = getDate t2.
Proof.
  intros Hd.
  assert (YearFromTime t1 = YearFromTime t2) as Hy
    by (unfold YearFromTime; by rewrite Hd).
  assert (DayWithinYear t1 = DayWithinYear t2) as Hw
    by (unfold DayWithinYear; by rewrite Hd, Hy).
  assert (MonthFromTime t1 = MonthFromTime t2) as Hm
    by (unfold MonthFromTime, InLeapYear; by rewrite Hw, Hy).
  split; [done|]. split; [done|].
  unfold getDate, DateFromTime, InLeapYear. by rewrite Hw, Hm, Hy.
Qed.

Lemma computeBaseDayData_same_day t1 t2 b1 b2 :
  Day t1 = Day t2 ->
  dateStr (computeBaseDayData t1 b1) = dateStr (computeBaseDayData t2 b2)
  /\ lunarDay (computeBaseDayData t1 b1) = lunarDay (computeBaseDayData t2 b2)
  /\ festival (computeBaseDayData t1 b1) = festival (computeBaseDayData t2 b2).
Proof.
  intros Hd. destruct (civil_of_Day t1 t2 Hd) as (Hy & Hm & Hdt).
  unfold Calendar.computeBaseDayData, format_yyyy_MM_dd. cbn [dateStr lunarDay festival].
  by rewrite Hy, Hm, Hdt.
Qed.

(** X17. The bottom panel agrees with the cell that was clicked.  With
    the [date] of a cell of the grid as the selected date (a month whose
    year, as the constructor reads it, is from 2 to 9998, a cache that
    [getBaseDayData] has filled with dates of the years 1 to 9999):
    [isSelectedMarked] is the [isMarked] of the cell, and
    [selectedBaseData] carries the date key, the lunar day and the
    festival of the cell; for a cell of the month itself it is the very
    base record of the cell, taken from the cache, which stays as it
    is. *)
Theorem panel_matches_cell (baseDayCache : gmap string BaseDayData) (month : Z)
    (k : nat) (cell : DayData) :
  cache_ok baseDayCache -> cache_years baseDayCache ->
  2 <= MakeFullYear (getFullYear month) <= 9998 ->
  let built := monthDays baseDayCache month in
  built.2 !! k = Some cell ->
  let selectedDate := Some (date (base cell)) in
  isSelectedMarked markedDates selectedDate = isMarked cell
  /\ exists data,
       (selectedBaseData built.1 selectedDate).1 = Some data
       /\ dateStr data = dateStr (base cell)
       /\ lunarDay data = lunarDay (base cell)
       /\ festival data = festival (base cell)
       /\ (isCurrentMonth (base cell) = true ->
           data = base cell /\ (selectedBaseData built.1 selectedDate).2 = built.1).
Proof.
  intros Hc Hyears Hy built Hl selectedDate.
  destruct (cell_day Solar_fromYmd HolidayUtil_getHoliday customHolidays markedDates
              baseDayCache month k cell Hc Hyears Hy Hl) as [_ Hstr].
  destruct (monthDays_cached baseDayCache month Hc) as [Hc' Hcached].
  destruct (monthDays_years Solar_fromYmd HolidayUtil_getHoliday customHolidays
              markedDates baseDayCache month Hyears Hy) as [Hyears' Hcells].
  fold built in Hc', Hcached, Hyears', Hcells.
  unfold cells_cached in Hcached. rewrite Forall_lookup in Hcached, Hcells.
  specialize (Hcached k cell Hl). specialize (Hcells k cell Hl). cbv beta in *.
  destruct (monthDays_cells Solar_fromYmd HolidayUtil_getHoliday customHolidays
              markedDates baseDayCache month Hc) as (_ & _ & Hall).
  assert (k < 42)%nat as Hk.
  { destruct (monthDays_cells Solar_fromYmd HolidayUtil_getHoliday customHolidays
                markedDates baseDayCache month Hc) as (_ & Hlen & _).
    apply lookup_lt_Some in Hl. subst built. cbv beta in Hl. by rewrite Hlen in Hl. }
  destruct (Hall k Hk) as (cell' & Hl' & d' & _ & Hcell).
  assert (cell' = cell) as -> by (subst built; cbv beta in Hl; congruence).
  set (cur0 := bool_decide _) in Hcell.
  assert (base cell = computeBaseDayData d' cur0) as Hbase
    by (rewrite Hcell; apply base_combineDayData).
  assert (isCurrentMonth (base cell) = cur0) as Hcur0 by (by rewrite Hbase).
  assert (date (base cell) = d') as Hdate by (by rewrite Hbase).
  split.
  { unfold isSelectedMarked, selectedDateStr, selectedDate. rewrite <- Hstr.
    rewrite Hcell, base_combineDayData. by rewrite combineDayData_fields. }
  unfold selectedDate, Calendar.selectedBaseData, Calendar.getBaseDayData.
  rewrite <- Hstr. rewrite Hcur0 in *.
  destruct cur0.
  - rewrite Hcached. exists (base cell). cbn [fst snd]. done.
  - destruct (built.1 !! cacheKey (dateStr (base cell)) true) as [data|] eqn:Hhit;
      cbn [fst snd].
    + exists data. split; [done|].
      destruct (Hc' _ _ Hhit) as (d'' & Hkey & Hdata).
      apply cacheKey_inj in Hkey as [Hs Hb].
      assert (Day d'' = Day d') as Hday.
      { apply same_key_same_day.
        - specialize (Hyears' _ _ Hhit). by rewrite Hdata in Hyears'.
        - by rewrite <- Hdate.
        - by rewrite <- Hs, Hstr, Hdate. }
      destruct (computeBaseDayData_same_day d'' d' (isCurrentMonth data) false Hday)
        as (H1 & H2 & H3).
      rewrite Hbase, Hdata. done.
    + eexists. split; [done|]. rewrite Hdate, Hbase.
      destruct (computeBaseDayData_same_day d' d' true false eq_refl)
        as (H1 & H2 & H3). done.
Qed.

End PanelFacts.

Lemma panel_matches_cell_witness :
  let built :=
    Calendar.monthDays Samples.plainSolar Samples.springFestival ∅
      Samples.february2026 [Samples.longWeekend] ∅ in
  exists cell data,
    built.2 !! 6%nat = Some cell
    /\ (Calendar.selectedBaseData Samples.plainSolar Samples.springFestival built.1
          (Some (Calendar.date (Calendar.base cell)))).1 = Some data
    /\ data = Calendar.base cell
    /\ Calendar.isSelectedMarked ∅ (Some (Calendar.date (Calendar.base cell)))
       = Calendar.isMarked cell.
Proof.
  intros built.
  assert (exists cell, built.2 !! 6%nat = Some cell
                       /\ Calendar.isCurrentMonth (Calendar.base cell) = true)
    as (cell & Hcell & Hcur).
  { eexists. split; [vm_compute; reflexivity | reflexivity]. }
  destruct (panel_matches_cell Samples.plainSolar Samples.springFestival
              [Samples.longWeekend] ∅ ∅ Samples.february2026 6 cell
              (cache_ok_empty _ _) cache_years_empty
              ltac:(vm_compute; split; discriminate) Hcell)
    as (Hmarked & data & Hdata & _ & _ & _ & Hsame).
  exists cell, data. split; [exact Hcell|]. split; [exact Hdata|].
  split; [exact (proj1 (Hsame Hcur)) | exact Hmarked].
Defined.

(** ** Scrolling through the list *)
Section ScrollList.
Import JSDate DateFns Calendar.

Lemma monthsWindow_month date k month :
  monthsWindow date !! k = Some month ->
  exists n, -12 <= n <= 12
    /\ month = MakeDate (MakeDay (getFullYear date) (getMonth date + n) 1) 0.
Proof.
  rewrite monthsWindow_entries. change (@List.map) with (@fmap list _).
  rewrite list_lookup_fmap. intros Hk.
  destruct (List.seq 0 25 !! k) as [j|] eqn:Hj; [|done].
  apply lookup_seq in Hj as [-> Hlt]. cbn [fmap option_fmap option_map] in Hk.
  change (0 + k)%nat with k in Hk.
  exists (Z.of_nat k - 12). split; [lia | congruence].
Qed.

(** X18. Scrolling to a month of the list makes it the active month: for
    a date of the years 101 to 9998, when the entry of [monthRefs] under
    the key of a listed month has the element nearest to the scroll
    position (strictly nearer than the elements of the entries before it),
    [handleScroll] sets the active month to that month of the list. *)
Theorem scroll_selects_listed_month (date containerTop activeMonth : Z)
    (monthRefs : list (string * option Z)) (k i : nat) (month offsetTop : Z) :
  101 <= getFullYear date <= 9998 ->
  monthsWindow date !! k = Some month ->
  monthRefs !! i = Some (format_yyyy_MM month, Some offsetTop) ->
  (forall j key' offsetTop',
      monthRefs !! j = Some (key', Some offsetTop') ->
      ((j < i)%nat -> Z.abs (offsetTop - containerTop) < Z.abs (offsetTop' - containerTop))
      /\ Z.abs (offsetTop - containerTop) <= Z.abs (offsetTop' - containerTop)) ->
  handleScroll (Some containerTop) monthRefs (Some activeMonth) = Some month.
Proof.
  intros Hy Hk Hi Hmin.
  destruct (monthsWindow_month date k month Hk) as (n & Hn & ->).
  set (m := getMonth date + n) in *.
  destruct (firstOfMonth_civil (getFullYear date) m) as (Hy' & Hm' & _).
  pose proof (MonthFromTime_range date) as Hmr. fold (getMonth date) in Hmr.
  pose proof (Z.mod_pos_bound m 12 ltac:(lia)) as Hmod.
  assert (-1 <= m / 12 <= 1) as Hq.
  { pose proof (Z.div_mod m 12 ltac:(lia)). subst m. lia. }
  unfold handleScroll.
  rewrite (scan_closest containerTop monthRefs i (Some activeMonth) None _ offsetTop
             Hi eq_refl Hmin). cbn [fst].
  rewrite format_monthKey by (rewrite Hy'; lia).
  rewrite Hy', Hm', monthOfKey_monthKeyOf by lia.
  assert (newDate (getFullYear date + m / 12) (m mod 12) 1
          = MakeDate (MakeDay (getFullYear date) m 1) 0) as ->.
  { unfold newDate, MakeFullYear.
    destruct (Z.leb_spec (getFullYear date + m / 12) 99); [lia|].
    rewrite andb_false_r. by rewrite <- MakeDay_normal. }
  cbn [sameTime].
  by destruct (Z.eqb_spec (MakeDate (MakeDay (getFullYear date) m 1) 0) activeMonth)
    as [->|].
Qed.

End ScrollList.

Lemma scroll_selects_listed_month_witness :
  Calendar.handleScroll (Some 650)
    [("2026-01", Some 0); ("2026-02", Some 700); ("2026-03", Some 1500)]
    (Some Samples.currentDate)
  = Some (DateFns.startOfMonth Samples.currentDate).
Proof.
  apply (scroll_selects_listed_month Samples.currentDate 650 Samples.currentDate
           [("2026-01", Some 0); ("2026-02", Some 700); ("2026-03", Some 1500)]
           12 1 (DateFns.startOfMonth Samples.currentDate) 700).
  - vm_compute. split; discriminate.
  - vm_compute. reflexivity.
  - vm_compute. reflexivity.
  - intros [|[|[|j]]] key' offsetTop' Hj; try discriminate;
      injection Hj as <- <-; lia.
Defined.

(** ** A saved range in the progress banner *)
Section SavedProgress.
Import JSDate DateFns Calendar.
Variable HolidayUtil_getHoliday : Z -> Z -> Z -> option Holiday.
Local Abbreviation holidayProgress := (holidayProgress HolidayUtil_getHoliday).

(** X19. A saved range that holds the reference date shows in the
    progress banner: when [handleSaveCustomHoliday] accepts a range from
    the selected date to the end date (dates of the years 1 to 9999) that
    holds [currentDate], and no older range holds it, [holidayProgress]
    answers with the new name, the day index counted from the selected
    date and the days left up to the end date. *)
Theorem saved_range_progress (fuel : nat) (now currentDate : Z) (st : CalendarState)
    (selected end_ : Z) :
  selectedDate st = Some selected ->
  1 <= getFullYear selected <= 9999 ->
  1 <= getFullYear currentDate <= 9999 ->
  holidayNameInput st <> "" ->
  newDateOfKeyAtMidnight (holidayEndInput st) = Some end_ ->
  Day selected <= Day currentDate <= Day end_ ->
  Forall (fun c => inRange (format_yyyy_MM_dd currentDate) c = false)
    (customHolidays st) ->
  holidayProgress fuel currentDate (customHolidays (handleSaveCustomHoliday now st))
  = Returns (Some {| hp_name := holidayNameInput st;
                     hp_current := Day currentDate - Day selected + 1;
                     hp_remaining := Day end_ - Day currentDate |}).
Proof.
  intros Hsel Hy Hyc Hname Hend Hdays Hold.
  assert (holidayEndInput st <> "") as Hne by (by intros Heq; rewrite Heq in Hend).
  assert (JSString.lt (holidayEndInput st) (format_yyyy_MM_dd selected) = false) as Hlt.
  { destruct (JSString.lt _ _) eqn:Hlt; [|done].
    apply (lt_chronological _ _ _ Hy Hend) in Hlt. lia. }
  rewrite (handleSaveCustomHoliday_accepts now st selected Hsel Hname Hne Hlt).
  set (newHoliday := {| ch_id := toString now; ch_name := holidayNameInput st;
                        ch_start := format_yyyy_MM_dd selected;
                        ch_end := holidayEndInput st |}).
  pose proof (newDateOfKeyAtMidnight_format selected Hy) as Hstart.
  assert (inRange (format_yyyy_MM_dd currentDate) newHoliday = true) as Hin.
  { apply (inRange_chronological currentDate newHoliday _ end_ Hyc Hstart Hend).
    rewrite Day_MakeDate by (unfold msPerDay; lia). done. }
  unfold Calendar.holidayProgress.
  rewrite (find_first _ (customHolidays st) newHoliday [] Hold Hin).
  cbn [ch_start ch_end ch_name newHoliday]. rewrite Hstart, Hend.
  pose proof (newDateOfKeyAtMidnight_midnight _ _ Hend) as Hmid.
  assert (TimeWithinDay (MakeDate (Day selected) 0) = 0) as Hmid0
    by (apply TimeWithinDay_MakeDate; unfold msPerDay; lia).
  assert (Day (MakeDate (Day selected) 0) = Day selected) as Hday0
    by (apply Day_MakeDate; unfold msPerDay; lia).
  pose proof (MakeDate_Day currentDate) as Hc. pose proof (MakeDate_Day end_) as He.
  pose proof (TimeWithinDay_range currentDate) as Hr.
  rewrite Hmid in He.
  rewrite !differenceInDays_from_midnight, Hday0;
    [| done | unfold MakeDate, msPerDay in *; lia
     | done | unfold MakeDate, msPerDay in *; lia].
  do 3 f_equal; lia.
Qed.

End SavedProgress.

Lemma saved_range_progress_witness :
  Calendar.holidayProgress Samples.noHoliday 0 Samples.currentDate
    (Calendar.customHolidays
       (Calendar.handleSaveCustomHoliday 1771800000000
          (Samples.formState "2026-02-23" "Long weekend")))
  = Calendar.Returns (Some {| Calendar.hp_name := "Long weekend";
                              Calendar.hp_current := 3;
                              Calendar.hp_remaining := 1 |}).
Proof.
  apply (saved_range_progress Samples.noHoliday 0 1771800000000 Samples.currentDate
           (Samples.formState "2026-02-23" "Long weekend")
           (JSDate.newDate 2026 1 20) (JSDate.newDate 2026 1 23)).
  - reflexivity.
  - vm_compute. split; discriminate.
  - vm_compute. split; discriminate.
  - discriminate.
  - vm_compute. reflexivity.
  - vm_compute. split; discriminate.
  - repeat constructor.
Defined.
